(** * Commercial catalog: establishment queries, REST gateway and adapters

    A shallow embedding of the data-access code of the catalog:

    - the shared schema: the tables and the option lists;
    - [server/storage.ts]: [DatabaseStorage], the relational query engine;
    - the REST routes for establishments and attachments;
    - [lib/adapters]: the REST-backed client adapter;
    - the Firestore module: the document-store adapter.

    Promises are modelled by their outcome (a value or a thrown message),
    tables and collections by lists of records in stored order, and
    timestamps by the time value of a JavaScript [Date]: milliseconds
    since 1 January 1970 UTC. *)

From Stdlib Require Import ZArith QArith String Ascii List Bool Lia.
From Stdlib Require Import DecimalString.
From stdpp Require Import base option list sorting gmap strings.

Set Warnings "-register-all".

Local Open Scope string_scope.
Local Open Scope Z_scope.

(** ** The shared schema *)

Module Schema.

(** A row of the [establishments] table.  [description], [rating],
    [coverImage] and [createdAt] are nullable columns. *)
Record Establishment := mkEstablishment {
  est_id          : Z;
  est_name        : string;
  est_category    : string;
  est_location    : string;
  est_description : option string;
  est_rating      : option string;
  est_coverImage  : option string;
  est_userId      : Z;
  est_createdAt   : option Z
}.

(** A row of the [attachments] table. *)
Record Attachment := mkAttachment {
  att_id              : Z;
  att_fileName        : string;
  att_fileType        : string;
  att_fileSize        : string;
  att_filePath        : string;
  att_establishmentId : Z;
  att_userId          : Z;
  att_uploadDate      : option Z
}.

Definition ESTABLISHMENT_CATEGORIES : list string :=
  ["Restaurant"; "Retail"; "Services"; "Entertainment"].

Definition RATING_OPTIONS : list string :=
  ["5"; "4.5"; "4"; "3.5"; "3"; "2.5"; "2"].

Definition LOCATION_OPTIONS : list string :=
  ["Downtown"; "Uptown"; "Midtown"; "Suburban"].

End Schema.
Import Schema.

(** ** The store: values, comparison and ORDER BY *)

(** The columns the queries mention. *)
Inductive Column := col_name | col_category | col_location | col_rating | col_createdAt.

(** What a column holds in a given record: nothing, a text or a timestamp. *)
Inductive Value :=
| VNull
| VText (s : string)
| VTime (t : Z).

(** Text is compared byte-wise, the way a C-collated text column and the
    document store compare strings; a null sorts after every other value,
    as in the relational store. *)
Definition value_leb (a b : Value) : bool :=
  match a, b with
  | _, VNull => true
  | VNull, _ => false
  | VText s, VText t => String.leb s t
  | VTime s, VTime t => s <=? t
  | VText _, VTime _ => true
  | VTime _, VText _ => false
  end.

Definition is_null (v : Value) : bool :=
  match v with VNull => true | _ => false end.

Definition value_eqb (a b : Value) : bool := value_leb a b && value_leb b a.

Section Sorting.
Context {A : Type} (leb : A -> A -> bool).

(** Insert [x] in front of the first element it does not exceed. *)
Fixpoint insert_sorted (x : A) (l : list A) : list A :=
  match l with
  | [] => [x]
  | y :: l' => if leb x y then x :: y :: l' else y :: insert_sorted x l'
  end.

(** Stable sort: records with equal keys keep their stored order. *)
Definition sort_by (l : list A) : list A := foldr insert_sorted [] l.
End Sorting.

(** *** drizzle-orm conditions *)

Inductive SQL :=
| sql_eq  (c : Column) (v : string)
| sql_gte (c : Column) (v : string)
| sql_and (cs : list SQL).

Inductive OrderBy :=
| asc  (c : Column)
| desc (c : Column).

(** *** The filters of a list query *)

Record Filters := mkFilters {
  category : option string;
  location : option string;
  rating   : option string
}.

Definition no_filters : Filters := mkFilters None None None.

(** JavaScript truthiness of an optional string: absent and empty are falsy. *)
Definition truthy_string (s : option string) : bool :=
  match s with
  | None => false
  | Some s => negb (String.eqb s "")
  end.

(** *** Firestore query constraints *)

Inductive WhereOp := op_eq | op_ge.
Inductive Direction := dir_asc | dir_desc.

Inductive QueryConstraint :=
| qc_where   (f : Column) (op : WhereOp) (v : string)
| qc_orderBy (f : Column) (d : Direction).

Definition constraint_order (q : QueryConstraint) : option OrderBy :=
  match q with
  | qc_where _ _ _ => None
  | qc_orderBy f dir_asc => Some (asc f)
  | qc_orderBy f dir_desc => Some (desc f)
  end.

Section Engine.
(** The query engines are generic in the record type; [field] reads a
    column of a record and [key] is the key the document store files it
    under. *)
Context {Row : Type} (field : Column -> Row -> Value) (key : Row -> string).

(** A WHERE clause keeps the rows on which the condition is true; a
    comparison with a null is not true. *)
Fixpoint sql_holds (w : SQL) (r : Row) : bool :=
  match w with
  | sql_eq c v =>
      match field c r with VText s => String.eqb s v | _ => false end
  | sql_gte c v =>
      match field c r with VText s => String.leb v s | _ => false end
  | sql_and cs => forallb (fun w' => sql_holds w' r) cs
  end.

Definition order_leb (o : OrderBy) (a b : Row) : bool :=
  match o with
  | asc c  => value_leb (field c a) (field c b)
  | desc c => value_leb (field c b) (field c a)
  end.

(** [db.select().from(table).where(w).orderBy(o)], each part optional.
    Without ORDER BY the rows come in stored order; with it, rows with
    equal keys stay in stored order. *)
Definition db_select (w : option SQL) (o : option OrderBy) (table : list Row)
  : list Row :=
  let rows := match w with
              | None => table
              | Some c => List.filter (sql_holds c) table
              end in
  match o with
  | None => rows
  | Some o => sort_by (order_leb o) rows
  end.

(** *** server/storage.ts, [DatabaseStorage.getEstablishments] *)

Definition storage_conditions (filters : option Filters) : list SQL :=
  match filters with
  | None => []
  | Some f =>
      (match category f with
       | Some c =>
           if truthy_string (Some c) && negb (String.eqb c "All categories")
           then [sql_eq col_category c] else []
       | None => []
       end)
      ++
      (match location f with
       | Some l =>
           if truthy_string (Some l) && negb (String.eqb l "All locations")
           then [sql_eq col_location l] else []
       | None => []
       end)
      ++
      (match rating f with
       | Some r =>
           if truthy_string (Some r) && negb (String.eqb r "All ratings")
           then
             if String.eqb r "5 stars" then [sql_eq col_rating "5"]
             else if String.eqb r "4+ stars" then [sql_gte col_rating "4"]
             else if String.eqb r "3+ stars" then [sql_gte col_rating "3"]
             else []
           else []
       | None => []
       end)
  end.

Definition storage_getEstablishments
    (filters : option Filters) (sortBy : option string) (table : list Row)
  : list Row :=
  let sortBy := default "createdAt" sortBy in
  let conditions := storage_conditions filters in
  if (length conditions =? 0)%nat then
    if String.eqb sortBy "Newest first" || String.eqb sortBy "createdAt" then
      db_select None (Some (desc col_createdAt)) table
    else if String.eqb sortBy "Highest rated" then
      db_select None (Some (desc col_rating)) table
    else if String.eqb sortBy "Name A-Z" then
      db_select None (Some (asc col_name)) table
    else if String.eqb sortBy "Name Z-A" then
      db_select None (Some (desc col_name)) table
    else
      db_select None None table
  else
    let whereCondition :=
      match conditions with
      | [c] => c
      | _ => sql_and conditions
      end in
    if String.eqb sortBy "Newest first" || String.eqb sortBy "createdAt" then
      db_select (Some whereCondition) (Some (desc col_createdAt)) table
    else if String.eqb sortBy "Highest rated" then
      db_select (Some whereCondition) (Some (desc col_rating)) table
    else if String.eqb sortBy "Name A-Z" then
      db_select (Some whereCondition) (Some (asc col_name)) table
    else if String.eqb sortBy "Name Z-A" then
      db_select (Some whereCondition) (Some (desc col_name)) table
    else
      db_select (Some whereCondition) None table.

(** *** The Firestore module, [getEstablishments] *)

(** A [where] keeps the documents whose field is a string in the stated
    relation to the operand; an [orderBy] keeps the documents that have
    the field at all. *)
Definition constraint_holds (r : Row) (q : QueryConstraint) : bool :=
  match q with
  | qc_where f op_eq v =>
      match field f r with VText s => String.eqb s v | _ => false end
  | qc_where f op_ge v =>
      match field f r with VText s => String.leb v s | _ => false end
  | qc_orderBy f _ => negb (is_null (field f r))
  end.

(** The document store orders documents on the sort field and, among
    equal values, on the document key in the same direction. *)
Definition doc_leb (o : OrderBy) (a b : Row) : bool :=
  match o with
  | asc c =>
      if value_eqb (field c a) (field c b) then String.leb (key a) (key b)
      else value_leb (field c a) (field c b)
  | desc c =>
      if value_eqb (field c b) (field c a) then String.leb (key b) (key a)
      else value_leb (field c b) (field c a)
  end.

(** [getDocs(query(collection, ...constraints))]: the documents meeting
    every constraint, in the order of the (first) [orderBy]. *)
Definition getDocs (constraints : list QueryConstraint) (docs : list Row)
  : list Row :=
  let matching :=
    List.filter (fun r => forallb (constraint_holds r) constraints) docs in
  match omap constraint_order constraints with
  | [] => matching
  | o :: _ => sort_by (doc_leb o) matching
  end.

Definition firestore_filter_constraints (filters : option Filters)
  : list QueryConstraint :=
  match filters with
  | None => []
  | Some f =>
      (match category f with
       | Some c =>
           if truthy_string (Some c) && negb (String.eqb c "All categories")
           then [qc_where col_category op_eq c] else []
       | None => []
       end)
      ++
      (match location f with
       | Some l =>
           if truthy_string (Some l) && negb (String.eqb l "All locations")
           then [qc_where col_location op_eq l] else []
       | None => []
       end)
      ++
      (match rating f with
       | Some r =>
           if truthy_string (Some r) && negb (String.eqb r "All ratings")
           then
             if String.eqb r "5 stars" then [qc_where col_rating op_eq "5"]
             else if String.eqb r "4+ stars" then [qc_where col_rating op_ge "4"]
             else if String.eqb r "3+ stars" then [qc_where col_rating op_ge "3"]
             else []
           else []
       | None => []
       end)
  end.

(** The sort field and direction start as [createdAt]/[desc] and are
    overwritten only by a recognised label. *)
Definition firestore_sort (sortBy : string) : Column * Direction :=
  if String.eqb sortBy "Newest first" then (col_createdAt, dir_desc)
  else if String.eqb sortBy "Highest rated" then (col_rating, dir_desc)
  else if String.eqb sortBy "Name A-Z" then (col_name, dir_asc)
  else if String.eqb sortBy "Name Z-A" then (col_name, dir_desc)
  else (col_createdAt, dir_desc).

Definition firestore_getEstablishments
    (filters : option Filters) (sortBy : option string) (docs : list Row)
  : list Row :=
  let sortBy := default "createdAt" sortBy in
  let queryConstraints := firestore_filter_constraints filters in
  let '(sortField, sortOrder) := firestore_sort sortBy in
  let queryConstraints := (queryConstraints ++ [qc_orderBy sortField sortOrder])%list in
  getDocs queryConstraints docs.

End Engine.

(** The columns of an [establishments] row. *)
Definition establishment_field (c : Column) (e : Establishment) : Value :=
  match c with
  | col_name      => VText (est_name e)
  | col_category  => VText (est_category e)
  | col_location  => VText (est_location e)
  | col_rating    => from_option VText VNull (est_rating e)
  | col_createdAt => from_option VTime VNull (est_createdAt e)
  end.

(** An establishment row filed in the document store goes under its id. *)
Definition establishment_key (e : Establishment) : string :=
  NilZero.string_of_int (Z.to_int (est_id e)).

(** ** JavaScript values *)

(** The values that travel in request bodies and in documents.  An object
    is a finite map from property names; a missing property reads as
    [js_undefined]. *)
Inductive JsValue :=
| js_undefined
| js_null
| js_bool (b : bool)
| js_number (q : Q)
| js_string (s : string)
| js_date (t : Z)
| js_timestamp (t : Z).

Abbreviation JsObject := (gmap string JsValue).

Definition js_get (o : JsObject) (k : string) : JsValue :=
  default js_undefined (o !! k).

(** [undefined], [null], [false], [0] and the empty string are falsy. *)
Definition truthy (v : JsValue) : bool :=
  match v with
  | js_undefined | js_null => false
  | js_bool b => b
  | js_number q => negb (Qnum q =? 0)
  | js_string s => negb (String.eqb s "")
  | js_date _ | js_timestamp _ => true
  end.

(** [a || b] *)
Definition js_or (a b : JsValue) : JsValue := if truthy a then a else b.

Definition is_string (v : JsValue) : bool :=
  match v with js_string _ => true | _ => false end.

Definition is_date (v : JsValue) : bool :=
  match v with js_date _ => true | _ => false end.

(** [Number.prototype.toString] on an integer. *)
Definition toString (z : Z) : string := NilZero.string_of_int (Z.to_int z).

(** *** Dates in JSON *)

Fixpoint zeros (n : nat) : string :=
  match n with
  | O => ""
  | S n' => String "0" (zeros n')
  end.

(** [String(n).padStart(width, "0")] for a natural number [n]. *)
Definition pad (width : nat) (n : Z) : string :=
  let digits := toString n in
  zeros (width - String.length digits) ++ digits.

(** The year, month and day of the day [days] days after 1 January 1970,
    in the proleptic Gregorian calendar. *)
Definition civil_from_days (days : Z) : Z * Z * Z :=
  let z := days + 719468 in
  let era := z / 146097 in
  let doe := z - era * 146097 in
  let yoe := (doe - doe / 1460 + doe / 36524 - doe / 146096) / 365 in
  let doy := doe - (365 * yoe + yoe / 4 - yoe / 100) in
  let mp := (5 * doy + 2) / 153 in
  let d := doy - (153 * mp + 2) / 5 + 1 in
  let m := if mp <? 10 then mp + 3 else mp - 9 in
  let y := yoe + era * 400 + (if m <=? 2 then 1 else 0) in
  (y, m, d).

(** [Date.prototype.toISOString] of the date with time value [t]: years
    0 to 9999 take four digits, the others a sign and six. *)
Definition toISOString (t : Z) : string :=
  let '(y, m, d) := civil_from_days (t / 86400000) in
  let ms := t mod 86400000 in
  let year :=
    if (0 <=? y) && (y <=? 9999) then pad 4 y
    else (if y <? 0 then "-" else "+") ++ pad 6 (Z.abs y) in
  year ++ "-" ++ pad 2 m ++ "-" ++ pad 2 d
    ++ "T" ++ pad 2 (ms / 3600000)
    ++ ":" ++ pad 2 (ms / 60000 mod 60)
    ++ ":" ++ pad 2 (ms / 1000 mod 60)
    ++ "." ++ pad 3 (ms mod 1000) ++ "Z".

(** A [Date] holds a time value of at most 8.64e15 in size; any other
    date is invalid. *)
Definition valid_time (t : Z) : bool :=
  (-8640000000000000 <=? t) && (t <=? 8640000000000000).

(** What [JSON.stringify] followed by [JSON.parse] leaves of a [Date]:
    its ISO text, and [null] for an invalid date. *)
Definition toJSON (t : Z) : JsValue :=
  if valid_time t then js_string (toISOString t) else js_null.

(** ** The insert schemas (drizzle-zod over the tables) *)

Record ZodIssue := mkIssue { issue_path : string; issue_message : string }.

Definition Parsed (A : Type) : Type := list ZodIssue + A.

(** Validation goes through every field and gathers all the issues. *)
Definition zod_ap {A B} (f : Parsed (A -> B)) (a : Parsed A) : Parsed B :=
  match f, a with
  | inr f, inr a => inr (f a)
  | inl e, inr _ => inl e
  | inr _, inl e => inl e
  | inl e1, inl e2 => inl (e1 ++ e2)%list
  end.

Definition is_integer (q : Q) : bool := Z.rem (Qnum q) (Zpos (Qden q)) =? 0.

(** The name zod gives the type of a value it did not expect. *)
Definition received (v : JsValue) : string :=
  match v with
  | js_undefined => "undefined"
  | js_null => "null"
  | js_bool _ => "boolean"
  | js_number _ => "number"
  | js_string _ => "string"
  | js_date _ => "date"
  | js_timestamp _ => "object"
  end.

(** The issue of a value of the wrong type. *)
Definition invalid_type (path expected : string) (v : JsValue) : ZodIssue :=
  match v with
  | js_undefined => mkIssue path "Required"
  | _ => mkIssue path ("Expected " ++ expected ++ ", received " ++ received v)
  end.

(** A [notNull] text column: a string is required. *)
Definition zod_text (path : string) (v : JsValue) : Parsed string :=
  match v with
  | js_string s => inr s
  | _ => inl [invalid_type path "string" v]
  end.

(** A nullable text column: absent, [null] or a string. *)
Definition zod_text_nullish (path : string) (v : JsValue)
  : Parsed (option (option string)) :=
  match v with
  | js_undefined => inr None
  | js_null => inr (Some None)
  | js_string s => inr (Some (Some s))
  | _ => inl [invalid_type path "string" v]
  end.

(** The range of the [integer] column type. *)
Definition INT32_MIN : Z := -2147483648.
Definition INT32_MAX : Z := 2147483647.

Definition int32 (z : Z) : bool := (INT32_MIN <=? z) && (z <=? INT32_MAX).

(** A [notNull] integer column without default: a number is required,
    within the range of the column type and whole; the three checks all
    run, each adding its issue. *)
Definition zod_integer (path : string) (v : JsValue) : Parsed Z :=
  match v with
  | js_number q =>
      let issues :=
        ((if Qle_bool (inject_Z INT32_MIN) q then []
          else [mkIssue path "Number must be greater than or equal to -2147483648"])
         ++ (if Qle_bool q (inject_Z INT32_MAX) then []
             else [mkIssue path "Number must be less than or equal to 2147483647"])
         ++ (if is_integer q then []
             else [mkIssue path "Expected integer, received float"]))%list in
      match issues with
      | [] => inr (Qnum q / Zpos (Qden q))
      | _ => inl issues
      end
  | _ => inl [invalid_type path "number" v]
  end.

(** An integer column with a default: the property may be absent. *)
Definition zod_integer_optional (path : string) (v : JsValue)
  : Parsed (option Z) :=
  match v with
  | js_undefined => inr None
  | _ => zod_ap (inr Some) (zod_integer path v)
  end.

Record InsertEstablishment := mkInsertEstablishment {
  ins_name        : string;
  ins_category    : string;
  ins_location    : string;
  ins_description : option (option string);
  ins_rating      : option (option string);
  ins_coverImage  : option (option string);
  ins_userId      : option Z
}.

Record InsertAttachment := mkInsertAttachment {
  ina_fileName        : string;
  ina_fileType        : string;
  ina_fileSize        : string;
  ina_filePath        : string;
  ina_establishmentId : Z;
  ina_userId          : option Z
}.

(** [insertEstablishmentSchema.parse] *)
Definition insertEstablishmentSchema (data : JsObject) : Parsed InsertEstablishment :=
  zod_ap (zod_ap (zod_ap (zod_ap (zod_ap (zod_ap (zod_ap
    (inr mkInsertEstablishment)
    (zod_text "name" (js_get data "name")))
    (zod_text "category" (js_get data "category")))
    (zod_text "location" (js_get data "location")))
    (zod_text_nullish "description" (js_get data "description")))
    (zod_text_nullish "rating" (js_get data "rating")))
    (zod_text_nullish "coverImage" (js_get data "coverImage")))
    (zod_integer_optional "userId" (js_get data "userId")).

(** [insertAttachmentSchema.parse] *)
Definition insertAttachmentSchema (data : JsObject) : Parsed InsertAttachment :=
  zod_ap (zod_ap (zod_ap (zod_ap (zod_ap (zod_ap
    (inr mkInsertAttachment)
    (zod_text "fileName" (js_get data "fileName")))
    (zod_text "fileType" (js_get data "fileType")))
    (zod_text "fileSize" (js_get data "fileSize")))
    (zod_text "filePath" (js_get data "filePath")))
    (zod_integer "establishmentId" (js_get data "establishmentId")))
    (zod_integer_optional "userId" (js_get data "userId")).

(** ** Promises *)

(** An asynchronous call either resolves with a value or rejects with an
    error carrying a message. *)
Inductive Promise (A : Type) :=
| resolved (a : A)
| rejected (message : string).
Arguments resolved {A} a.
Arguments rejected {A} message.

Definition promise_bind {A B} (m : Promise A) (k : A -> Promise B) : Promise B :=
  match m with
  | resolved a => k a
  | rejected e => rejected e
  end.

(** [try { body } catch (error) { handler }] *)
Definition try_catch {A} (body : Promise A) (handler : string -> Promise A)
  : Promise A :=
  match body with
  | resolved a => resolved a
  | rejected e => handler e
  end.

Notation "'do' x <- m ; k" := (promise_bind m (fun x => k))
  (at level 10, x name, m at level 100, k at level 200).

Definition is_rejected {A} (p : Promise A) : bool :=
  match p with rejected _ => true | resolved _ => false end.

(** ** server/storage.ts, [DatabaseStorage] *)

(** The two tables with their [serial] counters. *)
Record Database := mkDatabase {
  establishments     : list Establishment;
  attachments        : list Attachment;
  establishments_seq : Z;
  attachments_seq    : Z
}.

(** Storage calls read and write the database. *)
Definition Store (A : Type) : Type := Database -> A * Database.

Definition store_ret {A} (a : A) : Store A := fun db => (a, db).

Definition store_bind {A B} (m : Store A) (k : A -> Store B) : Store B :=
  fun db => let '(a, db') := m db in k a db'.

Notation "'await' x <- m ; k" := (store_bind m (fun x => k))
  (at level 10, x name, m at level 100, k at level 200).

Module DatabaseStorage.

Definition getEstablishments (filters : option Filters) (sortBy : option string)
  : Store (list Establishment) :=
  fun db =>
    (storage_getEstablishments establishment_field filters sortBy
       (establishments db), db).

Definition getEstablishment (id : Z) : Store (option Establishment) :=
  fun db => (head (List.filter (fun e => est_id e =? id) (establishments db)), db).

(** A column left out of the insert takes its default: ["5"] for the
    rating, [1] for the owner, the current time for [createdAt]. *)
Definition createEstablishment (now : Z) (e : InsertEstablishment)
  : Store Establishment :=
  fun db =>
    let id := establishments_seq db + 1 in
    let row := {|
      est_id := id;
      est_name := ins_name e;
      est_category := ins_category e;
      est_location := ins_location e;
      est_description := default None (ins_description e);
      est_rating := default (Some "5") (ins_rating e);
      est_coverImage := default None (ins_coverImage e);
      est_userId := default 1 (ins_userId e);
      est_createdAt := Some now |} in
    (row, {| establishments := (establishments db ++ [row])%list;
             attachments := attachments db;
             establishments_seq := id;
             attachments_seq := attachments_seq db |}).

(** [db.delete(attachments).where(p)] *)
Definition delete_attachments_where (p : Attachment -> bool) : Store unit :=
  fun db =>
    (tt, {| establishments := establishments db;
            attachments := List.filter (fun a => negb (p a)) (attachments db);
            establishments_seq := establishments_seq db;
            attachments_seq := attachments_seq db |}).

(** [db.delete(establishments).where(p).returning({ id })] *)
Definition delete_establishments_where (p : Establishment -> bool) : Store (list Z) :=
  fun db =>
    (map est_id (List.filter p (establishments db)),
     {| establishments := List.filter (fun e => negb (p e)) (establishments db);
        attachments := attachments db;
        establishments_seq := establishments_seq db;
        attachments_seq := attachments_seq db |}).

Definition deleteEstablishment (id : Z) : Store bool :=
  (* First delete all attachments *)
  await _ <- delete_attachments_where (fun a => att_establishmentId a =? id);
  (* Then delete the establishment *)
  await result <- delete_establishments_where (fun e => est_id e =? id);
  store_ret (0 <? length result)%nat.

Definition getAttachments (establishmentId : Z) : Store (list Attachment) :=
  fun db =>
    (List.filter (fun a => att_establishmentId a =? establishmentId)
       (attachments db), db).

Definition createAttachment (now : Z) (a : InsertAttachment) : Store Attachment :=
  fun db =>
    let id := attachments_seq db + 1 in
    let row := {|
      att_id := id;
      att_fileName := ina_fileName a;
      att_fileType := ina_fileType a;
      att_fileSize := ina_fileSize a;
      att_filePath := ina_filePath a;
      att_establishmentId := ina_establishmentId a;
      att_userId := default 1 (ina_userId a);
      att_uploadDate := Some now |} in
    (row, {| establishments := establishments db;
             attachments := (attachments db ++ [row])%list;
             establishments_seq := establishments_seq db;
             attachments_seq := id |}).

(** [db.delete(attachments).where(p).returning({ id })] *)
Definition delete_attachments_returning (p : Attachment -> bool) : Store (list Z) :=
  fun db =>
    (map att_id (List.filter p (attachments db)),
     {| establishments := establishments db;
        attachments := List.filter (fun a => negb (p a)) (attachments db);
        establishments_seq := establishments_seq db;
        attachments_seq := attachments_seq db |}).

Definition deleteAttachment (id : Z) : Store bool :=
  await result <- delete_attachments_returning (fun a => att_id a =? id);
  store_ret (0 <? length result)%nat.

End DatabaseStorage.

(** ** The REST routes, [registerRoutes] *)

Inductive ResponseBody :=
| res_error (message : string)
| res_issues (errors : list ZodIssue)
| res_establishment (e : Establishment)
| res_establishments (l : list Establishment)
| res_attachment (a : Attachment)
| res_attachments (l : list Attachment)
| res_success (success : bool).

Record Response := mkResponse { status : Z; json : ResponseBody }.

(** The storage methods above are what the statements do for a
    parameter the [integer] column type can hold.  For any other number
    the database refuses the statement (value out of range for type
    integer), nothing is read or written, and the awaited call throws. *)
Definition storage_call {A} (id : Z) (call : Store A) : Store (Promise A) :=
  fun db =>
    if int32 id then let '(a, db') := call db in (resolved a, db')
    else (rejected "value out of range for type integer", db).

(** An insert draws the next value of the [serial] counter of its table.
    When that is no number of the column type the counter has run out:
    the database refuses the insert, and the awaited call throws. *)
Definition insert_call {A} (counter : Database -> Z) (call : Store A)
  : Store (Promise A) :=
  fun db => storage_call (counter db + 1) call db.

Module Routes.
Import DatabaseStorage.

(** [GET /api/establishments] *)
Definition get_establishments (filters : Filters) (sortBy : option string)
  : Store Response :=
  await l <- getEstablishments (Some filters) sortBy;
  store_ret (mkResponse 200 (res_establishments l)).

(** [POST /api/establishments] *)
Definition post_establishments (now : Z) (body : JsObject) : Store Response :=
  (* Add default userId of 1 if not provided *)
  let dataWithDefaults :=
    <["userId" := js_or (js_get body "userId") (js_number 1)]> body in
  match insertEstablishmentSchema dataWithDefaults with
  | inl errors => store_ret (mkResponse 400 (res_issues errors))
  | inr establishmentData =>
      await newEstablishment <-
        insert_call establishments_seq (createEstablishment now establishmentData);
      match newEstablishment with
      | resolved newEstablishment =>
          store_ret (mkResponse 201 (res_establishment newEstablishment))
      | rejected _ =>
          store_ret (mkResponse 500 (res_error "Failed to create establishment"))
      end
  end.

(** [DELETE /api/establishments/:id]; [id] is what [parseInt] made of the
    path parameter, [None] for [NaN]. *)
Definition delete_establishment (id : option Z) : Store Response :=
  match id with
  | None => store_ret (mkResponse 400 (res_error "Invalid establishment ID"))
  | Some establishmentId =>
      await establishment <-
        storage_call establishmentId (getEstablishment establishmentId);
      match establishment with
      | resolved None =>
          store_ret (mkResponse 404 (res_error "Establishment not found"))
      | resolved (Some _) =>
          await deleted <-
            storage_call establishmentId (deleteEstablishment establishmentId);
          match deleted with
          | resolved deleted => store_ret (mkResponse 200 (res_success deleted))
          | rejected _ =>
              store_ret (mkResponse 500 (res_error "Failed to delete establishment"))
          end
      | rejected _ =>
          store_ret (mkResponse 500 (res_error "Failed to delete establishment"))
      end
  end.

(** [GET /api/establishments/:id/attachments] *)
Definition get_attachments (id : option Z) : Store Response :=
  match id with
  | None => store_ret (mkResponse 400 (res_error "Invalid establishment ID"))
  | Some establishmentId =>
      await establishment <-
        storage_call establishmentId (getEstablishment establishmentId);
      match establishment with
      | resolved None =>
          store_ret (mkResponse 404 (res_error "Establishment not found"))
      | resolved (Some _) =>
          await l <- storage_call establishmentId (getAttachments establishmentId);
          match l with
          | resolved l => store_ret (mkResponse 200 (res_attachments l))
          | rejected _ =>
              store_ret (mkResponse 500 (res_error "Failed to get attachments"))
          end
      | rejected _ =>
          store_ret (mkResponse 500 (res_error "Failed to get attachments"))
      end
  end.

(** [POST /api/attachments].  After validation the establishment id is a
    number, so the handler's [typeof] test always takes its first branch. *)
Definition post_attachments (now : Z) (body : JsObject) : Store Response :=
  (* Add default userId of 1 if not provided *)
  let dataWithDefaults :=
    <["userId" := js_or (js_get body "userId") (js_number 1)]> body in
  match insertAttachmentSchema dataWithDefaults with
  | inl errors => store_ret (mkResponse 400 (res_issues errors))
  | inr attachmentData =>
      (* Verify establishment exists *)
      await establishment <-
        storage_call (ina_establishmentId attachmentData)
          (getEstablishment (ina_establishmentId attachmentData));
      match establishment with
      | resolved None =>
          store_ret (mkResponse 404 (res_error "Establishment not found"))
      | resolved (Some _) =>
          await newAttachment <-
            insert_call attachments_seq (createAttachment now attachmentData);
          match newAttachment with
          | resolved newAttachment =>
              store_ret (mkResponse 201 (res_attachment newAttachment))
          | rejected _ =>
              store_ret (mkResponse 500 (res_error "Failed to create attachment"))
          end
      | rejected _ =>
          store_ret (mkResponse 500 (res_error "Failed to create attachment"))
      end
  end.

(** [DELETE /api/attachments/:id] *)
Definition delete_attachment (id : option Z) : Store Response :=
  match id with
  | None => store_ret (mkResponse 400 (res_error "Invalid attachment ID"))
  | Some attachmentId =>
      await deleted <- storage_call attachmentId (deleteAttachment attachmentId);
      match deleted with
      | resolved true => store_ret (mkResponse 200 (res_success true))
      | resolved false =>
          store_ret (mkResponse 404 (res_error "Attachment not found"))
      | rejected _ =>
          store_ret (mkResponse 500 (res_error "Failed to delete attachment"))
      end
  end.

End Routes.

(** ** The client-side shape (the [Firebase*] types of the shared schema) *)

Record FirebaseEstablishment := mkFirebaseEstablishment {
  fe_id          : JsValue;
  fe_name        : JsValue;
  fe_category    : JsValue;
  fe_location    : JsValue;
  fe_description : JsValue;
  fe_rating      : JsValue;
  fe_coverImage  : JsValue;
  fe_userId      : JsValue;
  fe_createdAt   : JsValue
}.

Record FirebaseAttachment := mkFirebaseAttachment {
  fa_id              : JsValue;
  fa_fileName        : JsValue;
  fa_fileType        : JsValue;
  fa_fileSize        : JsValue;
  fa_filePath        : JsValue;
  fa_establishmentId : JsValue;
  fa_userId          : JsValue;
  fa_uploadDate      : JsValue
}.

(** A nullable text or timestamp column as the client reads it from the
    parsed JSON of a response: JSON has no dates, so a timestamp arrives
    as the ISO text that the server wrote for it. *)
Definition js_text (o : option string) : JsValue := from_option js_string js_null o.
Definition js_time (o : option Z) : JsValue := from_option toJSON js_null o.

(** ** lib/adapters *)

Record Request := mkRequest {
  req_method : string;
  req_url    : string;
  req_query  : list (string * string);
  req_body   : option JsObject
}.

Module Adapters.

(** The argument is a row of a response, read from its JSON; [new Date()]
    is the parameter [now]. *)
Definition toFirebaseEstablishment (now : Z) (dbEstablishment : Establishment)
  : FirebaseEstablishment :=
  {| fe_id := js_string (toString (est_id dbEstablishment));
     fe_name := js_string (est_name dbEstablishment);
     fe_category := js_string (est_category dbEstablishment);
     fe_location := js_string (est_location dbEstablishment);
     fe_description := js_or (js_text (est_description dbEstablishment)) js_undefined;
     fe_rating := js_or (js_text (est_rating dbEstablishment)) (js_string "5");
     fe_coverImage := js_or (js_text (est_coverImage dbEstablishment)) js_undefined;
     fe_userId := js_string (toString (est_userId dbEstablishment));
     fe_createdAt := js_or (js_time (est_createdAt dbEstablishment)) (js_date now) |}.

Definition toFirebaseAttachment (now : Z) (dbAttachment : Attachment)
  : FirebaseAttachment :=
  {| fa_id := js_string (toString (att_id dbAttachment));
     fa_fileName := js_string (att_fileName dbAttachment);
     fa_fileType := js_string (att_fileType dbAttachment);
     fa_fileSize := js_string (att_fileSize dbAttachment);
     fa_filePath := js_string (att_filePath dbAttachment);
     fa_establishmentId := js_string (toString (att_establishmentId dbAttachment));
     fa_userId := js_string (toString (att_userId dbAttachment));
     fa_uploadDate := js_or (js_time (att_uploadDate dbAttachment)) (js_date now) |}.

(** The payload of a response read at the type the caller expects; using
    a payload of another shape throws. *)
Definition as_establishments (p : ResponseBody) : Promise (list Establishment) :=
  match p with
  | res_establishments l => resolved l
  | _ => rejected "establishments.map is not a function"
  end.

Definition as_establishment (p : ResponseBody) : Promise Establishment :=
  match p with
  | res_establishment e => resolved e
  | _ => rejected "Cannot read properties of undefined (reading 'toString')"
  end.

Definition as_attachments (p : ResponseBody) : Promise (list Attachment) :=
  match p with
  | res_attachments l => resolved l
  | _ => rejected "attachments.map is not a function"
  end.

Definition as_attachment (p : ResponseBody) : Promise Attachment :=
  match p with
  | res_attachment a => resolved a
  | _ => rejected "Cannot read properties of undefined (reading 'toString')"
  end.

(** [result.success] *)
Definition success_of (p : ResponseBody) : JsValue :=
  match p with
  | res_success b => js_bool b
  | _ => js_undefined
  end.

Section WithNetwork.
(** [apiRequest] stands for the network and the server behind it: it
    resolves with the payload of a 2xx response and rejects otherwise.
    [parseInt] is the JavaScript builtin. *)
Variable apiRequest : Request -> Promise ResponseBody.
Variable parseInt : JsValue -> JsValue.
Variable now : Z.

Definition query_param (key : string) (v : option string) : list (string * string) :=
  match v with
  | Some s => if truthy_string (Some s) then [(key, s)] else []
  | None => []
  end.

Definition fetchEstablishments (filters : option Filters) (sortBy : option string)
  : Promise (list FirebaseEstablishment) :=
  try_catch
    (let queryParams :=
       (query_param "category" (filters ≫= category)
          ++ query_param "location" (filters ≫= location)
          ++ query_param "rating" (filters ≫= rating)
          ++ query_param "sortBy" sortBy)%list in
     do payload <- apiRequest (mkRequest "GET" "/api/establishments" queryParams None);
     do establishments <- as_establishments payload;
     resolved (map (toFirebaseEstablishment now) establishments))
    (fun error => resolved []).

Definition fetchEstablishment (id : string) : Promise (option FirebaseEstablishment) :=
  try_catch
    (do payload <- apiRequest (mkRequest "GET" ("/api/establishments/" +:+ id) [] None);
     do establishment <- as_establishment payload;
     resolved (Some (toFirebaseEstablishment now establishment)))
    (fun error => resolved None).

Definition createEstablishment (data : JsObject) : Promise FirebaseEstablishment :=
  try_catch
    (if negb (truthy (js_get data "name"))
        || negb (truthy (js_get data "category"))
        || negb (truthy (js_get data "location"))
     then rejected "Missing required fields: name, category, and location are required"
     else
       let body : JsObject :=
         <["name" := js_get data "name"]>
         (<["category" := js_get data "category"]>
         (<["location" := js_get data "location"]>
         (<["description" := js_or (js_get data "description") (js_string "")]>
         (<["rating" := js_or (js_get data "rating") (js_string "5")]>
         (<["coverImage" := js_or (js_get data "coverImage") js_null]> ∅))))) in
       do payload <- apiRequest (mkRequest "POST" "/api/establishments" [] (Some body));
       do establishment <- as_establishment payload;
       resolved (toFirebaseEstablishment now establishment))
    (fun error => rejected error).

Definition updateEstablishment (id : string) (data : JsObject) : Promise JsValue :=
  try_catch
    (let updateData := data in
     let updateData :=
       if truthy (js_get updateData "userId")
       then <["userId" := parseInt (js_get updateData "userId")]> updateData
       else updateData in
     let updateData := delete "id" updateData in
     let updateData := delete "createdAt" updateData in
     let updateData :=
       match js_get updateData "description" with
       | js_string "" => <["description" := js_null]> updateData
       | _ => updateData
       end in
     let updateData :=
       match js_get updateData "coverImage" with
       | js_string "" => <["coverImage" := js_null]> updateData
       | _ => updateData
       end in
     do result <- apiRequest
                    (mkRequest "PATCH" ("/api/establishments/" +:+ id) [] (Some updateData));
     resolved (success_of result))
    (fun error => resolved (js_bool false)).

Definition deleteEstablishment (id : string) : Promise JsValue :=
  try_catch
    (do result <- apiRequest
                    (mkRequest "DELETE" ("/api/establishments/" +:+ id) [] None);
     resolved (success_of result))
    (fun error => resolved (js_bool false)).

Definition fetchAttachments (establishmentId : string)
  : Promise (list FirebaseAttachment) :=
  try_catch
    (do payload <- apiRequest
                     (mkRequest "GET"
                        ("/api/establishments/" +:+ establishmentId +:+ "/attachments")
                        [] None);
     do attachments <- as_attachments payload;
     resolved (map (toFirebaseAttachment now) attachments))
    (fun error => resolved []).

(** The fields of the argument are strings by its type. *)
Record NewAttachment := mkNewAttachment {
  na_fileName        : string;
  na_fileType        : string;
  na_fileSize        : string;
  na_filePath        : string;
  na_establishmentId : string;
  na_userId          : string
}.

Definition createAttachment (data : NewAttachment) : Promise FirebaseAttachment :=
  try_catch
    (if negb (truthy (js_string (na_fileName data)))
        || negb (truthy (js_string (na_fileType data)))
        || negb (truthy (js_string (na_fileSize data)))
        || negb (truthy (js_string (na_filePath data)))
        || negb (truthy (js_string (na_establishmentId data)))
        || negb (truthy (js_string (na_userId data)))
     then rejected "Missing required fields for attachment"
     else
       let body : JsObject :=
         <["fileName" := js_string (na_fileName data)]>
         (<["fileType" := js_string (na_fileType data)]>
         (<["fileSize" := js_string (na_fileSize data)]>
         (<["filePath" := js_string (na_filePath data)]>
         (<["establishmentId" := parseInt (js_string (na_establishmentId data))]>
         (<["userId" := parseInt (js_string (na_userId data))]> ∅))))) in
       do payload <- apiRequest (mkRequest "POST" "/api/attachments" [] (Some body));
       do attachment <- as_attachment payload;
       resolved (toFirebaseAttachment now attachment))
    (fun error => rejected error).

Definition deleteAttachment (id : string) : Promise JsValue :=
  try_catch
    (do result <- apiRequest (mkRequest "DELETE" ("/api/attachments/" +:+ id) [] None);
     resolved (success_of result))
    (fun error => resolved (js_bool false)).

End WithNetwork.
End Adapters.

(** ** The Firestore module *)

(** A document snapshot: its key and its data. *)
Record Document := mkDocument { doc_id : string; doc_data : JsObject }.

Module Firestore.

(** [(v as Timestamp).toDate()] *)
Definition toDate (v : JsValue) : Promise JsValue :=
  match v with
  | js_timestamp t => resolved (js_date t)
  | _ => rejected "data.createdAt.toDate is not a function"
  end.

Definition convertDocToEstablishment (now : Z) (doc : Document)
  : Promise FirebaseEstablishment :=
  let data := doc_data doc in
  do createdAt <- (if truthy (js_get data "createdAt")
                   then toDate (js_get data "createdAt")
                   else resolved (js_date now));
  resolved
    {| fe_id := js_string (doc_id doc);
       fe_name := js_get data "name";
       fe_category := js_get data "category";
       fe_location := js_get data "location";
       fe_description := js_or (js_get data "description") (js_string "");
       fe_rating := js_or (js_get data "rating") (js_string "5");
       fe_coverImage := js_or (js_get data "coverImage") (js_string "");
       fe_userId := js_get data "userId";
       fe_createdAt := createdAt |}.

(** [error.message || fallback] *)
Definition message_or (message fallback : string) : string :=
  if truthy (js_string message) then message else fallback.

End Firestore.

(** ** The number a rating string denotes *)

Definition digit_value (c : ascii) : option Z :=
  let n := Z.of_N (N_of_ascii c) in
  if (48 <=? n) && (n <=? 57) then Some (n - 48) else None.

(** The digits of [s] read as a natural number, on top of [acc]. *)
Fixpoint parse_digits (acc : Z) (s : string) : option Z :=
  match s with
  | EmptyString => Some acc
  | String c s' =>
      match digit_value c with
      | Some d => parse_digits (10 * acc + d) s'
      | None => None
      end
  end.

(** The integer digits, then after a point the fraction digits, each
    worth a tenth of the one before. *)
Fixpoint parse_decimal (acc : Z) (s : string) : option Q :=
  match s with
  | EmptyString => Some (inject_Z acc)
  | String "."%char frac =>
      match parse_digits 0 frac with
      | Some f => Some (Qplus (inject_Z acc)
                         (Qmake f (Pos.pow 10 (Pos.of_nat (String.length frac)))))
      | None => None
      end
  | String c s' =>
      match digit_value c with
      | Some d => parse_decimal (10 * acc + d) s'
      | None => None
      end
  end.

(** [Number(s)] on a plain decimal numeral. *)
Definition rating_number (s : string) : option Q :=
  match s with
  | EmptyString => None
  | _ => parse_decimal 0 s
  end.

(** ** Views of the query engine used in the statements *)

(** The WHERE clause [getEstablishments] passes for a list of conditions. *)
Definition where_of (conditions : list SQL) : option SQL :=
  match conditions with
  | [] => None
  | [c] => Some c
  | _ => Some (sql_and conditions)
  end.

(** The ORDER BY clause [getEstablishments] passes for a sort label. *)
Definition storage_order (sortBy : string) : option OrderBy :=
  if String.eqb sortBy "Newest first" || String.eqb sortBy "createdAt"
  then Some (desc col_createdAt)
  else if String.eqb sortBy "Highest rated" then Some (desc col_rating)
  else if String.eqb sortBy "Name A-Z" then Some (asc col_name)
  else if String.eqb sortBy "Name Z-A" then Some (desc col_name)
  else None.

(** The ORDER BY clause a sort field and direction stand for. *)
Definition direction_order (p : Column * Direction) : OrderBy :=
  match p with
  | (f, dir_asc) => asc f
  | (f, dir_desc) => desc f
  end.

(** The column an ORDER BY clause sorts on. *)
Definition order_column (o : OrderBy) : Column :=
  match o with
  | asc c => c
  | desc c => c
  end.

(** The sort labels both engines recognise. *)
Definition SORT_LABELS : list string :=
  ["Newest first"; "createdAt"; "Highest rated"; "Name A-Z"; "Name Z-A"].

(** [a] does not exceed [b] on column [c]. *)
Definition field_le {Row} (field : Column -> Row -> Value) (c : Column) (a b : Row) : Prop :=
  value_leb (field c a) (field c b) = true.

(** ** Sample data *)

Definition establishment_A : Establishment :=
  mkEstablishment 1 "A" "Restaurant" "Downtown" None (Some "5") None 1 (Some 100).

Definition establishment_B : Establishment :=
  mkEstablishment 2 "B" "Retail" "Uptown" None (Some "3") None 1 (Some 200).

(** Two establishments that share a name. *)
Definition cafe_1 : Establishment :=
  mkEstablishment 1 "Cafe" "Restaurant" "Downtown" None (Some "5") None 1 (Some 100).

Definition cafe_2 : Establishment :=
  mkEstablishment 2 "Cafe" "Restaurant" "Uptown" None (Some "4") None 1 (Some 200).



(** ** Well-formed databases *)

(** The primary keys of a table are distinct and were issued by its
    [serial] counter. *)
Definition keys_ok (ids : list Z) (seq : Z) : Prop :=
  NoDup ids /\ Forall (fun i => i <= seq) ids.

Definition database_ok (db : Database) : Prop :=
  keys_ok (map est_id (establishments db)) (establishments_seq db) /\
  keys_ok (map att_id (attachments db)) (attachments_seq db).

(** Every attachment belongs to a stored establishment. *)
Definition references_ok (db : Database) : Prop :=
  forall a, In a (attachments db) ->
    exists e, In e (establishments db) /\ est_id e = att_establishmentId a.

(** ** More of the REST routes *)

Module EstablishmentRoutes.
Import DatabaseStorage.

(** [GET /api/establishments/:id]; [id] is what [parseInt] made of the
    path parameter, [None] for [NaN]. *)
Definition get_establishment (id : option Z) : Store Response :=
  match id with
  | None => store_ret (mkResponse 400 (res_error "Invalid establishment ID"))
  | Some establishmentId =>
      await establishment <-
        storage_call establishmentId (getEstablishment establishmentId);
      match establishment with
      | resolved None =>
          store_ret (mkResponse 404 (res_error "Establishment not found"))
      | resolved (Some e) => store_ret (mkResponse 200 (res_establishment e))
      | rejected _ =>
          store_ret (mkResponse 500 (res_error "Failed to get establishment"))
      end
  end.

End EstablishmentRoutes.

(** ** More sample data *)

Definition sample_db : Database :=
  {| establishments := [establishment_A; establishment_B];
     attachments :=
       [mkAttachment 1 "menu.pdf" "application/pdf" "1.00 MB" "/f/1" 1 1 None;
        mkAttachment 2 "logo.png" "image/png" "0.10 MB" "/f/2" 2 1 None;
        mkAttachment 3 "map.png" "image/png" "0.20 MB" "/f/3" 1 1 None];
     establishments_seq := 2;
     attachments_seq := 3 |}.


(** A request body for a new attachment of establishment 2. *)
Definition sample_attachment_body : JsObject :=
  <["fileName" := js_string "menu.pdf"]>
  (<["fileType" := js_string "application/pdf"]>
  (<["fileSize" := js_string "1.00 MB"]>
  (<["filePath" := js_string "/files/menu.pdf"]>
  (<["establishmentId" := js_number 2]> ∅)))).

(** ** Users: the table, the schemas, the storage methods and the routes *)

(** A row of the [users] table. *)
Record User := mkUser {
  user_id          : Z;
  user_username    : string;
  user_password    : string;
  user_email       : string;
  user_displayName : option string;
  user_photoURL    : option string;
  user_createdAt   : option Z
}.

Record InsertUser := mkInsertUser {
  inu_username    : string;
  inu_password    : string;
  inu_email       : string;
  inu_displayName : option (option string);
  inu_photoURL    : option (option string)
}.

(** [insertUserSchema.parse] *)
Definition insertUserSchema (data : JsObject) : Parsed InsertUser :=
  zod_ap (zod_ap (zod_ap (zod_ap (zod_ap
    (inr mkInsertUser)
    (zod_text "username" (js_get data "username")))
    (zod_text "password" (js_get data "password")))
    (zod_text "email" (js_get data "email")))
    (zod_text_nullish "displayName" (js_get data "displayName")))
    (zod_text_nullish "photoURL" (js_get data "photoURL")).

(** [userValidationSchema.parse]: the insert schema extended with
    [confirmPassword], then, when every field is well-typed, the
    refinement that the two passwords are equal. *)
Definition userValidationSchema (data : JsObject) : Parsed (InsertUser * string) :=
  match zod_ap (zod_ap (inr pair) (insertUserSchema data))
          (zod_text "confirmPassword" (js_get data "confirmPassword")) with
  | inl errors => inl errors
  | inr (userData, confirmPassword) =>
      if String.eqb (inu_password userData) confirmPassword
      then inr (userData, confirmPassword)
      else inl [mkIssue "confirmPassword" "Passwords must match"]
  end.

(** The [users] table with its [serial] counter. *)
Record UserTable := mkUserTable {
  users     : list User;
  users_seq : Z
}.

Module UserStorage.

Definition getUser (id : Z) (t : UserTable) : option User :=
  head (List.filter (fun u => user_id u =? id) (users t)).

Definition getUserByUsername (username : string) (t : UserTable) : option User :=
  head (List.filter (fun u => String.eqb (user_username u) username) (users t)).

(** The insert draws its id from the counter, and fails with nothing
    changed when the counter has run out of the column type.  [username]
    and [email] are [unique] columns: an insert that repeats either
    fails, after the counter has issued its id. *)
Definition createUser (now : Z) (u : InsertUser) (t : UserTable)
  : Promise User * UserTable :=
  let id := users_seq t + 1 in
  if negb (int32 id) then
    (rejected "nextval: reached maximum value of sequence", t)
  else if existsb (fun v => String.eqb (user_username v) (inu_username u)) (users t) then
    (rejected "duplicate key value violates unique constraint users_username_unique",
     mkUserTable (users t) id)
  else if existsb (fun v => String.eqb (user_email v) (inu_email u)) (users t) then
    (rejected "duplicate key value violates unique constraint users_email_unique",
     mkUserTable (users t) id)
  else
    let row := {| user_id := id;
                  user_username := inu_username u;
                  user_password := inu_password u;
                  user_email := inu_email u;
                  user_displayName := default None (inu_displayName u);
                  user_photoURL := default None (inu_photoURL u);
                  user_createdAt := Some now |} in
    (resolved row, mkUserTable (users t ++ [row])%list id).

End UserStorage.

Inductive UserResponseBody :=
| ures_error (message : string)
| ures_issues (errors : list ZodIssue)
| ures_user (u : User).

Record UserResponse := mkUserResponse { ustatus : Z; ujson : UserResponseBody }.

Module UserRoutes.
Import UserStorage.

(** [POST /api/users/register] *)
Definition register (now : Z) (body : JsObject) (t : UserTable)
  : UserResponse * UserTable :=
  match userValidationSchema body with
  | inl errors => (mkUserResponse 400 (ures_issues errors), t)
  | inr (userData, confirmPassword) =>
      (* Check if username already exists *)
      match getUserByUsername (inu_username userData) t with
      | Some existingUser =>
          (mkUserResponse 400 (ures_error "Username already exists"), t)
      | None =>
          match createUser now userData t with
          | (resolved newUser, t') => (mkUserResponse 201 (ures_user newUser), t')
          | (rejected _, t') =>
              (mkUserResponse 500 (ures_error "Failed to create user"), t')
          end
      end
  end.

(** [GET /api/users/:id]; [id] is what [parseInt] made of the path
    parameter, [None] for [NaN]. *)
Definition get_user (id : option Z) (t : UserTable) : UserResponse :=
  match id with
  | None => mkUserResponse 400 (ures_error "Invalid user ID")
  | Some userId =>
      (* the database refuses a parameter outside the column type *)
      if int32 userId then
        match getUser userId t with
        | None => mkUserResponse 404 (ures_error "User not found")
        | Some user => mkUserResponse 200 (ures_user user)
        end
      else mkUserResponse 500 (ures_error "Failed to get user")
  end.

End UserRoutes.

(** Ids, usernames and emails are distinct, and the ids were issued by
    the counter. *)
Definition users_ok (t : UserTable) : Prop :=
  keys_ok (map user_id (users t)) (users_seq t) /\
  NoDup (map user_username (users t)) /\
  NoDup (map user_email (users t)).

(** A registration request. *)
Definition registration (username password email confirmPassword : string)
  : JsObject :=
  <["username" := js_string username]>
  (<["password" := js_string password]>
  (<["email" := js_string email]>
  (<["confirmPassword" := js_string confirmPassword]> ∅))).

(** ** lib/queryClient: [throwIfResNotOk] and [apiRequest] *)

Module QueryClient.
Section WithFetch.
(** [fetch] is the network: it resolves with the server's response, whose
    body is JSON, or rejects.  [stringify] and [stringify_issue] stand
    for [JSON.stringify] on a response body and on a validation issue. *)
Variable fetch : Request -> Promise Response.
Variable stringify : ResponseBody -> string.
Variable stringify_issue : ZodIssue -> string.

(** [res.ok] *)
Definition ok (res : Response) : bool :=
  (200 <=? status res) && (status res <=? 299).

(** One validation issue as text; the path of an issue is the name of
    the field. *)
Definition issue_text (err : ZodIssue) : string :=
  if truthy (js_string (issue_message err))
  then issue_path err +:+ ": " +:+ issue_message err
  else stringify_issue err.

Definition throwIfResNotOk (res : Response) : Promise unit :=
  if ok res then resolved tt
  else
    match json res with
    | res_issues errors =>
        (* Handle validation errors (like Zod errors) *)
        rejected ("Validation error: " +:+ String.concat "; " (map issue_text errors))
    | res_error message =>
        (* Handle other JSON errors *)
        if truthy (js_string message) then rejected message
        else rejected (stringify (json res))
    | other => rejected (stringify other)
    end.

Definition apiRequest (req : Request) : Promise ResponseBody :=
  do res <- fetch req;
  do _ <- throwIfResNotOk res;
  resolved (json res).

End WithFetch.
End QueryClient.

(** ** The handlers as the client reaches them *)

(** [req.query.key] *)
Fixpoint query_get (query : list (string * string)) (key : string) : option string :=
  match query with
  | [] => None
  | (k, v) :: query' => if String.eqb k key then Some v else query_get query' key
  end.

(** [GET /api/establishments] on the query of the request. *)
Definition get_establishments_of_query (query : list (string * string))
  : Store Response :=
  Routes.get_establishments
    (mkFilters (query_get query "category") (query_get query "location")
       (query_get query "rating"))
    (query_get query "sortBy").

(** The PATCH request [updateEstablishment] sends for [data], property
    by property: no [id] and no [createdAt]; a truthy [userId] as
    [parseInt] reads it; an empty [description] or [coverImage] as
    [null]; every other property as in [data]. *)
Definition update_request (parseInt : JsValue -> JsValue) (id : string)
    (data : JsObject) (req : Request) : Prop :=
  req_method req = "PATCH" /\
  req_url req = "/api/establishments/" +:+ id /\
  req_query req = [] /\
  exists body : JsObject,
    req_body req = Some body /\
    body !! "id" = None /\
    body !! "createdAt" = None /\
    body !! "userId" =
      (if truthy (js_get data "userId")
       then Some (parseInt (js_get data "userId"))
       else data !! "userId") /\
    body !! "description" =
      match data !! "description" with
      | Some (js_string EmptyString) => Some js_null
      | other => other
      end /\
    body !! "coverImage" =
      match data !! "coverImage" with
      | Some (js_string EmptyString) => Some js_null
      | other => other
      end /\
    (forall k, k <> "id" -> k <> "createdAt" -> k <> "userId" ->
               k <> "description" -> k <> "coverImage" ->
               body !! k = data !! k).



(** ** Strings of the file helpers *)

(** [s.split(sep)] for a separator of one character. *)
Fixpoint split (sep : ascii) (s : string) : list string :=
  match s with
  | EmptyString => [EmptyString]
  | String c s' =>
      if Ascii.eqb c sep then EmptyString :: split sep s'
      else match split sep s' with
           | segment :: rest => String c segment :: rest
           | [] => [String c EmptyString]
           end
  end.

(** [parts.join(sep)] *)
Definition join (sep : string) (parts : list string) : string :=
  String.concat sep parts.

(** [l.slice(-n)] *)
Definition slice_last {A} (n : nat) (l : list A) : list A :=
  skipn (length l - n) l.

(** [l.pop()] on a fresh array: its last element, [undefined] when
    there is none. *)
Definition pop (l : list string) : option string := last l.

Definition lower_ascii (c : ascii) : ascii :=
  let n := N_of_ascii c in
  if ((65 <=? n) && (n <=? 90))%N then ascii_of_N (n + 32) else c.

(** [s.toLowerCase()]: the letters [A]-[Z] are lowered and every other
    byte stays.  Outside ASCII only the Kelvin sign (to [k]) and the
    dotted capital I (to [i] and a combining dot) lower to text with an
    ASCII letter, and neither makes an extension that [getFileType]
    looks for, so its answer is the same. *)
Fixpoint toLowerCase (s : string) : string :=
  match s with
  | EmptyString => EmptyString
  | String c s' => String (lower_ascii c) (toLowerCase s')
  end.

(** [s.startsWith(prefix)] *)
Definition startsWith (s prefix : string) : bool := String.prefix prefix s.

(** [s.endsWith(suffix)] *)
Definition endsWith (s suffix : string) : bool :=
  (String.length suffix <=? String.length s)%nat &&
  String.eqb
    (substring (String.length s - String.length suffix) (String.length suffix) s)
    suffix.

(** The character [c] occurs in [s]. *)
Fixpoint has_char (c : ascii) (s : string) : bool :=
  match s with
  | EmptyString => false
  | String c' s' => Ascii.eqb c' c || has_char c s'
  end.

(** ** File storage (client) *)

Module SupabaseStorage.

(** The [fileName] of [uploadFile]: [stamp] is [Date.now()] in decimal,
    [random] the base-36 digits of [Math.random()], [name] the name of
    the uploaded file. *)
Definition uploadFile_fileName (stamp random name : string) : string :=
  stamp ++ "_" ++ random ++ "." ++ default "undefined" (pop (split "." name)).

(** The [filePath] of [uploadFile] and of [getAttachments]: the key of
    the object in the bucket. *)
Definition uploadFile_filePath (establishmentId fileName : string) : string :=
  "establishments/" ++ establishmentId ++ "/" ++ fileName.

Definition getFileType (fileName : string) : string :=
  match toLowerCase <$> pop (split "." fileName) with
  | None => "application/octet-stream"
  | Some ext =>
      if String.eqb ext "pdf" then "application/pdf"
      else if String.eqb ext "doc" || String.eqb ext "docx"
      then "application/msword"
      else if String.eqb ext "xls" || String.eqb ext "xlsx"
      then "application/vnd.ms-excel"
      else if String.eqb ext "png" then "image/png"
      else if String.eqb ext "jpg" || String.eqb ext "jpeg" then "image/jpeg"
      else if String.eqb ext "gif" then "image/gif"
      else if String.eqb ext "zip" then "application/zip"
      else "application/octet-stream"
  end.

(** The [filePath] that [deleteFile] asks the bucket to remove, from the
    [pathname] of the attachment's public URL. *)
Definition deleteFile_filePath (pathname : string) : string :=
  join "/" (slice_last 3 (split "/" pathname)).

End SupabaseStorage.

(** ** The file picker *)

Record File := mkFile {
  file_name : string;
  file_type : string;
  file_size : Z
}.

Module FileUpload.

Section Props.

(** [String.prototype.trim] and the text of a number.  The number is
    the size limit divided twice by 1024, which binary floating point
    does exactly. *)
Variable trim : string -> string.
Variable number_text : Q -> string.

(** The props [accept] and [maxFileSize]. *)
Variable accept : string.
Variable maxFileSize : Z.

Definition acceptTypes : list string := map trim (split "," accept).

Definition isValidType (file : File) : bool :=
  existsb
    (fun type =>
       if startsWith type "." then
         (* Check extension *)
         endsWith (file_name file) type
       else if endsWith type "/*" then
         (* Check mime type group *)
         let typeGroup := default "" (head (split "/" type)) in
         startsWith (file_type file) (typeGroup ++ "/")
       else
         (* Check exact mime type *)
         String.eqb (file_type file) type)
    acceptTypes.

(** The loop of [processFiles]: the files handed to [onFileSelect], in
    order, and the error it leaves. *)
Fixpoint processFiles_loop (files : list File) : list File * option string :=
  match files with
  | [] => ([], None)
  | file :: rest =>
      if maxFileSize <? file_size file then
        ([], Some ("File too large. Maximum size is "
                   ++ number_text (inject_Z maxFileSize / 1024 / 1024)%Q ++ "MB."))
      else if (negb (String.eqb accept "") && negb (String.eqb accept "*"))
              && negb (isValidType file) then
        ([], Some ("Invalid file type. Accepted: " ++ accept))
      else
        let '(selected, error) := processFiles_loop rest in
        (file :: selected, error)
  end.

Definition processFiles (files : list File) : list File * option string :=
  processFiles_loop files.

End Props.

End FileUpload.

(** ** Firestore: single documents *)

Module FirestoreDocuments.
Import Firestore.

(** [getDoc(doc(db, collection, id))] *)
Definition getDoc (collection : list Document) (id : string) : option Document :=
  head (List.filter (fun d => String.eqb (doc_id d) id) collection).

Definition getEstablishmentById (now : Z) (collection : list Document)
    (id : string) : Promise (option JsObject) :=
  try_catch
    (match getDoc collection id with
     | None => resolved None
     | Some docSnap =>
         let data := doc_data docSnap in
         do createdAt <- (if truthy (js_get data "createdAt")
                          then toDate (js_get data "createdAt")
                          else resolved (js_date now));
         resolved
           (Some (<["createdAt" := createdAt]>
                    (data ∪ {["id" := js_string (doc_id docSnap)]})))
     end)
    (fun message => rejected (message_or message "Failed to get establishment")).

Section WithAddDoc.

(** [addDoc(collection, data)]: the key of the new document and the
    collection with it, or the error of the service. *)
Variable addDoc : JsObject -> list Document -> Promise (string * list Document).

(** [server_now] is the time [serverTimestamp()] turns into. *)
Definition addEstablishment (now server_now : Z) (establishmentData : JsObject)
    (collection : list Document) : Promise (JsObject * list Document) :=
  try_catch
    (do added <- addDoc
                   (<["createdAt" := js_timestamp server_now]> establishmentData)
                   collection;
     resolved
       (<["createdAt" := js_date now]>
          (establishmentData ∪ {["id" := js_string added.1]}),
        added.2))
    (fun message => rejected (message_or message "Failed to add establishment")).

End WithAddDoc.

End FirestoreDocuments.

(** The [accept] prop of the file picker on the details page. *)
Definition details_accept : string :=
  ".pdf,.doc,.docx,.xls,.xlsx,.png,.jpg,.jpeg,.gif,.zip".

(** * Properties *)

(** ** Sorting *)

Section SortingFacts.
Context {A : Type} (leb : A -> A -> bool).

Lemma insert_sorted_perm x l : insert_sorted leb x l ≡ₚ x :: l.
Proof.
  induction l as [|y l IH]; simpl; [done|].
  destruct (leb x y); [done|].
  rewrite IH. apply Permutation_swap.
Qed.

Lemma sort_by_perm l : sort_by leb l ≡ₚ l.
Proof.
  induction l as [|x l IH]; simpl; [done|].
  rewrite insert_sorted_perm. by rewrite IH.
Qed.

Lemma sort_by_In x l : In x (sort_by leb l) <-> In x l.
Proof.
  rewrite <- !list_elem_of_In. by rewrite sort_by_perm.
Qed.

Lemma sort_by_singleton x : sort_by leb [x] = [x].
Proof. reflexivity. Qed.

Hypothesis leb_total : forall a b, leb a b = true \/ leb b a = true.
Hypothesis leb_trans : forall a b c, leb a b = true -> leb b c = true -> leb a c = true.

Let R : relation A := fun a b => leb a b = true.

Lemma insert_sorted_sorted x l :
  StronglySorted R l -> StronglySorted R (insert_sorted leb x l).
Proof.
  induction 1 as [|y l Hs IH Hy]; simpl.
  - repeat constructor.
  - destruct (leb x y) eqn:Hxy.
    + constructor; [by constructor|].
      constructor; [done|].
      eapply Forall_impl; [exact Hy|]. intros z Hz. by eapply leb_trans.
    + constructor; [done|].
      rewrite insert_sorted_perm. constructor; [|done].
      destruct (leb_total x y) as [E|E]; [congruence|done].
Qed.

Lemma sort_by_sorted l : StronglySorted R (sort_by leb l).
Proof.
  induction l as [|x l IH]; simpl; [constructor|].
  by apply insert_sorted_sorted.
Qed.

End SortingFacts.

(** ** The order on values *)

Lemma string_leb_refl s : String.leb s s = true.
Proof.
  pose proof (reflexivity (R := String.le) s) as H.
  unfold String.le in H. by apply Is_true_true.
Qed.

Lemma string_leb_trans s1 s2 s3 :
  String.leb s1 s2 = true -> String.leb s2 s3 = true -> String.leb s1 s3 = true.
Proof.
  intros H1%Is_true_true H2%Is_true_true. apply Is_true_true.
  exact (transitivity (R := String.le) H1 H2).
Qed.

Lemma value_leb_total a b : value_leb a b = true \/ value_leb b a = true.
Proof.
  destruct a as [|s|s], b as [|t|t]; simpl; auto.
  - apply String.leb_total.
  - destruct (Z.leb_spec s t); [auto|right]. apply Z.leb_le. lia.
Qed.

Lemma value_leb_trans a b c :
  value_leb a b = true -> value_leb b c = true -> value_leb a c = true.
Proof.
  destruct a as [|s|s], b as [|t|t], c as [|u|u]; simpl; try done.
  - apply string_leb_trans.
  - rewrite !Z.leb_le. lia.
Qed.

Lemma value_leb_antisym a b :
  value_leb a b = true -> value_leb b a = true -> a = b.
Proof.
  destruct a as [|s|s], b as [|t|t]; simpl; try done.
  - intros H1 H2. f_equal. by apply String.leb_antisym.
  - rewrite !Z.leb_le. intros. f_equal. lia.
Qed.

(** ** The relational engine *)

Section EngineFacts.
Context {Row : Type} (field : Column -> Row -> Value).

Lemma order_leb_total o (a b : Row) :
  order_leb field o a b = true \/ order_leb field o b a = true.
Proof. destruct o; simpl; apply value_leb_total. Qed.

Lemma order_leb_trans o (a b c : Row) :
  order_leb field o a b = true -> order_leb field o b c = true ->
  order_leb field o a c = true.
Proof. destruct o; simpl; eauto using value_leb_trans. Qed.

Lemma where_of_holds cs (r : Row) :
  match where_of cs with
  | None => true
  | Some w => sql_holds field w r
  end = forallb (fun w => sql_holds field w r) cs.
Proof.
  destruct cs as [|c [|c' cs]]; simpl; try reflexivity.
  by rewrite andb_true_r.
Qed.

(** The ten branches of [getEstablishments] are one SELECT whose WHERE and
    ORDER BY clauses depend on the conditions and on the label. *)
Lemma storage_getEstablishments_select filters sortBy (table : list Row) :
  storage_getEstablishments field filters sortBy table =
  db_select field (where_of (storage_conditions filters))
    (storage_order (default "createdAt" sortBy)) table.
Proof.
  unfold storage_getEstablishments, storage_order.
  destruct (storage_conditions filters) as [|c [|c' cs]]; simpl;
    repeat (match goal with |- context [if ?b then _ else _] => destruct b end;
            simpl; try reflexivity).
Qed.

Lemma db_select_In w o (table : list Row) r :
  In r (db_select field w o table) <->
  In r table /\ match w with None => true | Some c => sql_holds field c r end = true.
Proof.
  unfold db_select.
  assert (In r match w with
               | Some c => List.filter (sql_holds field c) table
               | None => table
               end <->
          In r table /\ match w with None => true | Some c => sql_holds field c r end = true)
    as Hrows.
  { destruct w; [apply filter_In | tauto]. }
  destruct o; [rewrite sort_by_In|]; exact Hrows.
Qed.

(** A record is returned exactly when it is stored and meets every
    condition built from the filters. *)
Lemma storage_getEstablishments_In filters sortBy (table : list Row) r :
  In r (storage_getEstablishments field filters sortBy table) <->
  In r table /\
  forallb (fun w => sql_holds field w r) (storage_conditions filters) = true.
Proof.
  rewrite storage_getEstablishments_select, db_select_In.
  by rewrite where_of_holds.
Qed.

Lemma where_of_filter conditions (table : list Row) :
  match where_of conditions with
  | Some c => List.filter (sql_holds field c) table
  | None => table
  end =
  List.filter (fun r => forallb (fun w => sql_holds field w r) conditions) table.
Proof.
  pose proof (where_of_holds conditions) as H.
  destruct (where_of conditions).
  - apply filter_ext. exact H.
  - induction table as [|x t IH]; simpl; [done|].
    rewrite <- H. by f_equal.
Qed.

Lemma storage_getEstablishments_perm filters sortBy (table : list Row) :
  storage_getEstablishments field filters sortBy table ≡ₚ
  List.filter (fun r => forallb (fun w => sql_holds field w r)
                          (storage_conditions filters)) table.
Proof.
  rewrite storage_getEstablishments_select. unfold db_select.
  rewrite where_of_filter.
  destruct (storage_order _); [apply sort_by_perm | done].
Qed.

(** Two records of a list whose keys are pairwise distinct are equal as
    soon as their keys are. *)
Lemma NoDup_fmap_eq {B} (f : Row -> B) (l : list Row) x y :
  NoDup (map f l) -> In x l -> In y l -> f x = f y -> x = y.
Proof.
  induction l as [|z l IH]; simpl; [tauto|].
  intros Hnd Hx Hy Hf. apply NoDup_cons in Hnd as [Hz Hnd].
  destruct Hx as [->|Hx], Hy as [->|Hy]; auto.
  - exfalso. apply Hz. rewrite Hf. apply list_elem_of_In, in_map, Hy.
  - exfalso. apply Hz. rewrite <- Hf. apply list_elem_of_In, in_map, Hx.
Qed.

Lemma sort_asc_sorted c (l : list Row) :
  StronglySorted (field_le field c) (sort_by (order_leb field (asc c)) l).
Proof.
  apply (sort_by_sorted (order_leb field (asc c)));
    [apply order_leb_total | apply order_leb_trans].
Qed.

Lemma sort_desc_reverse_sorted c (l : list Row) :
  StronglySorted (field_le field c)
    (reverse (sort_by (order_leb field (desc c)) l)).
Proof.
  assert (Transitive (field_le field c)) as Htrans.
  { intros x y z. unfold field_le. apply value_leb_trans. }
  apply Sorted_StronglySorted; [done|].
  apply (Sorted_reverse (flip (field_le field c))).
  apply StronglySorted_Sorted.
  apply (sort_by_sorted (order_leb field (desc c)));
    [apply order_leb_total | apply order_leb_trans].
Qed.

(** Ascending and descending order on a column are reverses of each other
    when no two records share the key. *)
Lemma sort_asc_desc_reverse c (l : list Row) :
  NoDup (map (field c) l) ->
  sort_by (order_leb field (asc c)) l =
  reverse (sort_by (order_leb field (desc c)) l).
Proof.
  intros Hnd.
  apply (StronglySorted_unique_strong (field_le field c)).
  - intros x1 x2 H1 H2 H12 H21.
    apply (NoDup_fmap_eq (field c) l); [done| | |].
    + apply sort_by_In with (leb := order_leb field (asc c)).
      by apply list_elem_of_In.
    + apply sort_by_In with (leb := order_leb field (desc c)).
      apply list_elem_of_In. by apply elem_of_reverse.
    + by apply value_leb_antisym.
  - apply sort_asc_sorted.
  - apply sort_desc_reverse_sorted.
  - by rewrite reverse_Permutation, !sort_by_perm.
Qed.

(** Whatever the ties, the keys appear in opposite orders. *)
Lemma sort_asc_desc_keys c (l : list Row) :
  map (field c) (sort_by (order_leb field (asc c)) l) =
  reverse (map (field c) (sort_by (order_leb field (desc c)) l)).
Proof.
  change (@map Row Value) with (@fmap list _ Row Value).
  rewrite <- fmap_reverse.
  apply (StronglySorted_unique_strong (fun a b => value_leb a b = true)).
  - intros x1 x2 _ _. apply value_leb_antisym.
  - eapply StronglySorted_fmap; [|apply sort_asc_sorted]. done.
  - eapply StronglySorted_fmap; [|apply sort_desc_reverse_sorted]. done.
  - by rewrite reverse_Permutation, !sort_by_perm.
Qed.

End EngineFacts.

(** ** The document order *)

Lemma value_leb_refl a : value_leb a a = true.
Proof.
  destruct a; simpl; [done|apply string_leb_refl|apply Z.leb_refl].
Qed.

Lemma value_eqb_eq a b : value_eqb a b = true <-> a = b.
Proof.
  unfold value_eqb. rewrite andb_true_iff. split.
  - intros [H1 H2]. by apply value_leb_antisym.
  - intros ->. by rewrite value_leb_refl.
Qed.

Lemma value_eqb_neq a b : value_eqb a b = false <-> a <> b.
Proof.
  rewrite <- value_eqb_eq. by destruct (value_eqb a b).
Qed.

Lemma StronglySorted_weaken {A} (R1 R2 : relation A) l :
  (forall x y, R1 x y -> R2 x y) -> StronglySorted R1 l -> StronglySorted R2 l.
Proof.
  intros H. induction 1; constructor; [done|].
  eapply Forall_impl; eauto.
Qed.

Section DocumentOrder.
Context {Row : Type} (field : Column -> Row -> Value) (key : Row -> string).

Lemma doc_leb_desc c (a b : Row) :
  doc_leb field key (desc c) a b = doc_leb field key (asc c) b a.
Proof. reflexivity. Qed.

Lemma doc_leb_asc_total c (a b : Row) :
  doc_leb field key (asc c) a b = true \/ doc_leb field key (asc c) b a = true.
Proof.
  simpl. destruct (value_eqb (field c a) (field c b)) eqn:E.
  - apply value_eqb_eq in E. rewrite E.
    rewrite (proj2 (value_eqb_eq _ _) eq_refl). apply String.leb_total.
  - assert (value_eqb (field c b) (field c a) = false) as ->.
    { apply value_eqb_neq. apply value_eqb_neq in E. congruence. }
    apply value_leb_total.
Qed.

Lemma doc_leb_asc_trans c (x y z : Row) :
  doc_leb field key (asc c) x y = true -> doc_leb field key (asc c) y z = true ->
  doc_leb field key (asc c) x z = true.
Proof.
  simpl.
  destruct (value_eqb (field c x) (field c y)) eqn:Exy,
           (value_eqb (field c y) (field c z)) eqn:Eyz.
  - apply value_eqb_eq in Exy, Eyz. rewrite Exy, Eyz.
    rewrite (proj2 (value_eqb_eq _ _) eq_refl). apply string_leb_trans.
  - apply value_eqb_eq in Exy. rewrite Exy, Eyz. auto.
  - apply value_eqb_eq in Eyz. rewrite <- Eyz, Exy. auto.
  - intros Hxy Hyz.
    destruct (value_eqb (field c x) (field c z)) eqn:Exz.
    + apply value_eqb_eq in Exz. rewrite <- Exz in Hyz.
      apply value_eqb_neq in Exy. destruct Exy.
      by apply value_leb_antisym.
    + by eapply value_leb_trans.
Qed.

Lemma doc_leb_total o (a b : Row) :
  doc_leb field key o a b = true \/ doc_leb field key o b a = true.
Proof.
  destruct o as [c|c]; [apply doc_leb_asc_total|].
  rewrite !doc_leb_desc. apply doc_leb_asc_total.
Qed.

Lemma doc_leb_trans o (x y z : Row) :
  doc_leb field key o x y = true -> doc_leb field key o y z = true ->
  doc_leb field key o x z = true.
Proof.
  destruct o as [c|c]; [apply doc_leb_asc_trans|].
  rewrite !doc_leb_desc. intros H1 H2. by eapply doc_leb_asc_trans.
Qed.

(** The document order refines the order on the sort field. *)
Lemma doc_leb_order o (a b : Row) :
  doc_leb field key o a b = true -> order_leb field o a b = true.
Proof.
  destruct o as [c|c]; simpl.
  - destruct (value_eqb (field c a) (field c b)) eqn:E; [|done].
    apply value_eqb_eq in E. rewrite E. intros _. apply value_leb_refl.
  - destruct (value_eqb (field c b) (field c a)) eqn:E; [|done].
    apply value_eqb_eq in E. rewrite E. intros _. apply value_leb_refl.
Qed.

Lemma sort_doc_sorted o (l : list Row) :
  StronglySorted (fun a b => doc_leb field key o a b = true)
    (sort_by (doc_leb field key o) l).
Proof.
  apply (sort_by_sorted (doc_leb field key o));
    [apply doc_leb_total | apply doc_leb_trans].
Qed.

Lemma sort_order_sorted o (l : list Row) :
  StronglySorted (fun a b => order_leb field o a b = true)
    (sort_by (order_leb field o) l).
Proof.
  apply (sort_by_sorted (order_leb field o));
    [apply order_leb_total | apply order_leb_trans].
Qed.

(** Sorted the document way or the relational way, the sort keys come
    in the same sequence. *)
Lemma sort_doc_keys o (l : list Row) :
  map (field (order_column o)) (sort_by (doc_leb field key o) l) =
  map (field (order_column o)) (sort_by (order_leb field o) l).
Proof.
  change (@map Row Value) with (@fmap list _ Row Value).
  pose proof (sort_doc_sorted o l) as Hdoc.
  apply (StronglySorted_weaken _ _ _ (doc_leb_order o)) in Hdoc.
  pose proof (sort_order_sorted o l) as Hord.
  assert (sort_by (doc_leb field key o) l ≡ₚ sort_by (order_leb field o) l) as Hperm
    by (by rewrite !sort_by_perm).
  destruct o as [c|c]; simpl in *.
  - apply (StronglySorted_unique_strong (fun a b => value_leb a b = true)).
    + intros x1 x2 _ _. apply value_leb_antisym.
    + eapply StronglySorted_fmap; [|exact Hdoc]. done.
    + eapply StronglySorted_fmap; [|exact Hord]. done.
    + by rewrite Hperm.
  - apply (StronglySorted_unique_strong (fun a b => value_leb b a = true)).
    + intros x1 x2 _ _ H1 H2. by apply value_leb_antisym.
    + eapply StronglySorted_fmap; [|exact Hdoc]. done.
    + eapply StronglySorted_fmap; [|exact Hord]. done.
    + by rewrite Hperm.
Qed.

(** Documents have distinct keys, so ascending and descending document
    order are reverses of each other. *)
Lemma sort_doc_asc_desc_reverse c (l : list Row) :
  NoDup (map key l) ->
  sort_by (doc_leb field key (asc c)) l =
  reverse (sort_by (doc_leb field key (desc c)) l).
Proof.
  intros Hnd.
  assert (Transitive (fun a b : Row => doc_leb field key (asc c) a b = true))
    as Htrans.
  { intros x y z. apply doc_leb_asc_trans. }
  apply (StronglySorted_unique_strong
           (fun a b => doc_leb field key (asc c) a b = true)).
  - intros x1 x2 H1 H2 H12 H21.
    apply (NoDup_fmap_eq key l); [done| | |].
    + apply sort_by_In with (leb := doc_leb field key (asc c)).
      by apply list_elem_of_In.
    + apply sort_by_In with (leb := doc_leb field key (desc c)).
      apply list_elem_of_In. by apply elem_of_reverse.
    + simpl in H12, H21.
      destruct (value_eqb (field c x1) (field c x2)) eqn:E.
      * apply value_eqb_eq in E. rewrite E in H21.
        rewrite (proj2 (value_eqb_eq _ _) eq_refl) in H21.
        by apply String.leb_antisym.
      * assert (value_eqb (field c x2) (field c x1) = false) as E'.
        { apply value_eqb_neq. apply value_eqb_neq in E. congruence. }
        rewrite E' in H21. apply value_eqb_neq in E. destruct E.
        by apply value_leb_antisym.
  - apply sort_doc_sorted.
  - apply Sorted_StronglySorted; [done|].
    apply (Sorted_reverse
             (flip (fun a b : Row => doc_leb field key (asc c) a b = true))).
    apply StronglySorted_Sorted. apply (sort_doc_sorted (desc c)).
  - by rewrite reverse_Permutation, !sort_by_perm.
Qed.

End DocumentOrder.

(** ** Filters *)

Ltac case_ifs :=
  repeat match goal with
         | |- context [if ?b then _ else _] => destruct b eqn:?; simpl
         end.

Lemma storage_conditions_split c l ra :
  storage_conditions (Some (mkFilters c l ra)) =
  (storage_conditions (Some (mkFilters c None None))
     ++ storage_conditions (Some (mkFilters None l None))
     ++ storage_conditions (Some (mkFilters None None ra)))%list.
Proof.
  unfold storage_conditions; simpl. by rewrite !app_nil_r.
Qed.

Lemma storage_conditions_rating c l ra :
  storage_conditions (Some (mkFilters c l ra)) =
  (storage_conditions (Some (mkFilters c l None))
     ++ storage_conditions (Some (mkFilters None None ra)))%list.
Proof.
  unfold storage_conditions; simpl. by rewrite !app_nil_r, app_assoc.
Qed.

Lemma storage_conditions_other_rating ra :
  ra <> "5 stars" -> ra <> "4+ stars" -> ra <> "3+ stars" ->
  storage_conditions (Some (mkFilters None None (Some ra))) = [].
Proof.
  intros H5 H4 H3. unfold storage_conditions; simpl.
  destruct (String.eqb_spec ra "5 stars"); [done|].
  destruct (String.eqb_spec ra "4+ stars"); [done|].
  destruct (String.eqb_spec ra "3+ stars"); [done|].
  by case_ifs.
Qed.

(** The result depends on the filters only through the conditions. *)
Lemma storage_getEstablishments_conditions {Row} (field : Column -> Row -> Value)
    f1 f2 sortBy table :
  storage_conditions f1 = storage_conditions f2 ->
  storage_getEstablishments field f1 sortBy table =
  storage_getEstablishments field f2 sortBy table.
Proof.
  intros H. unfold storage_getEstablishments. by rewrite H.
Qed.

Lemma rating_filter_In c l ra sortBy (table : list Establishment) r :
  In r (storage_getEstablishments establishment_field
          (Some (mkFilters c l ra)) sortBy table) <->
  In r (storage_getEstablishments establishment_field
          (Some (mkFilters c l None)) sortBy table) /\
  forallb (fun w => sql_holds establishment_field w r)
    (storage_conditions (Some (mkFilters None None ra))) = true.
Proof.
  rewrite !storage_getEstablishments_In, storage_conditions_rating.
  rewrite forallb_app, andb_true_iff. tauto.
Qed.

Lemma gte_rating_holds r v :
  sql_holds establishment_field (sql_gte col_rating v) r = true <->
  exists x, est_rating r = Some x /\ String.leb v x = true.
Proof.
  simpl. destruct (est_rating r) as [x|]; simpl.
  - split; [eauto|]. by intros (y & [= <-] & ?).
  - split; [done|]. by intros (y & ? & ?).
Qed.

Lemma eq_rating_holds r v :
  sql_holds establishment_field (sql_eq col_rating v) r = true <->
  est_rating r = Some v.
Proof.
  simpl. destruct (est_rating r) as [x|]; simpl; [|done].
  rewrite String.eqb_eq. split; congruence.
Qed.

(** The rows whose rating, a text or nothing, is a text that meets [p]. *)
Lemma rating_filter_perm ra conditions p sortBy (table : list Establishment) :
  storage_conditions (Some (mkFilters None None ra)) = conditions ->
  (forall r, forallb (fun w => sql_holds establishment_field w r) conditions
             = from_option p false (est_rating r)) ->
  storage_getEstablishments establishment_field
    (Some (mkFilters None None ra)) sortBy table ≡ₚ
  List.filter (fun r => from_option p false (est_rating r)) table.
Proof.
  intros Hc Hp. rewrite storage_getEstablishments_perm, Hc.
  by rewrite (filter_ext _ _ Hp).
Qed.

(** C1, as stated, fails: the rating is free text, and "4+ stars" keeps
    an establishment rated "9" or "4.2", neither of which is 4, 4.5 or
    5 (it drops one rated "10"). *)
Lemma C1_rating_filter_counterexample :
  let rated id x :=
    mkEstablishment id "C" "Retail" "Uptown" None (Some x) None 1 (Some 300) in
  storage_getEstablishments establishment_field
    (Some (mkFilters None None (Some "4+ stars"))) (Some "Name A-Z")
    [rated 3 "9"; rated 4 "10"; rated 5 "4.2"; establishment_B]
  = [rated 3 "9"; rated 5 "4.2"] /\
  ~ In "9" ["4"; "4.5"; "5"] /\ ~ In "4.2" ["4"; "4.5"; "5"].
Proof.
  split; [vm_compute; reflexivity|].
  split; simpl; intros H; destruct_or!; discriminate.
Qed.

(** C1 (amended): the rating filter knows three buckets.  Alone, "5
    stars" returns the stored establishments rated "5", "4+ stars" those
    whose rating is at least "4" as a string and "3+ stars" those whose
    rating is at least "3" as a string, each as often as it is stored;
    next to other filters each bucket keeps of their result the
    establishments so rated.  Among the seven rating options the ratings
    at least "4" are 4, 4.5 and 5 and those at least "3" are 3, 3.5, 4,
    4.5 and 5.  Any other value leaves the result as it is without a
    rating filter. *)
Theorem C1_rating_filter_buckets
    (c l sortBy : option string) (table : list Establishment) :
  let get c l ra :=
    storage_getEstablishments establishment_field
      (Some (mkFilters c l ra)) sortBy table in
  let rated p := fun r => from_option p false (est_rating r) in
  get None None (Some "5 stars") ≡ₚ List.filter (rated (fun x => String.eqb x "5")) table /\
  get None None (Some "4+ stars") ≡ₚ List.filter (rated (String.leb "4")) table /\
  get None None (Some "3+ stars") ≡ₚ List.filter (rated (String.leb "3")) table /\
  (forall r, In r (get c l (Some "5 stars")) <->
             In r (get c l None) /\ est_rating r = Some "5") /\
  (forall r, In r (get c l (Some "4+ stars")) <->
             In r (get c l None) /\
             exists x, est_rating r = Some x /\ String.leb "4" x = true) /\
  (forall r, In r (get c l (Some "3+ stars")) <->
             In r (get c l None) /\
             exists x, est_rating r = Some x /\ String.leb "3" x = true) /\
  (forall x, In x RATING_OPTIONS ->
     (String.leb "4" x = true <-> In x ["4"; "4.5"; "5"]) /\
     (String.leb "3" x = true <-> In x ["3"; "3.5"; "4"; "4.5"; "5"])) /\
  (forall r x, est_rating r = Some x -> In x RATING_OPTIONS ->
     (In r (get c l (Some "4+ stars")) <->
      In r (get c l None) /\ In x ["4"; "4.5"; "5"])) /\
  (forall r x, est_rating r = Some x -> In x RATING_OPTIONS ->
     (In r (get c l (Some "3+ stars")) <->
      In r (get c l None) /\ In x ["3"; "3.5"; "4"; "4.5"; "5"])) /\
  (forall ra, ra <> "5 stars" -> ra <> "4+ stars" -> ra <> "3+ stars" ->
     get c l (Some ra) = get c l None /\
     get None None (Some ra) ≡ₚ table).
Proof.
  intros get rated. unfold get, rated.
  assert (forall r, In r (storage_getEstablishments establishment_field
                       (Some (mkFilters c l (Some "5 stars"))) sortBy table) <->
             In r (storage_getEstablishments establishment_field
                       (Some (mkFilters c l None)) sortBy table) /\
             est_rating r = Some "5") as H5.
  { intros r. rewrite rating_filter_In, <- eq_rating_holds.
    change (storage_conditions (Some (mkFilters None None (Some "5 stars"))))
      with [sql_eq col_rating "5"].
    cbn [forallb]. by rewrite andb_true_r. }
  assert (forall r, In r (storage_getEstablishments establishment_field
                       (Some (mkFilters c l (Some "4+ stars"))) sortBy table) <->
             In r (storage_getEstablishments establishment_field
                       (Some (mkFilters c l None)) sortBy table) /\
             exists x, est_rating r = Some x /\ String.leb "4" x = true) as H4.
  { intros r. rewrite rating_filter_In, <- gte_rating_holds.
    change (storage_conditions (Some (mkFilters None None (Some "4+ stars"))))
      with [sql_gte col_rating "4"].
    cbn [forallb]. by rewrite andb_true_r. }
  assert (forall r, In r (storage_getEstablishments establishment_field
                       (Some (mkFilters c l (Some "3+ stars"))) sortBy table) <->
             In r (storage_getEstablishments establishment_field
                       (Some (mkFilters c l None)) sortBy table) /\
             exists x, est_rating r = Some x /\ String.leb "3" x = true) as H3.
  { intros r. rewrite rating_filter_In, <- gte_rating_holds.
    change (storage_conditions (Some (mkFilters None None (Some "3+ stars"))))
      with [sql_gte col_rating "3"].
    cbn [forallb]. by rewrite andb_true_r. }
  assert (forall x, In x RATING_OPTIONS ->
            (String.leb "4" x = true <-> In x ["4"; "4.5"; "5"]) /\
            (String.leb "3" x = true <-> In x ["3"; "3.5"; "4"; "4.5"; "5"]))
    as Hoptions.
  { intros x Hx. simpl in Hx.
    destruct_or!; subst; try done;
      (split; (split; [try discriminate; simpl; tauto | try reflexivity;
                       simpl; intros H; destruct_or!; discriminate])). }
  split.
  { apply (rating_filter_perm _ [sql_eq col_rating "5"]); [reflexivity|].
    intros r. simpl. destruct (est_rating r); simpl; by rewrite ?andb_true_r. }
  split.
  { apply (rating_filter_perm _ [sql_gte col_rating "4"]); [reflexivity|].
    intros r. simpl. destruct (est_rating r); simpl; by rewrite ?andb_true_r. }
  split.
  { apply (rating_filter_perm _ [sql_gte col_rating "3"]); [reflexivity|].
    intros r. simpl. destruct (est_rating r); simpl; by rewrite ?andb_true_r. }
  split; [exact H5|]. split; [exact H4|]. split; [exact H3|].
  split; [exact Hoptions|].
  split; [|split].
  - intros r x Hr Hx. rewrite H4. destruct (Hoptions x Hx) as [Hopt _]. split.
    + intros [H1 (y & Hy & Hle)]. split; [done|].
      assert (y = x) as -> by congruence. by apply Hopt.
    + intros [H1 H2]. split; [done|]. exists x. split; [done|]. by apply Hopt.
  - intros r x Hr Hx. rewrite H3. destruct (Hoptions x Hx) as [_ Hopt]. split.
    + intros [H1 (y & Hy & Hle)]. split; [done|].
      assert (y = x) as -> by congruence. by apply Hopt.
    + intros [H1 H2]. split; [done|]. exists x. split; [done|]. by apply Hopt.
  - intros ra H5' H4' H3'. split.
    + apply storage_getEstablishments_conditions.
      rewrite storage_conditions_rating, storage_conditions_other_rating by done.
      by rewrite app_nil_r.
    + rewrite storage_getEstablishments_perm.
      rewrite storage_conditions_other_rating by done. simpl.
      clear. induction table as [|x t IH]; simpl; [done|]. by rewrite IH.
Qed.

(** A witness of C1 on the two sample establishments. *)
Lemma C1_rating_filter_buckets_witness :
  let get ra :=
    storage_getEstablishments establishment_field
      (Some (mkFilters None None ra)) None [establishment_A; establishment_B] in
  get (Some "4+ stars") ≡ₚ [establishment_A] /\
  (In establishment_B (get (Some "3+ stars")) <->
   In establishment_B (get None) /\ In "3" ["3"; "3.5"; "4"; "4.5"; "5"]) /\
  get (Some "2+ stars") ≡ₚ [establishment_A; establishment_B].
Proof.
  intros get.
  pose proof (C1_rating_filter_buckets None None None
                [establishment_A; establishment_B])
    as (_ & H4 & _ & _ & _ & _ & _ & _ & H3 & Hother).
  split; [exact H4|]. split.
  - apply (H3 establishment_B "3"); [reflexivity | simpl; auto 10].
  - apply Hother; discriminate.
Defined.

Lemma storage_conditions_category c0 :
  c0 <> "" -> c0 <> "All categories" ->
  storage_conditions (Some (mkFilters (Some c0) None None)) = [sql_eq col_category c0].
Proof.
  intros H1 H2. unfold storage_conditions, truthy_string; simpl.
  destruct (String.eqb_spec c0 ""); [done|].
  by destruct (String.eqb_spec c0 "All categories").
Qed.

Lemma storage_conditions_location l0 :
  l0 <> "" -> l0 <> "All locations" ->
  storage_conditions (Some (mkFilters None (Some l0) None)) = [sql_eq col_location l0].
Proof.
  intros H1 H2. unfold storage_conditions, truthy_string; simpl.
  destruct (String.eqb_spec l0 ""); [done|].
  by destruct (String.eqb_spec l0 "All locations").
Qed.

Lemma sql_eq_holds {Row} (field : Column -> Row -> Value) c v r :
  sql_holds field (sql_eq c v) r = true <-> field c r = VText v.
Proof.
  simpl. destruct (field c r); try done.
  rewrite String.eqb_eq. split; congruence.
Qed.

(** C2: the establishments returned for a combination of filters are
    those returned for each filter taken alone; an absent filter, an
    empty one or the "All ..." sentinel of its field leaves the result
    as it is without that filter, and with no filter at all every stored
    establishment is returned; a category or location filter alone keeps
    the establishments whose field equals it; on the sample data the filter
    {category: "All categories", rating: "4+ stars"} returns A alone. *)
Theorem C2_filters_intersect
    {Row} (field : Column -> Row -> Value)
    (c l ra sortBy : option string) (table : list Row) :
  let get f := storage_getEstablishments field f sortBy table in
  (forall r, In r (get (Some (mkFilters c l ra))) <->
             In r (get (Some (mkFilters c None None))) /\
             In r (get (Some (mkFilters None l None))) /\
             In r (get (Some (mkFilters None None ra)))) /\
  get (Some (mkFilters (Some "All categories") l ra)) = get (Some (mkFilters None l ra)) /\
  get (Some (mkFilters c (Some "All locations") ra)) = get (Some (mkFilters c None ra)) /\
  get (Some (mkFilters c l (Some "All ratings"))) = get (Some (mkFilters c l None)) /\
  get (Some (mkFilters (Some "") l ra)) = get (Some (mkFilters None l ra)) /\
  get (Some (mkFilters c (Some "") ra)) = get (Some (mkFilters c None ra)) /\
  get (Some (mkFilters c l (Some ""))) = get (Some (mkFilters c l None)) /\
  get (Some no_filters) = get None /\
  get None ≡ₚ table /\
  (forall r, In r (get (Some (mkFilters c l ra))) -> In r (get None)) /\
  (forall c0 r, c0 <> "" -> c0 <> "All categories" ->
     (In r (get (Some (mkFilters (Some c0) None None))) <->
      In r table /\ field col_category r = VText c0)) /\
  (forall l0 r, l0 <> "" -> l0 <> "All locations" ->
     (In r (get (Some (mkFilters None (Some l0) None))) <->
      In r table /\ field col_location r = VText l0)) /\
  storage_getEstablishments establishment_field
    (Some (mkFilters (Some "All categories") None (Some "4+ stars"))) sortBy
    [establishment_A; establishment_B] = [establishment_A].
Proof.
  intros get. unfold get.
  split.
  { intros r. rewrite !storage_getEstablishments_In, storage_conditions_split.
    rewrite !forallb_app, !andb_true_iff. tauto. }
  do 7 (split; [by apply storage_getEstablishments_conditions|]).
  split.
  { rewrite storage_getEstablishments_perm. simpl.
    induction table as [|x t IH]; simpl; [done|]. by rewrite IH. }
  split.
  { intros r. rewrite !storage_getEstablishments_In. simpl. tauto. }
  split.
  { intros c0 r H1 H2. rewrite storage_getEstablishments_In.
    rewrite (storage_conditions_category c0) by done.
    cbn [forallb]. rewrite andb_true_r, sql_eq_holds. tauto. }
  split.
  { intros l0 r H1 H2. rewrite storage_getEstablishments_In.
    rewrite (storage_conditions_location l0) by done.
    cbn [forallb]. rewrite andb_true_r, sql_eq_holds. tauto. }
  rewrite storage_getEstablishments_select. unfold db_select.
  by destruct (storage_order _).
Qed.

(** A witness of C2: the category filter on the sample data. *)
Lemma C2_filters_intersect_witness :
  In establishment_B
    (storage_getEstablishments establishment_field
       (Some (mkFilters (Some "Retail") None None)) None
       [establishment_A; establishment_B]) <->
  In establishment_B [establishment_A; establishment_B] /\
  establishment_field col_category establishment_B = VText "Retail".
Proof.
  pose proof (C2_filters_intersect establishment_field None None None None
                [establishment_A; establishment_B])
    as (_ & _ & _ & _ & _ & _ & _ & _ & _ & _ & H & _).
  apply (H "Retail" establishment_B); discriminate.
Defined.

(** ** Ratings as strings and as numbers *)

(** C9: on the seven rating options the order of the strings is the
    order of the numbers they denote, and so are the two uses of it: the
    "at least" condition of the rating buckets and the comparison that
    "Highest rated" sorts by. *)
Theorem C9_rating_order_numeric (a b : string) :
  In a RATING_OPTIONS -> In b RATING_OPTIONS ->
  exists qa qb : Q,
    rating_number a = Some qa /\ rating_number b = Some qb /\
    String.leb a b = Qle_bool qa qb /\
    String.ltb a b = negb (Qle_bool qb qa) /\
    (forall r, est_rating r = Some a ->
       sql_holds establishment_field (sql_gte col_rating b) r = Qle_bool qb qa) /\
    (forall r1 r2, est_rating r1 = Some a -> est_rating r2 = Some b ->
       order_leb establishment_field (desc col_rating) r1 r2 = Qle_bool qb qa).
Proof.
  intros Ha Hb. simpl in Ha, Hb.
  destruct_or!; subst; try done;
    (do 2 eexists;
     split; [reflexivity|]; split; [reflexivity|];
     split; [reflexivity|]; split; [reflexivity|];
     split;
     [ intros r H; simpl; rewrite H; reflexivity
     | intros r1 r2 H1 H2; simpl; rewrite H1, H2; reflexivity ]).
Qed.

(** A witness of C9: "4.5" against "4". *)
Lemma C9_rating_order_numeric_witness :
  exists qa qb : Q,
    rating_number "4.5" = Some qa /\ rating_number "4" = Some qb /\
    String.leb "4.5" "4" = Qle_bool qa qb /\
    String.ltb "4.5" "4" = negb (Qle_bool qb qa) /\
    (forall r, est_rating r = Some "4.5" ->
       sql_holds establishment_field (sql_gte col_rating "4") r = Qle_bool qb qa) /\
    (forall r1 r2, est_rating r1 = Some "4.5" -> est_rating r2 = Some "4" ->
       order_leb establishment_field (desc col_rating) r1 r2 = Qle_bool qb qa).
Proof.
  apply (C9_rating_order_numeric "4.5" "4"); simpl; auto 10.
Defined.

(** ** The two engines *)

Section TwoEngines.
Context {Row : Type} (field : Column -> Row -> Value) (key : Row -> string).

Lemma firestore_constraints_no_order filters :
  omap constraint_order (firestore_filter_constraints filters) = [].
Proof.
  destruct filters as [[[c|] [l|] [ra|]]|]; simpl; by case_ifs.
Qed.

(** The [where] constraints are the conditions of the relational engine. *)
Lemma firestore_constraints_hold filters (r : Row) :
  forallb (constraint_holds field r) (firestore_filter_constraints filters) =
  forallb (fun w => sql_holds field w r) (storage_conditions filters).
Proof.
  destruct filters as [[[c|] [l|] [ra|]]|]; simpl; by case_ifs.
Qed.

(** The document query keeps the records that meet the conditions and
    have the sort field, and orders them on that field. *)
Lemma firestore_getEstablishments_select filters sortBy (docs : list Row) :
  firestore_getEstablishments field key filters sortBy docs =
  sort_by
    (doc_leb field key (direction_order (firestore_sort (default "createdAt" sortBy))))
    (List.filter
       (fun r => forallb (fun w => sql_holds field w r) (storage_conditions filters)
                 && negb (is_null
                            (field (fst (firestore_sort (default "createdAt" sortBy))) r)))
       docs).
Proof.
  unfold firestore_getEstablishments, getDocs.
  destruct (firestore_sort (default "createdAt" sortBy)) as [sf d].
  rewrite omap_app, firestore_constraints_no_order.
  assert (forall r,
            forallb (constraint_holds field r)
              (firestore_filter_constraints filters ++ [qc_orderBy sf d]) =
            forallb (fun w => sql_holds field w r) (storage_conditions filters)
            && negb (is_null (field sf r))) as Hf.
  { intros r. rewrite forallb_app, firestore_constraints_hold. simpl.
    by rewrite andb_true_r. }
  rewrite (filter_ext _ _ Hf). by destruct d.
Qed.

End TwoEngines.

(** C3, as stated, fails: for a label neither engine knows, the
    relational engine returns the establishments in stored order,
    whereas the document-store adapter orders them newest first. *)
Lemma C3_engines_counterexample :
  storage_getEstablishments establishment_field None (Some "Oldest first")
    [establishment_A; establishment_B] = [establishment_A; establishment_B] /\
  firestore_getEstablishments establishment_field establishment_key None
    (Some "Oldest first")
    [establishment_A; establishment_B] = [establishment_B; establishment_A] /\
  storage_getEstablishments establishment_field None (Some "Oldest first")
    [establishment_A; establishment_B] <>
  firestore_getEstablishments establishment_field establishment_key None
    (Some "Oldest first") [establishment_A; establishment_B].
Proof.
  split; [reflexivity|]. split; [reflexivity|].
  vm_compute. discriminate.
Qed.

(** C3 (amended): for every combination of filters and every recognised
    sort label ("Newest first", "createdAt", which is also the default,
    "Highest rated", "Name A-Z", "Name Z-A"), the two engines build the
    same equality and range conditions and the same sort key and
    direction; over records that all have the sort field they return the
    same establishments with the sort keys in the same sequence (the
    order among establishments with equal keys is each store's own).  For
    any other label the relational engine applies no ordering and the
    document-store adapter orders by creation time, newest first. *)
Theorem C3_engines_agree
    {Row} (field : Column -> Row -> Value) (key : Row -> string)
    (filters : option Filters) (sortBy : option string) (rows : list Row) :
  let label := default "createdAt" sortBy in
  let sortField := (firestore_sort label).1 in
  (In label SORT_LABELS ->
   storage_order label = Some (direction_order (firestore_sort label)) /\
   (forall r, forallb (constraint_holds field r)
                (firestore_filter_constraints filters) =
              forallb (fun w => sql_holds field w r) (storage_conditions filters)) /\
   ((forall r, In r rows -> is_null (field sortField r) = false) ->
    firestore_getEstablishments field key filters sortBy rows ≡ₚ
      storage_getEstablishments field filters sortBy rows /\
    map (field sortField) (firestore_getEstablishments field key filters sortBy rows) =
      map (field sortField) (storage_getEstablishments field filters sortBy rows))) /\
  (~ In label SORT_LABELS ->
   storage_order label = None /\
   firestore_sort label = (col_createdAt, dir_desc)).
Proof.
  intros label sortField. split.
  - intros Hlabel.
    assert (storage_order label = Some (direction_order (firestore_sort label)))
      as Horder.
    { clear -Hlabel. simpl in Hlabel. by destruct_or!; try done; rewrite <- Hlabel. }
    split; [exact Horder|]. split; [apply firestore_constraints_hold|].
    intros Hfield.
    rewrite firestore_getEstablishments_select, storage_getEstablishments_select.
    fold label. unfold db_select. rewrite Horder, where_of_filter.
    assert (List.filter
              (fun r => forallb (fun w => sql_holds field w r)
                          (storage_conditions filters)
                        && negb (is_null (field (firestore_sort label).1 r))) rows =
            List.filter
              (fun r => forallb (fun w => sql_holds field w r)
                          (storage_conditions filters)) rows) as ->.
    { apply filter_ext_in. intros r Hr.
      fold sortField. by rewrite (Hfield r Hr), andb_true_r. }
    split; [by rewrite !sort_by_perm|].
    assert (sortField = order_column (direction_order (firestore_sort label))) as ->.
    { unfold sortField. by destruct (firestore_sort label) as [f []]. }
    apply sort_doc_keys.
  - intros Hlabel. unfold SORT_LABELS in Hlabel. simpl in Hlabel.
    unfold storage_order, firestore_sort.
    destruct (String.eqb_spec label "Newest first") as [e|_]; [symmetry in e; tauto|].
    destruct (String.eqb_spec label "createdAt") as [e|_]; [symmetry in e; tauto|].
    destruct (String.eqb_spec label "Highest rated") as [e|_]; [symmetry in e; tauto|].
    destruct (String.eqb_spec label "Name A-Z") as [e|_]; [symmetry in e; tauto|].
    destruct (String.eqb_spec label "Name Z-A") as [e|_]; [symmetry in e; tauto|].
    done.
Qed.

(** A witness of C3: the default label on the two sample establishments. *)
Lemma C3_engines_agree_witness :
  let filters := Some (mkFilters None None (Some "3+ stars")) in
  let table := [establishment_A; establishment_B] in
  firestore_getEstablishments establishment_field establishment_key filters None table
    ≡ₚ storage_getEstablishments establishment_field filters None table /\
  map (establishment_field col_createdAt)
    (firestore_getEstablishments establishment_field establishment_key filters None table) =
  map (establishment_field col_createdAt)
    (storage_getEstablishments establishment_field filters None table).
Proof.
  intros filters table.
  pose proof (C3_engines_agree establishment_field establishment_key
                filters None table) as [H _].
  destruct H as (_ & _ & H); [simpl; auto|].
  apply H. intros r [<-|[<-|[]]]; reflexivity.
Defined.

(** C8, as stated, fails: two establishments with the same name come
    back in their stored order under both "Name A-Z" and "Name Z-A". *)
Lemma C8_name_sorts_counterexample :
  storage_getEstablishments establishment_field None (Some "Name A-Z")
    [cafe_1; cafe_2] = [cafe_1; cafe_2] /\
  storage_getEstablishments establishment_field None (Some "Name Z-A")
    [cafe_1; cafe_2] = [cafe_1; cafe_2] /\
  storage_getEstablishments establishment_field None (Some "Name A-Z")
    [cafe_1; cafe_2] <>
  reverse (storage_getEstablishments establishment_field None (Some "Name Z-A")
             [cafe_1; cafe_2]).
Proof.
  split; [reflexivity|]. split; [reflexivity|].
  vm_compute. discriminate.
Qed.

Lemma NoDup_map_filter {A B} (f : A -> B) (p : A -> bool) (l : list A) :
  NoDup (map f l) -> NoDup (map f (List.filter p l)).
Proof.
  induction l as [|x t IH]; simpl; [done|].
  intros [Hx Ht]%NoDup_cons. destruct (p x); simpl; [|by apply IH].
  apply NoDup_cons. split; [|by apply IH].
  intros Hin. apply Hx.
  apply list_elem_of_In, in_map_iff in Hin as (y & Hy & Hin).
  apply filter_In in Hin as [Hin _].
  apply list_elem_of_In, in_map_iff. eauto.
Qed.

Lemma storage_name_sorts {Row} (field : Column -> Row -> Value)
    filters (table : list Row) :
  let rows := List.filter (fun r => forallb (fun w => sql_holds field w r)
                                      (storage_conditions filters)) table in
  storage_getEstablishments field filters (Some "Name A-Z") table =
    sort_by (order_leb field (asc col_name)) rows /\
  storage_getEstablishments field filters (Some "Name Z-A") table =
    sort_by (order_leb field (desc col_name)) rows.
Proof.
  intros rows. rewrite !storage_getEstablishments_select. unfold db_select.
  by rewrite where_of_filter.
Qed.

(** C8 (amended): for the same stored establishments and filters, the
    names come back under "Name A-Z" in the reverse of their order under
    "Name Z-A", and the two results of the relational engine are reverses
    of each other when the selected establishments have pairwise distinct
    names; the two results of the document-store adapter are reverses of
    each other, documents having distinct keys. *)
Theorem C8_name_sorts_reverse
    {Row} (field : Column -> Row -> Value) (key : Row -> string)
    filters (table : list Row) :
  let az := storage_getEstablishments field filters (Some "Name A-Z") table in
  let za := storage_getEstablishments field filters (Some "Name Z-A") table in
  let doc_az := firestore_getEstablishments field key filters (Some "Name A-Z") table in
  let doc_za := firestore_getEstablishments field key filters (Some "Name Z-A") table in
  map (field col_name) az = reverse (map (field col_name) za) /\
  (NoDup (map (field col_name) az) -> az = reverse za) /\
  (NoDup (map key table) -> doc_az = reverse doc_za).
Proof.
  intros az za doc_az doc_za. unfold az, za, doc_az, doc_za.
  destruct (storage_name_sorts field filters table) as [-> ->].
  split; [apply sort_asc_desc_keys|]. split.
  - intros Hnd. apply sort_asc_desc_reverse.
    eapply NoDup_Permutation_proper; [|exact Hnd].
    symmetry. apply Permutation_map, sort_by_perm.
  - intros Hnd. rewrite !firestore_getEstablishments_select.
    change (firestore_sort (default "createdAt" (Some "Name A-Z")))
      with (col_name, dir_asc).
    change (firestore_sort (default "createdAt" (Some "Name Z-A")))
      with (col_name, dir_desc).
    apply (sort_doc_asc_desc_reverse field key col_name).
    by apply NoDup_map_filter.
Qed.

(** A witness of C8 on the two sample establishments. *)
Lemma C8_name_sorts_reverse_witness :
  let table := [establishment_B; establishment_A] in
  storage_getEstablishments establishment_field None (Some "Name A-Z") table =
  reverse (storage_getEstablishments establishment_field None (Some "Name Z-A") table)
  /\
  firestore_getEstablishments establishment_field establishment_key None
    (Some "Name A-Z") [cafe_1; cafe_2] =
  reverse (firestore_getEstablishments establishment_field establishment_key None
             (Some "Name Z-A") [cafe_1; cafe_2]).
Proof.
  intros table. split.
  - apply (C8_name_sorts_reverse establishment_field establishment_key None table).
    vm_compute.
    apply NoDup_cons_2; [|apply NoDup_singleton].
    by intros ?%list_elem_of_singleton.
  - apply (C8_name_sorts_reverse establishment_field establishment_key None
             [cafe_1; cafe_2]).
    vm_compute.
    apply NoDup_cons_2; [|apply NoDup_singleton].
    by intros ?%list_elem_of_singleton.
Defined.

(** ** The storage gateway *)

Lemma filter_nil_if {A} (f : A -> bool) (l : list A) :
  (forall x, In x l -> f x = false) -> List.filter f l = [].
Proof.
  induction l as [|x l IH]; simpl; [done|]. intros H.
  rewrite (H x) by auto. apply IH. auto.
Qed.

Lemma length_filter_pos {A} (f : A -> bool) (l : list A) :
  (0 <? length (List.filter f l))%nat = true <-> exists x, In x l /\ f x = true.
Proof.
  rewrite Nat.ltb_lt. split.
  - destruct (List.filter f l) as [|x k] eqn:E; simpl; [lia|]. intros _.
    exists x. apply filter_In. rewrite E. by left.
  - intros (x & Hx & Hf).
    assert (In x (List.filter f l)) as Hin by (by apply filter_In).
    destruct (List.filter f l); simpl in *; [done|lia].
Qed.


(** A storage call with a parameter of the column type goes through; any
    other is refused and leaves the database as it was. *)
Lemma storage_call_ok {A} id (call : Store A) db :
  int32 id = true ->
  storage_call id call db = (resolved (call db).1, (call db).2).
Proof. unfold storage_call. intros ->. by destruct (call db). Qed.

Lemma storage_call_refused {A} id (call : Store A) db :
  int32 id = false ->
  storage_call id call db = (rejected "value out of range for type integer", db).
Proof. unfold storage_call. by intros ->. Qed.

(** The handlers that take an id, case by case. *)
Lemma get_attachments_eq id db :
  Routes.get_attachments (Some id) db =
  if int32 id then
    match (DatabaseStorage.getEstablishment id db).1 with
    | None => (mkResponse 404 (res_error "Establishment not found"), db)
    | Some _ =>
        (mkResponse 200 (res_attachments (DatabaseStorage.getAttachments id db).1), db)
    end
  else (mkResponse 500 (res_error "Failed to get attachments"), db).
Proof.
  unfold Routes.get_attachments, store_bind, store_ret.
  destruct (int32 id) eqn:Hid.
  - rewrite !storage_call_ok by done. simpl.
    destruct (head _); [|done]. by rewrite storage_call_ok.
  - by rewrite storage_call_refused.
Qed.

Lemma delete_establishment_eq id db :
  Routes.delete_establishment (Some id) db =
  if int32 id then
    match (DatabaseStorage.getEstablishment id db).1 with
    | None => (mkResponse 404 (res_error "Establishment not found"), db)
    | Some _ =>
        (mkResponse 200 (res_success (DatabaseStorage.deleteEstablishment id db).1),
         (DatabaseStorage.deleteEstablishment id db).2)
    end
  else (mkResponse 500 (res_error "Failed to delete establishment"), db).
Proof.
  unfold Routes.delete_establishment, store_bind, store_ret.
  destruct (int32 id) eqn:Hid.
  - rewrite !storage_call_ok by done. simpl.
    destruct (head _); [|done]. by rewrite storage_call_ok.
  - by rewrite storage_call_refused.
Qed.

Lemma delete_attachment_eq id db :
  Routes.delete_attachment (Some id) db =
  if int32 id then
    (if Nat.ltb 0 (length (List.filter (fun a => att_id a =? id) (attachments db)))
     then mkResponse 200 (res_success true)
     else mkResponse 404 (res_error "Attachment not found"),
     {| establishments := establishments db;
        attachments := List.filter (fun a => negb (att_id a =? id)) (attachments db);
        establishments_seq := establishments_seq db;
        attachments_seq := attachments_seq db |})
  else (mkResponse 500 (res_error "Failed to delete attachment"), db).
Proof.
  unfold Routes.delete_attachment, store_bind, store_ret.
  destruct (int32 id) eqn:Hid.
  - rewrite storage_call_ok by done.
    unfold DatabaseStorage.deleteAttachment,
      DatabaseStorage.delete_attachments_returning, store_bind, store_ret. simpl.
    rewrite length_map. by destruct (Nat.ltb _ _).
  - by rewrite storage_call_refused.
Qed.

(** C6: deleting an establishment first removes every attachment that
    refers to it, the establishment still being stored, and then the
    establishment itself, and nothing else; it answers true exactly when
    the establishment was stored; afterwards no attachment of the
    establishment is listed and, attachment ids being unique, asking for
    any of the removed ids is answered "not found" (an id, here and for
    the list of attachments, being a number of the column type: any
    other is answered 500). *)
Theorem C6_delete_cascades (id : Z) (db : Database) :
  let db1 := (DatabaseStorage.delete_attachments_where
                (fun a => att_establishmentId a =? id) db).2 in
  let deleted := (DatabaseStorage.deleteEstablishment id db).1 in
  let db' := (DatabaseStorage.deleteEstablishment id db).2 in
  (establishments db1 = establishments db /\
   attachments db1 = attachments db' /\
   DatabaseStorage.deleteEstablishment id db =
     (Nat.ltb 0 (length (DatabaseStorage.delete_establishments_where
                           (fun e => est_id e =? id) db1).1),
      (DatabaseStorage.delete_establishments_where
         (fun e => est_id e =? id) db1).2)) /\
  (forall a, In a (attachments db') <->
             In a (attachments db) /\ att_establishmentId a <> id) /\
  (forall e, In e (establishments db') <->
             In e (establishments db) /\ est_id e <> id) /\
  (deleted = true <-> exists e, In e (establishments db) /\ est_id e = id) /\
  (DatabaseStorage.getAttachments id db').1 = [] /\
  status (Routes.get_attachments (Some id) db').1 =
    (if int32 id then 404 else 500) /\
  (NoDup (map att_id (attachments db)) ->
   forall a, In a (attachments db) -> att_establishmentId a = id ->
     (forall a', In a' (attachments db') -> att_id a' <> att_id a) /\
     (DatabaseStorage.deleteAttachment (att_id a) db').1 = false /\
     status (Routes.delete_attachment (Some (att_id a)) db').1 =
       (if int32 (att_id a) then 404 else 500)).
Proof.
  intros db1 deleted db'.
  remember Routes.get_attachments as get_attachments eqn:Hget.
  remember Routes.delete_attachment as delete_attachment eqn:Hdelete.
  unfold db1, deleted, db', DatabaseStorage.deleteEstablishment,
    DatabaseStorage.delete_attachments_where,
    DatabaseStorage.delete_establishments_where, store_bind, store_ret.
  simpl.
  assert (forall a,
            In a (List.filter (fun a => negb (att_establishmentId a =? id))
                    (attachments db)) <->
            In a (attachments db) /\ att_establishmentId a <> id) as Hatt.
  { intros a. rewrite filter_In, negb_true_iff, Z.eqb_neq. tauto. }
  assert (forall e,
            In e (List.filter (fun e => negb (est_id e =? id))
                    (establishments db)) <->
            In e (establishments db) /\ est_id e <> id) as Hest.
  { intros e. rewrite filter_In, negb_true_iff, Z.eqb_neq. tauto. }
  split; [done|]. split; [exact Hatt|]. split; [exact Hest|].
  split.
  { rewrite length_map, length_filter_pos. by setoid_rewrite Z.eqb_eq. }
  split.
  { apply filter_nil_if. intros a [_ Ha]%Hatt. by apply Z.eqb_neq. }
  split.
  { subst get_attachments. rewrite get_attachments_eq.
    destruct (int32 id); [|done].
    unfold DatabaseStorage.getEstablishment. simpl. rewrite filter_nil_if; [done|].
    intros e [_ He]%Hest. by apply Z.eqb_neq. }
  intros Hnd a Ha Hid.
  assert (forall a',
            In a' (List.filter (fun a => negb (att_establishmentId a =? id))
                     (attachments db)) -> att_id a' <> att_id a) as Hgone.
  { intros a' [Ha' Hne]%Hatt Heq. apply Hne.
    by rewrite (NoDup_fmap_eq att_id (attachments db) a' a Hnd Ha' Ha Heq). }
  assert (List.filter (fun a' => att_id a' =? att_id a)
            (List.filter (fun a => negb (att_establishmentId a =? id))
               (attachments db)) = []) as Hnone.
  { apply filter_nil_if. intros a' Ha'. apply Z.eqb_neq. by apply Hgone. }
  split; [exact Hgone|]. split.
  - unfold DatabaseStorage.deleteAttachment,
      DatabaseStorage.delete_attachments_returning, store_bind, store_ret.
    simpl. by rewrite Hnone.
  - subst delete_attachment. rewrite delete_attachment_eq.
    destruct (int32 (att_id a)); [|done].
    simpl. by rewrite Hnone.
Qed.

(** A stored establishment with two attachments, and another one. *)
Lemma C6_delete_cascades_witness :
  let db := {| establishments := [establishment_A; establishment_B];
               attachments :=
                 [mkAttachment 1 "menu.pdf" "application/pdf" "1.00 MB" "/f/1" 1 1 None;
                  mkAttachment 2 "logo.png" "image/png" "0.10 MB" "/f/2" 2 1 None;
                  mkAttachment 3 "map.png" "image/png" "0.20 MB" "/f/3" 1 1 None];
               establishments_seq := 2;
               attachments_seq := 3 |} in
  let db' := (DatabaseStorage.deleteEstablishment 1 db).2 in
  (forall a', In a' (attachments db') -> att_id a' <> 3) /\
  (DatabaseStorage.deleteAttachment 3 db').1 = false /\
  status (Routes.delete_attachment (Some 3) db').1 = 404.
Proof.
  intros db db'.
  pose proof (C6_delete_cascades 1 db) as (_ & _ & _ & _ & _ & _ & H).
  apply (H ltac:(vm_compute; repeat (apply NoDup_cons_2;
                   [rewrite ?list_elem_of_In; simpl; lia|]); apply NoDup_nil_2)
           (mkAttachment 3 "map.png" "image/png" "0.20 MB" "/f/3" 1 1 None)).
  - simpl. auto.
  - reflexivity.
Defined.

(** ** Validation *)

Lemma zod_ap_inr {A B} (f : Parsed (A -> B)) (a : Parsed A) b :
  zod_ap f a = inr b -> exists f' a', f = inr f' /\ a = inr a' /\ b = f' a'.
Proof.
  destruct f as [e|f'], a as [e'|a']; simpl; try done.
  intros [= <-]. eauto.
Qed.

Ltac invert_parse H :=
  repeat match goal with
         | H : zod_ap _ _ = inr _ |- _ =>
             apply zod_ap_inr in H as (? & ? & H & ? & ?)
         end;
  simplify_eq/=.

Lemma insertAttachmentSchema_inr data d :
  insertAttachmentSchema data = inr d ->
  zod_integer "establishmentId" (js_get data "establishmentId")
    = inr (ina_establishmentId d) /\
  zod_integer_optional "userId" (js_get data "userId") = inr (ina_userId d).
Proof.
  unfold insertAttachmentSchema. intros H. invert_parse H. by split.
Qed.


(** A whole number between two integers, as a fraction. *)
Lemma integer_bounds q :
  is_integer q = true ->
  Qnum q = Qnum q / Zpos (Qden q) * Zpos (Qden q) /\
  forall m, (Qle_bool (inject_Z m) q = true <-> m <= Qnum q / Zpos (Qden q)) /\
            (Qle_bool q (inject_Z m) = true <-> Qnum q / Zpos (Qden q) <= m).
Proof.
  unfold is_integer. intros Hint. apply Z.eqb_eq in Hint.
  set (z := Qnum q / Zpos (Qden q)).
  assert (Qnum q = z * Zpos (Qden q)) as Hq.
  { apply Z.rem_divide in Hint as [c Hc]; [|done].
    unfold z. rewrite Hc at 2. rewrite Z.div_mul by done. exact Hc. }
  split; [exact Hq|]. intros m.
  rewrite !Qle_bool_iff. unfold Qle. simpl. rewrite Hq. split; split; nia.
Qed.

(** The numbers the integer check lets through are the whole numbers of
    the column type. *)
Lemma zod_integer_number path q :
  zod_integer path (js_number q) = inr (Qnum q / Zpos (Qden q)) <->
  is_integer q = true /\ int32 (Qnum q / Zpos (Qden q)) = true.
Proof.
  unfold zod_integer, int32. rewrite andb_true_iff, !Z.leb_le.
  destruct (is_integer q) eqn:Hint.
  - destruct (integer_bounds q Hint) as [_ Hb].
    pose proof (Hb INT32_MIN) as [Hmin _]. pose proof (Hb INT32_MAX) as [_ Hmax].
    destruct (Qle_bool (inject_Z INT32_MIN) q) eqn:E1,
             (Qle_bool q (inject_Z INT32_MAX)) eqn:E2; simpl.
    + split; [|done]. intros _. split; [done|]. split; [by apply Hmin|by apply Hmax].
    + split; [done|]. intros [_ [_ H2]]. apply Hmax in H2. done.
    + split; [done|]. intros [_ [H1 _]]. apply Hmin in H1. done.
    + split; [done|]. intros [_ [H1 _]]. apply Hmin in H1. done.
  - split; [|by intros [? _]].
    by destruct (Qle_bool (inject_Z INT32_MIN) q), (Qle_bool q (inject_Z INT32_MAX)).
Qed.

Lemma zod_integer_inr path v z :
  zod_integer path v = inr z ->
  exists q, v = js_number q /\ is_integer q = true /\
            z = Qnum q / Zpos (Qden q) /\ int32 z = true.
Proof.
  destruct v as [| | |q| | |]; try done. intros H.
  assert (z = Qnum q / Zpos (Qden q)) as ->.
  { revert H. unfold zod_integer.
    destruct (_ ++ _)%list; [by intros [= <-]|done]. }
  apply zod_integer_number in H as [Hint Hrange]. eauto.
Qed.

Lemma js_get_insert (o : JsObject) k v : js_get (<[k := v]> o) k = v.
Proof. unfold js_get. by rewrite lookup_insert_eq. Qed.

Lemma js_get_insert_ne (o : JsObject) k k' v :
  k <> k' -> js_get (<[k := v]> o) k' = js_get o k'.
Proof. intros. unfold js_get. by rewrite lookup_insert_ne. Qed.



(** A validated attachment names its establishment by a number of the
    column type, so looking it up is not refused. *)
Lemma insertAttachmentSchema_int32 data d :
  insertAttachmentSchema data = inr d -> int32 (ina_establishmentId d) = true.
Proof.
  intros [H _]%insertAttachmentSchema_inr.
  by apply zod_integer_inr in H as (q & _ & _ & _ & H).
Qed.

(** [POST /api/attachments] on a body that passes validation. *)
Lemma post_attachments_valid now (body : JsObject) db d :
  insertAttachmentSchema
    (<["userId" := js_or (js_get body "userId") (js_number 1)]> body) = inr d ->
  Routes.post_attachments now body db =
  match (DatabaseStorage.getEstablishment (ina_establishmentId d) db).1 with
  | None => (mkResponse 404 (res_error "Establishment not found"), db)
  | Some _ =>
      if int32 (attachments_seq db + 1) then
        (mkResponse 201 (res_attachment (DatabaseStorage.createAttachment now d db).1),
         (DatabaseStorage.createAttachment now d db).2)
      else (mkResponse 500 (res_error "Failed to create attachment"), db)
  end.
Proof.
  intros Hd. unfold Routes.post_attachments. rewrite Hd.
  unfold store_bind.
  rewrite storage_call_ok by (by apply insertAttachmentSchema_int32 in Hd).
  simpl. destruct (head _); [|done]. unfold insert_call.
  destruct (int32 (attachments_seq db + 1)) eqn:Hseq.
  - by rewrite storage_call_ok.
  - by rewrite storage_call_refused.
Qed.

(** [POST /api/establishments] on a body that passes validation. *)
Lemma post_establishments_valid now (body : JsObject) db d :
  insertEstablishmentSchema
    (<["userId" := js_or (js_get body "userId") (js_number 1)]> body) = inr d ->
  Routes.post_establishments now body db =
  if int32 (establishments_seq db + 1) then
    (mkResponse 201
       (res_establishment (DatabaseStorage.createEstablishment now d db).1),
     (DatabaseStorage.createEstablishment now d db).2)
  else (mkResponse 500 (res_error "Failed to create establishment"), db).
Proof.
  intros Hd. unfold Routes.post_establishments. rewrite Hd.
  unfold store_bind, insert_call.
  destruct (int32 (establishments_seq db + 1)) eqn:Hseq.
  - by rewrite storage_call_ok.
  - by rewrite storage_call_refused.
Qed.

(** ** The REST handlers *)

(** C7, as stated, fails: a request that names no existing establishment
    and does not pass validation is answered 400, not 404. *)
Lemma C7_post_attachments_counterexample :
  let db := mkDatabase [establishment_A] [] 1 0 in
  let body : JsObject := {[ "establishmentId" := js_number 999 ]} in
  (DatabaseStorage.getEstablishment 999 db).1 = None /\
  status (Routes.post_attachments 0 body db).1 = 400 /\
  status (Routes.post_attachments 0 body db).1 <> 404.
Proof.
  split; [reflexivity|]. split; [reflexivity|]. vm_compute. discriminate.
Qed.

(** C7 (amended): a POST /api/attachments request that passes validation
    and whose establishmentId names no stored establishment is answered
    404 "Establishment not found" and leaves the database as it was; a
    request that fails validation is answered 400 and leaves the
    database as it was, too. *)
Theorem C7_post_attachments_not_found (now : Z) (body : JsObject) (db : Database) :
  let dataWithDefaults : JsObject :=
    <["userId" := js_or (js_get body "userId") (js_number 1)]> body in
  (forall d, insertAttachmentSchema dataWithDefaults = inr d ->
     (exists q, js_get body "establishmentId" = js_number q /\
                is_integer q = true /\
                ina_establishmentId d = Qnum q / Zpos (Qden q)) /\
     ((forall e, In e (establishments db) -> est_id e <> ina_establishmentId d) ->
      Routes.post_attachments now body db =
        (mkResponse 404 (res_error "Establishment not found"), db))) /\
  (forall errors, insertAttachmentSchema dataWithDefaults = inl errors ->
     Routes.post_attachments now body db = (mkResponse 400 (res_issues errors), db)).
Proof.
  intros dataWithDefaults. split.
  - intros d Hd. split.
    + apply insertAttachmentSchema_inr in Hd as [Hid _].
      apply zod_integer_inr in Hid as (q & Hq & Hint & Hz & _).
      exists q. split; [|done]. rewrite <- Hq. unfold dataWithDefaults.
      by rewrite js_get_insert_ne.
    + intros Hnone. rewrite (post_attachments_valid now body db d Hd).
      unfold DatabaseStorage.getEstablishment. simpl.
      rewrite filter_nil_if; [done|].
      intros e He. apply Z.eqb_neq. by apply Hnone.
  - intros errors He. unfold Routes.post_attachments. fold dataWithDefaults.
    by rewrite He.
Qed.

(** A witness of C7: a well-formed request for establishment 999. *)
Lemma C7_post_attachments_not_found_witness :
  let db := mkDatabase [establishment_A] [] 1 0 in
  let body : JsObject :=
    <["fileName" := js_string "menu.pdf"]>
    (<["fileType" := js_string "application/pdf"]>
    (<["fileSize" := js_string "1.00 MB"]>
    (<["filePath" := js_string "/files/menu.pdf"]>
    (<["establishmentId" := js_number 999]> ∅)))) in
  Routes.post_attachments 0 body db =
    (mkResponse 404 (res_error "Establishment not found"), db).
Proof.
  intros db body.
  pose proof (C7_post_attachments_not_found 0 body db) as [H _].
  apply (H (mkInsertAttachment "menu.pdf" "application/pdf" "1.00 MB"
              "/files/menu.pdf" 999 (Some 1))).
  - vm_compute. reflexivity.
  - intros e [<-|[]]. vm_compute. discriminate.
Defined.




(** ** The client adapters *)




(** C4, as stated, fails.  A document without a description is converted
    to a value whose description is the empty string, whereas a row
    without a description is converted to one whose description is
    undefined.  And the row of a response has been through JSON: its
    createdAt is text, which the conversion passes on, so that the
    client-side value holds no date. *)
Lemma C4_canonical_shape_counterexample :
  let doc := mkDocument "k1" {[ "name" := js_string "Cafe" ]} in
  let row := mkEstablishment 1 "Cafe" "Restaurant" "Downtown" None (Some "5")
               None 1 (Some 1793566326197) in
  js_get (doc_data doc) "description" = js_undefined /\
  (exists v, Firestore.convertDocToEstablishment 0 doc = resolved v /\
             fe_description v = js_string "" /\
             fe_description v <> js_undefined /\
             fe_coverImage v <> js_undefined) /\
  fe_description (Adapters.toFirebaseEstablishment 0 row) = js_undefined /\
  fe_createdAt (Adapters.toFirebaseEstablishment 0 row)
    = js_string "2026-11-01T20:52:06.197Z" /\
  is_date (fe_createdAt (Adapters.toFirebaseEstablishment 0 row)) = false.
Proof.
  split; [reflexivity|]. split.
  { eexists. split; [vm_compute; reflexivity|]. by simpl. }
  split; [reflexivity|]. split; vm_compute; reflexivity.
Qed.

(** C4 (amended): both conversions give a string identifier; the
    document conversion gives a date for createdAt (it completes when
    the stored createdAt is missing, null or a timestamp); an absent or
    empty description or cover image becomes undefined on the REST path
    and the empty string on the document-store path, and one that is
    present and not empty is passed on as it is on both. *)
Theorem C4_canonical_shape (now : Z) :
  (forall row : Establishment,
     let v := Adapters.toFirebaseEstablishment now row in
     is_string (fe_id v) = true /\
     (truthy (js_text (est_description row)) = false ->
      fe_description v = js_undefined) /\
     (truthy (js_text (est_coverImage row)) = false ->
      fe_coverImage v = js_undefined) /\
     (truthy (js_text (est_description row)) = true ->
      fe_description v = js_text (est_description row)) /\
     (truthy (js_text (est_coverImage row)) = true ->
      fe_coverImage v = js_text (est_coverImage row))) /\
  (forall doc : Document,
     (truthy (js_get (doc_data doc) "createdAt") = false \/
      exists t, js_get (doc_data doc) "createdAt" = js_timestamp t) ->
     exists v, Firestore.convertDocToEstablishment now doc = resolved v /\
       is_string (fe_id v) = true /\
       is_date (fe_createdAt v) = true /\
       (truthy (js_get (doc_data doc) "description") = false ->
        fe_description v = js_string "") /\
       (truthy (js_get (doc_data doc) "coverImage") = false ->
        fe_coverImage v = js_string "") /\
       (truthy (js_get (doc_data doc) "description") = true ->
        fe_description v = js_get (doc_data doc) "description") /\
       (truthy (js_get (doc_data doc) "coverImage") = true ->
        fe_coverImage v = js_get (doc_data doc) "coverImage")).
Proof.
  split.
  - intros row v. unfold v, Adapters.toFirebaseEstablishment; simpl.
    split; [done|]. unfold js_or. repeat split; by intros ->.
  - intros doc Hcreated. unfold Firestore.convertDocToEstablishment.
    destruct Hcreated as [Hfalsy|[t Ht]].
    + rewrite Hfalsy. simpl. eexists. split; [reflexivity|]. simpl.
      unfold js_or. repeat split; by intros ->.
    + rewrite Ht. simpl. eexists. split; [reflexivity|]. simpl.
      unfold js_or. repeat split; by intros ->.
Qed.

(** A witness of C4: a row and a document without description. *)
Lemma C4_canonical_shape_witness :
  let doc := mkDocument "k1" {[ "name" := js_string "Cafe" ]} in
  let row := mkEstablishment 1 "Cafe" "Restaurant" "Downtown" None (Some "5")
               None 1 (Some 100) in
  fe_description (Adapters.toFirebaseEstablishment 0 row) = js_undefined /\
  exists v, Firestore.convertDocToEstablishment 0 doc = resolved v /\
    is_string (fe_id v) = true /\
    is_date (fe_createdAt v) = true /\
    fe_description v = js_string "".
Proof.
  intros doc row.
  pose proof (C4_canonical_shape 0) as [Hrow Hdoc].
  split.
  - apply (Hrow row). reflexivity.
  - destruct (Hdoc doc) as (v & Hv & Hid & Hdate & Hdesc & _);
      [left; reflexivity|].
    exists v. repeat split; try assumption. apply Hdesc. reflexivity.
Defined.

(** C5, as stated, fails: when the request fails, [fetchEstablishments]
    resolves with the empty list. *)
Lemma C5_adapter_failures_counterexample :
  let apiRequest : Request -> Promise ResponseBody :=
    fun _ => rejected "500: Failed to get establishments" in
  Adapters.fetchEstablishments apiRequest 0 None None = resolved [] /\
  is_rejected (Adapters.fetchEstablishments apiRequest 0 None None) = false.
Proof. split; reflexivity. Qed.

(** C5 (amended): when the request fails with a message,
    [createEstablishment] and [createAttachment] reject with that message
    (or with their own message when a required field is missing), while
    [fetchEstablishments] and [fetchAttachments] resolve with the empty
    list, [fetchEstablishment] with null, and [updateEstablishment],
    [deleteEstablishment] and [deleteAttachment] with false. *)
Theorem C5_adapter_failures
    (apiRequest : Request -> Promise ResponseBody)
    (parseInt : JsValue -> JsValue) (now : Z) (message : string) :
  (forall req, apiRequest req = rejected message) ->
  (forall filters sortBy,
     Adapters.fetchEstablishments apiRequest now filters sortBy = resolved []) /\
  (forall id, Adapters.fetchEstablishment apiRequest now id = resolved None) /\
  (forall id data,
     Adapters.updateEstablishment apiRequest parseInt id data
     = resolved (js_bool false)) /\
  (forall id, Adapters.deleteEstablishment apiRequest id = resolved (js_bool false)) /\
  (forall id, Adapters.fetchAttachments apiRequest now id = resolved []) /\
  (forall id, Adapters.deleteAttachment apiRequest id = resolved (js_bool false)) /\
  (forall data,
     Adapters.createEstablishment apiRequest now data =
     rejected
       (if negb (truthy (js_get data "name"))
           || negb (truthy (js_get data "category"))
           || negb (truthy (js_get data "location"))
        then "Missing required fields: name, category, and location are required"
        else message)) /\
  (forall data,
     Adapters.createAttachment apiRequest parseInt now data =
     rejected
       (if negb (truthy (js_string (Adapters.na_fileName data)))
           || negb (truthy (js_string (Adapters.na_fileType data)))
           || negb (truthy (js_string (Adapters.na_fileSize data)))
           || negb (truthy (js_string (Adapters.na_filePath data)))
           || negb (truthy (js_string (Adapters.na_establishmentId data)))
           || negb (truthy (js_string (Adapters.na_userId data)))
        then "Missing required fields for attachment"
        else message)).
Proof.
  intros Hfail.
  repeat split.
  - intros filters sortBy. unfold Adapters.fetchEstablishments.
    by rewrite Hfail.
  - intros id. unfold Adapters.fetchEstablishment. by rewrite Hfail.
  - intros id data. unfold Adapters.updateEstablishment. by rewrite Hfail.
  - intros id. unfold Adapters.deleteEstablishment. by rewrite Hfail.
  - intros id. unfold Adapters.fetchAttachments. by rewrite Hfail.
  - intros id. unfold Adapters.deleteAttachment. by rewrite Hfail.
  - intros data. unfold Adapters.createEstablishment.
    destruct (_ || _); [done|]. by rewrite Hfail.
  - intros data. unfold Adapters.createAttachment.
    destruct (_ || _); [done|]. by rewrite Hfail.
Qed.

(** A witness of C5: a server that answers every request with 500. *)
Lemma C5_adapter_failures_witness :
  let apiRequest : Request -> Promise ResponseBody :=
    fun _ => rejected "500: Internal Server Error" in
  let data : JsObject :=
    <["name" := js_string "Cafe"]>
    (<["category" := js_string "Restaurant"]>
    (<["location" := js_string "Downtown"]> ∅)) in
  Adapters.createEstablishment apiRequest 0 data
    = rejected "500: Internal Server Error" /\
  Adapters.deleteEstablishment apiRequest "7" = resolved (js_bool false).
Proof.
  intros apiRequest data.
  pose proof (C5_adapter_failures apiRequest (fun v => v) 0
                "500: Internal Server Error" ltac:(reflexivity))
    as (_ & _ & _ & Hdelete & _ & _ & Hcreate & _).
  split; [|apply Hdelete].
  rewrite Hcreate. vm_compute. reflexivity.
Defined.

(** * Further properties *)

(** ** The tables *)

Lemma keys_ok_snoc ids seq :
  keys_ok ids seq -> keys_ok (ids ++ [seq + 1]) (seq + 1).
Proof.
  intros [Hnd Hle]. split.
  - apply NoDup_app. split; [done|]. split; [|apply NoDup_singleton].
    intros i Hi ->%list_elem_of_singleton.
    rewrite Forall_forall in Hle. apply Hle in Hi. lia.
  - apply Forall_app. split.
    + eapply Forall_impl; [exact Hle|]. simpl. intros. lia.
    + repeat constructor. lia.
Qed.

Lemma keys_ok_filter {A} (f : A -> Z) (p : A -> bool) l seq :
  keys_ok (map f l) seq -> keys_ok (map f (List.filter p l)) seq.
Proof.
  intros [Hnd Hle]. split; [by apply NoDup_map_filter|].
  rewrite Forall_forall in *. intros i Hi. apply Hle.
  apply list_elem_of_In, in_map_iff in Hi as (x & <- & Hx).
  apply filter_In in Hx as [Hx _]. by apply list_elem_of_In, in_map.
Qed.

Lemma createEstablishment_ok now e db :
  database_ok db -> database_ok (DatabaseStorage.createEstablishment now e db).2.
Proof.
  intros [Hest Hatt]. split; simpl; [|done].
  rewrite map_app. simpl. apply keys_ok_snoc, Hest.
Qed.

Lemma createAttachment_ok now a db :
  database_ok db -> database_ok (DatabaseStorage.createAttachment now a db).2.
Proof.
  intros [Hest Hatt]. split; simpl; [done|].
  rewrite map_app. simpl. apply keys_ok_snoc, Hatt.
Qed.

Lemma deleteEstablishment_ok id db :
  database_ok db -> database_ok (DatabaseStorage.deleteEstablishment id db).2.
Proof.
  intros [Hest Hatt]. split; simpl; by apply keys_ok_filter.
Qed.

Lemma deleteAttachment_ok id db :
  database_ok db -> database_ok (DatabaseStorage.deleteAttachment id db).2.
Proof.
  intros [Hest Hatt]. split; simpl; [done|]. by apply keys_ok_filter.
Qed.

(** X1: the storage operations keep the primary keys of both tables
    distinct and within the range their counters have issued. *)
Theorem X1_database_ok_preserved (now id : Z)
    (e : InsertEstablishment) (a : InsertAttachment) (db : Database) :
  database_ok db ->
  database_ok (DatabaseStorage.createEstablishment now e db).2 /\
  database_ok (DatabaseStorage.createAttachment now a db).2 /\
  database_ok (DatabaseStorage.deleteEstablishment id db).2 /\
  database_ok (DatabaseStorage.deleteAttachment id db).2.
Proof.
  intros Hok. split; [|split; [|split]].
  - by apply createEstablishment_ok.
  - by apply createAttachment_ok.
  - by apply deleteEstablishment_ok.
  - by apply deleteAttachment_ok.
Qed.

Lemma sample_db_ok : database_ok sample_db.
Proof.
  split; split; simpl.
  - apply NoDup_cons_2; [|apply NoDup_singleton].
    intros ?%list_elem_of_singleton. lia.
  - repeat constructor; lia.
  - repeat (apply NoDup_cons_2; [rewrite list_elem_of_In; simpl; lia|]).
    apply NoDup_nil_2.
  - repeat constructor; lia.
Qed.

(** A witness of X1 on the sample database. *)
Lemma X1_database_ok_preserved_witness :
  database_ok (DatabaseStorage.deleteEstablishment 1 sample_db).2 /\
  database_ok
    (DatabaseStorage.createAttachment 7
       (mkInsertAttachment "a.pdf" "application/pdf" "1.00 MB" "/f/4" 2 None)
       sample_db).2.
Proof.
  pose proof (X1_database_ok_preserved 7 1
                (mkInsertEstablishment "Cafe" "Restaurant" "Downtown" None None None None)
                (mkInsertAttachment "a.pdf" "application/pdf" "1.00 MB" "/f/4" 2 None)
                sample_db sample_db_ok) as (_ & H2 & H3 & _).
  by split.
Defined.

(** What [getEstablishment] finds is a stored row with the key asked for. *)
Lemma getEstablishment_found id e db :
  (DatabaseStorage.getEstablishment id db).1 = Some e ->
  In e (establishments db) /\ est_id e = id.
Proof.
  unfold DatabaseStorage.getEstablishment. simpl. intros H.
  destruct (List.filter _ _) as [|x l] eqn:E; [done|]. injection H as ->.
  assert (In e (List.filter (fun e0 => est_id e0 =? id) (establishments db)))
    as Hin by (rewrite E; by left).
  by apply filter_In in Hin as [? ?%Z.eqb_eq].
Qed.


Lemma getEstablishment_None id db :
  (DatabaseStorage.getEstablishment id db).1 = None <->
  forall e, In e (establishments db) -> est_id e <> id.
Proof.
  unfold DatabaseStorage.getEstablishment. simpl. split.
  - intros H e He Hid.
    assert (In e (List.filter (fun e0 => est_id e0 =? id) (establishments db)))
      as Hin by (apply filter_In; split; [done|by apply Z.eqb_eq]).
    by destruct (List.filter _ _).
  - intros H. rewrite filter_nil_if; [done|].
    intros e He. apply Z.eqb_neq. by apply H.
Qed.

Lemma getEstablishment_state id db :
  (DatabaseStorage.getEstablishment id db).2 = db.
Proof. reflexivity. Qed.

Lemma get_establishment_eq id db :
  EstablishmentRoutes.get_establishment (Some id) db =
  if int32 id then
    match (DatabaseStorage.getEstablishment id db).1 with
    | None => (mkResponse 404 (res_error "Establishment not found"), db)
    | Some e => (mkResponse 200 (res_establishment e), db)
    end
  else (mkResponse 500 (res_error "Failed to get establishment"), db).
Proof.
  unfold EstablishmentRoutes.get_establishment, store_bind, store_ret.
  destruct (int32 id) eqn:Hid.
  - rewrite storage_call_ok by done. simpl. by destruct (head _).
  - by rewrite storage_call_refused.
Qed.





Lemma filter_filter_negb {A} (p : A -> bool) (l : list A) :
  List.filter p (List.filter (fun x => negb (p x)) l) = [].
Proof.
  apply filter_nil_if. intros x [_ Hx]%filter_In. by apply negb_true_iff.
Qed.

Lemma filter_negb_id {A} (p : A -> bool) (l : list A) :
  List.filter p l = [] -> List.filter (fun x => negb (p x)) l = l.
Proof.
  induction l as [|x l IH]; simpl; [done|].
  destruct (p x); simpl; [done|]. intros H. by rewrite IH.
Qed.

(** X4: for an id of the column type, DELETE /api/attachments/:id
    answers 200 exactly when an attachment with that id is stored and
    404 otherwise; it removes the attachments with that id and nothing
    else, and asked again it answers 404 and changes nothing.  Any other
    number is answered 500, and an id that is not a number 400, both
    without a change. *)
Theorem X4_delete_attachment (id : Z) (db : Database) :
  let res := (Routes.delete_attachment (Some id) db).1 in
  let db' := (Routes.delete_attachment (Some id) db).2 in
  (int32 id = true ->
   (res = mkResponse 200 (res_success true) \/
    res = mkResponse 404 (res_error "Attachment not found")) /\
   (status res = 200 <-> exists a, In a (attachments db) /\ att_id a = id) /\
   (forall a, In a (attachments db') <-> In a (attachments db) /\ att_id a <> id) /\
   establishments db' = establishments db /\
   Routes.delete_attachment (Some id) db' =
     (mkResponse 404 (res_error "Attachment not found"), db') /\
   (status res = 404 -> db' = db)) /\
  (int32 id = false ->
   Routes.delete_attachment (Some id) db =
     (mkResponse 500 (res_error "Failed to delete attachment"), db)) /\
  Routes.delete_attachment None db =
    (mkResponse 400 (res_error "Invalid attachment ID"), db).
Proof.
  intros res db'. unfold res, db'.
  split; [|split; [intros Hrange; by rewrite delete_attachment_eq, Hrange|done]].
  intros Hrange. rewrite !delete_attachment_eq, !Hrange. simpl.
  pose proof (length_filter_pos (fun a => att_id a =? id) (attachments db)) as Hpos.
  setoid_rewrite Z.eqb_eq in Hpos.
  rewrite (filter_filter_negb (fun a => att_id a =? id)). simpl.
  assert (List.filter (fun a => negb (att_id a =? id))
            (List.filter (fun a => negb (att_id a =? id)) (attachments db)) =
          List.filter (fun a => negb (att_id a =? id)) (attachments db)) as Hidem.
  { apply filter_negb_id, filter_filter_negb. }
  rewrite Hidem.
  assert (forall a, In a (List.filter (fun a => negb (att_id a =? id)) (attachments db))
                    <-> In a (attachments db) /\ att_id a <> id) as Hin.
  { intros a. rewrite filter_In, negb_true_iff, Z.eqb_neq. tauto. }
  destruct (0 <? length (List.filter _ (attachments db)))%nat eqn:E; simpl.
  - split; [by left|]. split; [by rewrite <- Hpos|]. by split.
  - split; [by right|]. split.
    { rewrite <- Hpos. split; done. }
    assert (List.filter (fun a => att_id a =? id) (attachments db) = []) as Hnil.
    { destruct (List.filter _ (attachments db)); [done|]. simpl in E. done. }
    split; [done|]. split; [done|]. split; [done|].
    intros _. rewrite (filter_negb_id _ _ Hnil). by destruct db.
Qed.

(** X5: for an id of the column type, DELETE /api/establishments/:id
    answers 404 and changes nothing when no establishment has that id,
    not even attachments that refer to it; when one has, it answers 200
    with success true, removes that establishment and the attachments
    that refer to it and nothing else, and afterwards both GET and
    DELETE of that id answer 404.  It never answers 200 with success
    false.  Any other number is answered 500 by DELETE and by GET, and
    an id that is not a number 400, all without a change. *)
Theorem X5_delete_establishment_route (id : Z) (db : Database) :
  let db' := (Routes.delete_establishment (Some id) db).2 in
  (int32 id = true ->
   ((DatabaseStorage.getEstablishment id db).1 = None ->
    Routes.delete_establishment (Some id) db =
      (mkResponse 404 (res_error "Establishment not found"), db)) /\
   ((DatabaseStorage.getEstablishment id db).1 <> None ->
    (Routes.delete_establishment (Some id) db).1 = mkResponse 200 (res_success true) /\
    (forall e, In e (establishments db') <-> In e (establishments db) /\ est_id e <> id) /\
    (forall a, In a (attachments db') <->
               In a (attachments db) /\ att_establishmentId a <> id)) /\
   EstablishmentRoutes.get_establishment (Some id) db' =
     (mkResponse 404 (res_error "Establishment not found"), db') /\
   Routes.delete_establishment (Some id) db' =
     (mkResponse 404 (res_error "Establishment not found"), db')) /\
  (int32 id = false ->
   Routes.delete_establishment (Some id) db =
     (mkResponse 500 (res_error "Failed to delete establishment"), db) /\
   EstablishmentRoutes.get_establishment (Some id) db =
     (mkResponse 500 (res_error "Failed to get establishment"), db)) /\
  (Routes.delete_establishment (Some id) db).1 <> mkResponse 200 (res_success false) /\
  Routes.delete_establishment None db =
    (mkResponse 400 (res_error "Invalid establishment ID"), db).
Proof.
  intros db'.
  assert (int32 id = true ->
          (DatabaseStorage.getEstablishment id db).1 = None ->
          Routes.delete_establishment (Some id) db =
            (mkResponse 404 (res_error "Establishment not found"), db)) as Hmissing.
  { intros Hrange Hnone. by rewrite delete_establishment_eq, Hrange, Hnone. }
  assert (int32 id = true ->
          (DatabaseStorage.getEstablishment id db).1 <> None ->
          Routes.delete_establishment (Some id) db =
            (mkResponse 200 (res_success true),
             (DatabaseStorage.deleteEstablishment id db).2)) as Hfound.
  { intros Hrange. rewrite delete_establishment_eq, Hrange.
    unfold DatabaseStorage.getEstablishment, DatabaseStorage.deleteEstablishment,
      DatabaseStorage.delete_attachments_where,
      DatabaseStorage.delete_establishments_where, store_bind, store_ret. simpl.
    destruct (List.filter (fun e => est_id e =? id) (establishments db))
      as [|e l] eqn:E; [done|].
    intros _. reflexivity. }
  assert (int32 id = false ->
          Routes.delete_establishment (Some id) db =
            (mkResponse 500 (res_error "Failed to delete establishment"), db))
    as Hrefused.
  { intros Hrange. by rewrite delete_establishment_eq, Hrange. }
  assert (int32 id = true ->
          (DatabaseStorage.getEstablishment id db').1 = None) as Hgone.
  { intros Hrange. unfold db'.
    destruct ((DatabaseStorage.getEstablishment id db).1) eqn:E.
    - rewrite Hfound by congruence.
      unfold DatabaseStorage.getEstablishment. simpl.
      by rewrite (filter_filter_negb (fun e => est_id e =? id)).
    - by rewrite Hmissing. }
  split; [|split; [|split; [|done]]].
  - intros Hrange. split; [by apply Hmissing|]. split.
    { intros H. unfold db'. rewrite (Hfound Hrange H). simpl.
      split; [done|]. split.
      - intros e. rewrite filter_In, negb_true_iff, Z.eqb_neq. tauto.
      - intros a. rewrite filter_In, negb_true_iff, Z.eqb_neq. tauto. }
    split.
    + by rewrite get_establishment_eq, Hrange, (Hgone Hrange).
    + by rewrite delete_establishment_eq, Hrange, (Hgone Hrange).
  - intros Hrange. split; [by apply Hrefused|].
    by rewrite get_establishment_eq, Hrange.
  - destruct (int32 id) eqn:Hrange.
    + destruct ((DatabaseStorage.getEstablishment id db).1) eqn:E.
      * by rewrite Hfound by congruence.
      * by rewrite Hmissing.
    + by rewrite Hrefused.
Qed.

(** A witness of X4: attachment 2 of the sample database, a missing
    one, and a number that is no id. *)
Lemma X4_delete_attachment_witness :
  (exists a, In a (attachments sample_db) /\ att_id a = 2) /\
  status (Routes.delete_attachment (Some 2) sample_db).1 = 200 /\
  (Routes.delete_attachment (Some 9) sample_db).2 = sample_db /\
  Routes.delete_attachment (Some 99999999999) sample_db =
    (mkResponse 500 (res_error "Failed to delete attachment"), sample_db).
Proof.
  destruct (X4_delete_attachment 2 sample_db) as [H2 _].
  destruct (H2 eq_refl) as (_ & H200 & _).
  destruct (X4_delete_attachment 9 sample_db) as [H9 _].
  destruct (H9 eq_refl) as (_ & _ & _ & _ & _ & H404).
  destruct (X4_delete_attachment 99999999999 sample_db) as (_ & H500 & _).
  assert (exists a, In a (attachments sample_db) /\ att_id a = 2) as Hex.
  { eexists. split; [right; left; reflexivity | reflexivity]. }
  split; [exact Hex|]. split; [|split].
  - apply H200, Hex.
  - apply H404. reflexivity.
  - apply H500. reflexivity.
Defined.

(** A witness of X5: establishment 1 of the sample database, a missing
    one, and a number that is no id. *)
Lemma X5_delete_establishment_route_witness :
  (Routes.delete_establishment (Some 1) sample_db).1 =
    mkResponse 200 (res_success true) /\
  Routes.delete_establishment (Some 9) sample_db =
    (mkResponse 404 (res_error "Establishment not found"), sample_db) /\
  EstablishmentRoutes.get_establishment (Some 99999999999) sample_db =
    (mkResponse 500 (res_error "Failed to get establishment"), sample_db).
Proof.
  destruct (X5_delete_establishment_route 1 sample_db) as [H1 _].
  destruct (H1 eq_refl) as (_ & H200 & _).
  destruct (X5_delete_establishment_route 9 sample_db) as [H9 _].
  destruct (H9 eq_refl) as (H404 & _).
  destruct (X5_delete_establishment_route 99999999999 sample_db) as (_ & H500 & _).
  split; [|split].
  - apply H200. discriminate.
  - apply H404. reflexivity.
  - apply H500. reflexivity.
Defined.

(** X6: the handlers that write keep every attachment attached to a
    stored establishment: if that holds before POST /api/establishments,
    POST /api/attachments, DELETE /api/establishments/:id or
    DELETE /api/attachments/:id, it holds after, whatever the request. *)
Theorem X6_references_preserved
    (now : Z) (body : JsObject) (id : option Z) (db : Database) :
  references_ok db ->
  references_ok (Routes.post_establishments now body db).2 /\
  references_ok (Routes.post_attachments now body db).2 /\
  references_ok (Routes.delete_establishment id db).2 /\
  references_ok (Routes.delete_attachment id db).2.
Proof.
  intros Hok. split; [|split; [|split]].
  - destruct (insertEstablishmentSchema
                (<["userId" := js_or (js_get body "userId") (js_number 1)]> body))
      as [errors|d] eqn:Hd.
    { unfold Routes.post_establishments. by rewrite Hd. }
    rewrite (post_establishments_valid now body db d Hd).
    destruct (int32 (establishments_seq db + 1)); [|done]. simpl.
    intros a Ha. destruct (Hok a Ha) as (e & He & Hid).
    exists e. split; [|done]. apply in_or_app. by left.
  - destruct (insertAttachmentSchema
                (<["userId" := js_or (js_get body "userId") (js_number 1)]> body))
      as [errors|d] eqn:Hd.
    { unfold Routes.post_attachments. by rewrite Hd. }
    rewrite (post_attachments_valid now body db d Hd).
    pose proof (getEstablishment_found (ina_establishmentId d)) as Hfound.
    destruct ((DatabaseStorage.getEstablishment (ina_establishmentId d) db).1)
      as [e|] eqn:E; [|done].
    destruct (Hfound e db E) as [He Hid].
    destruct (int32 (attachments_seq db + 1)); [|done]. simpl.
    intros a [Ha| [<-|[]]]%in_app_or; [by apply Hok|].
    exists e. by split.
  - destruct id as [id|]; [|done].
    rewrite delete_establishment_eq. destruct (int32 id); [|done].
    destruct ((DatabaseStorage.getEstablishment id db).1); [|done]. simpl.
    intros a [Ha Hne]%filter_In. apply negb_true_iff, Z.eqb_neq in Hne.
    destruct (Hok a Ha) as (e' & He' & Hid).
    exists e'. split; [|done]. apply filter_In. split; [done|].
    apply negb_true_iff, Z.eqb_neq. congruence.
  - destruct id as [id|]; [|done].
    rewrite delete_attachment_eq. destruct (int32 id); [|done]. simpl.
    intros a [Ha _]%filter_In. by apply Hok.
Qed.

Lemma sample_db_references : references_ok sample_db.
Proof.
  intros a [<-|[<-|[<-|[]]]]; simpl.
  - exists establishment_A. auto.
  - exists establishment_B. auto.
  - exists establishment_A. auto.
Qed.

(** A witness of X6 on the sample database. *)
Lemma X6_references_preserved_witness :
  references_ok (Routes.delete_establishment (Some 1) sample_db).2 /\
  references_ok (Routes.post_attachments 42 sample_attachment_body sample_db).2.
Proof.
  pose proof (X6_references_preserved 42 sample_attachment_body (Some 1) sample_db
                sample_db_references) as (_ & H2 & H3 & _).
  by split.
Defined.

(** ** Users *)

Lemma head_filter_None {A} (p : A -> bool) (l : list A) :
  head (List.filter p l) = None <-> existsb p l = false.
Proof.
  induction l as [|x l IH]; simpl; [done|].
  destruct (p x); simpl; [split; done | exact IH].
Qed.

Lemma existsb_false_In {A} (p : A -> bool) (l : list A) :
  existsb p l = false <-> forall x, In x l -> p x = false.
Proof.
  induction l as [|x l IH]; simpl; [by split|].
  rewrite orb_false_iff, IH. split.
  - intros [Hx Hl] y [<-|Hy]; auto.
  - intros H. split; auto.
Qed.

Lemma head_filter_snoc_fresh {A} (p : A -> bool) (l : list A) x :
  existsb p l = false -> p x = true -> head (List.filter p (l ++ [x])) = Some x.
Proof.
  intros Hl Hx. rewrite List.filter_app. simpl. rewrite Hx.
  rewrite filter_nil_if; [done|]. by apply existsb_false_In.
Qed.

Lemma userValidationSchema_inr body d c :
  userValidationSchema body = inr (d, c) ->
  js_get body "username" = js_string (inu_username d) /\
  js_get body "password" = js_string (inu_password d) /\
  js_get body "email" = js_string (inu_email d) /\
  js_get body "confirmPassword" = js_string c /\
  c = inu_password d.
Proof.
  unfold userValidationSchema.
  destruct (zod_ap _ _) as [errors|[d' c']] eqn:E; [done|].
  destruct (String.eqb_spec (inu_password d') c'); [|done].
  intros [= -> ->].
  apply zod_ap_inr in E as (f & c0 & E & Hc & Hpair).
  apply zod_ap_inr in E as (g & d0 & Hg & Hd & ->).
  injection Hg as <-. injection Hpair as -> ->.
  unfold insertUserSchema in Hd. invert_parse Hd.
  repeat match goal with
         | H : zod_text _ ?v = inr _ |- _ => destruct v; simpl in H; try done;
                                             injection H as ->
         end.
  done.
Qed.



(** What [register] does, by cases. *)
Lemma register_cases now body t :
  (exists errors, userValidationSchema body = inl errors /\
     UserRoutes.register now body t = (mkUserResponse 400 (ures_issues errors), t)) \/
  (exists d c, userValidationSchema body = inr (d, c) /\
     existsb (fun v => String.eqb (user_username v) (inu_username d)) (users t) = true /\
     UserRoutes.register now body t =
       (mkUserResponse 400 (ures_error "Username already exists"), t)) \/
  (exists d c, userValidationSchema body = inr (d, c) /\
     existsb (fun v => String.eqb (user_username v) (inu_username d)) (users t) = false /\
     int32 (users_seq t + 1) = false /\
     UserRoutes.register now body t =
       (mkUserResponse 500 (ures_error "Failed to create user"), t)) \/
  (exists d c, userValidationSchema body = inr (d, c) /\
     existsb (fun v => String.eqb (user_username v) (inu_username d)) (users t) = false /\
     existsb (fun v => String.eqb (user_email v) (inu_email d)) (users t) = true /\
     UserRoutes.register now body t =
       (mkUserResponse 500 (ures_error "Failed to create user"),
        mkUserTable (users t) (users_seq t + 1))) \/
  (exists d c, userValidationSchema body = inr (d, c) /\
     existsb (fun v => String.eqb (user_username v) (inu_username d)) (users t) = false /\
     existsb (fun v => String.eqb (user_email v) (inu_email d)) (users t) = false /\
     int32 (users_seq t + 1) = true /\
     UserRoutes.register now body t =
       (mkUserResponse 201
          (ures_user {| user_id := users_seq t + 1;
                        user_username := inu_username d;
                        user_password := inu_password d;
                        user_email := inu_email d;
                        user_displayName := default None (inu_displayName d);
                        user_photoURL := default None (inu_photoURL d);
                        user_createdAt := Some now |}),
        mkUserTable
          (users t ++ [{| user_id := users_seq t + 1;
                          user_username := inu_username d;
                          user_password := inu_password d;
                          user_email := inu_email d;
                          user_displayName := default None (inu_displayName d);
                          user_photoURL := default None (inu_photoURL d);
                          user_createdAt := Some now |}])%list
          (users_seq t + 1))).
Proof.
  unfold UserRoutes.register.
  destruct (userValidationSchema body) as [errors|[d c]]; [left; eauto|].
  right. unfold UserStorage.getUserByUsername, UserStorage.createUser.
  destruct (existsb (fun v => String.eqb (user_username v) (inu_username d)) (users t))
    eqn:Hname.
  - left. exists d, c. split; [done|]. split; [done|].
    destruct (head _) eqn:Hhead; [done|].
    apply head_filter_None in Hhead. congruence.
  - right. rewrite (proj2 (head_filter_None _ _) Hname).
    destruct (int32 (users_seq t + 1)) eqn:Hseq; simpl.
    + right.
      destruct (existsb (fun v => String.eqb (user_email v) (inu_email d)) (users t))
        eqn:Hemail.
      * left. by exists d, c.
      * right. by exists d, c.
    + left. by exists d, c.
Qed.

(** X8: registration is answered 201, 400 or 500, and only a 201 adds a
    user: on 400 the table is left as it was, on 500 no user is added.
    A 500 is what a new username with an already registered email gets. *)
Theorem X8_register_outcomes (now : Z) (body : JsObject) (t : UserTable) :
  let res := (UserRoutes.register now body t).1 in
  let t' := (UserRoutes.register now body t).2 in
  (ustatus res = 201 \/ ustatus res = 400 \/ ustatus res = 500) /\
  (ustatus res = 400 -> t' = t) /\
  (ustatus res <> 201 -> users t' = users t) /\
  (ustatus res = 201 -> exists u, ujson res = ures_user u /\
                                  users t' = (users t ++ [u])%list) /\
  (forall d c, userValidationSchema body = inr (d, c) ->
     existsb (fun v => String.eqb (user_username v) (inu_username d)) (users t) = false ->
     existsb (fun v => String.eqb (user_email v) (inu_email d)) (users t) = true ->
     res = mkUserResponse 500 (ures_error "Failed to create user")).
Proof.
  intros res t'. unfold res, t'.
  destruct (register_cases now body t)
    as [(errors & Hv & ->)|[(d & c & Hv & Hn & ->)|[(d & c & Hv & Hn & Hs & ->)
       |[(d & c & Hv & Hn & He & ->)|(d & c & Hv & Hn & He & Hs & ->)]]]]; simpl.
  - repeat split; try done; auto. intros d c. congruence.
  - repeat split; try done; auto.
    intros d' c' Hv'. rewrite Hv in Hv'. injection Hv' as <- <-. congruence.
  - repeat split; try done; auto.
  - repeat split; try done; auto.
  - repeat split; try done; auto.
    + eauto.
    + intros d' c' Hv'. rewrite Hv in Hv'. injection Hv' as <- <-. congruence.
Qed.

(** A witness of X8: bob takes alice's email. *)
Lemma X8_register_outcomes_witness :
  let alice := mkUser 1 "alice" "s3cret" "alice@example.org" None None (Some 42) in
  let t := mkUserTable [alice] 1 in
  let body := registration "bob" "pw" "alice@example.org" "pw" in
  (UserRoutes.register 43 body t).1 =
    mkUserResponse 500 (ures_error "Failed to create user") /\
  users (UserRoutes.register 43 body t).2 = users t.
Proof.
  intros alice t body.
  pose proof (X8_register_outcomes 43 body t) as (_ & _ & Hsame & _ & H500).
  assert ((UserRoutes.register 43 body t).1 =
            mkUserResponse 500 (ures_error "Failed to create user")) as H.
  { apply (H500 (mkInsertUser "bob" "pw" "alice@example.org" None None) "pw");
      [vm_compute|..]; reflexivity. }
  split; [exact H|]. apply Hsame. rewrite H. simpl. lia.
Defined.

(** X9: a registration whose fields are all well-typed but whose two
    passwords differ is answered 400 with the single issue "Passwords
    must match" on confirmPassword, and changes nothing. *)
Theorem X9_register_password_mismatch
    (now : Z) (body : JsObject) (t : UserTable) (d : InsertUser) (c : string) :
  insertUserSchema body = inr d ->
  js_get body "confirmPassword" = js_string c ->
  inu_password d <> c ->
  UserRoutes.register now body t =
    (mkUserResponse 400
       (ures_issues [mkIssue "confirmPassword" "Passwords must match"]), t).
Proof.
  intros Hd Hc Hne. unfold UserRoutes.register, userValidationSchema.
  rewrite Hd, Hc. simpl.
  by destruct (String.eqb_spec (inu_password d) c).
Qed.

(** A witness of X9. *)
Lemma X9_register_password_mismatch_witness :
  UserRoutes.register 42 (registration "alice" "s3cret" "alice@example.org" "secret")
    (mkUserTable [] 0) =
  (mkUserResponse 400
     (ures_issues [mkIssue "confirmPassword" "Passwords must match"]),
   mkUserTable [] 0).
Proof.
  apply (X9_register_password_mismatch 42 _ _
           (mkInsertUser "alice" "s3cret" "alice@example.org" None None) "secret");
    [vm_compute; reflexivity | vm_compute; reflexivity | discriminate].
Defined.

Lemma NoDup_snoc_fresh {A} (f : A -> string) (l : list A) x :
  NoDup (map f l) ->
  existsb (fun v => String.eqb (f v) (f x)) l = false ->
  NoDup (map f (l ++ [x])).
Proof.
  intros Hnd Hfresh. rewrite map_app. simpl.
  apply NoDup_app. split; [done|]. split; [|apply NoDup_singleton].
  intros s Hs ->%list_elem_of_singleton.
  apply list_elem_of_In, in_map_iff in Hs as (y & Hy & Hin).
  rewrite existsb_false_In in Hfresh. specialize (Hfresh y Hin).
  apply String.eqb_neq in Hfresh. done.
Qed.

(** X10: registration keeps user ids, usernames and emails distinct, and
    after a 201 the new user is what GET /api/users/:id answers for the
    new id, password included, the password being the request's. *)
Theorem X10_register_keeps_users_ok (now : Z) (body : JsObject) (t : UserTable) :
  users_ok t ->
  let res := (UserRoutes.register now body t).1 in
  let t' := (UserRoutes.register now body t).2 in
  users_ok t' /\
  (forall u, res = mkUserResponse 201 (ures_user u) ->
     UserRoutes.get_user (Some (user_id u)) t' = mkUserResponse 200 (ures_user u) /\
     js_get body "password" = js_string (user_password u)).
Proof.
  intros (Hids & Hnames & Hemails) res t'. unfold res, t'.
  destruct (register_cases now body t)
    as [(errors & Hv & ->)|[(d & c & Hv & Hn & ->)|[(d & c & Hv & Hn & Hs & ->)
       |[(d & c & Hv & Hn & He & ->)|(d & c & Hv & Hn & He & Hs & ->)]]]]; simpl.
  - split; [exact (conj Hids (conj Hnames Hemails)) | done].
  - split; [exact (conj Hids (conj Hnames Hemails)) | done].
  - split; [exact (conj Hids (conj Hnames Hemails)) | done].
  - split; [|done]. split; [|done]. simpl. destruct Hids as [? Hle].
    split; [done|]. eapply Forall_impl; [exact Hle|]. simpl. intros; lia.
  - split.
    + split; [|split]; simpl.
      * rewrite map_app. simpl. by apply keys_ok_snoc.
      * by apply (NoDup_snoc_fresh user_username).
      * by apply (NoDup_snoc_fresh user_email).
    + intros u [= <-]. simpl. split.
      * unfold UserRoutes.get_user, UserStorage.getUser. simpl. rewrite Hs.
        rewrite head_filter_snoc_fresh; [done| |simpl; apply Z.eqb_refl].
        apply existsb_false_In. intros v Hv'. apply Z.eqb_neq.
        destruct Hids as [_ Hle]. rewrite Forall_forall in Hle.
        assert (user_id v <= users_seq t); [|lia].
        apply Hle, list_elem_of_In, in_map, Hv'.
      * by apply userValidationSchema_inr in Hv as (_ & -> & _).
Qed.

(** A witness of X10: alice registers in an empty table. *)
Lemma X10_register_keeps_users_ok_witness :
  let body := registration "alice" "s3cret" "alice@example.org" "s3cret" in
  let alice := mkUser 1 "alice" "s3cret" "alice@example.org" None None (Some 42) in
  users_ok (UserRoutes.register 42 body (mkUserTable [] 0)).2 /\
  UserRoutes.get_user (Some 1) (UserRoutes.register 42 body (mkUserTable [] 0)).2 =
    mkUserResponse 200 (ures_user alice).
Proof.
  intros body alice.
  assert (users_ok (mkUserTable [] 0)) as Hok.
  { repeat split; simpl; constructor. }
  pose proof (X10_register_keeps_users_ok 42 body (mkUserTable [] 0) Hok) as [H1 H2].
  split; [exact H1|]. apply (H2 alice). reflexivity.
Defined.

(** ** The order of the results *)

(** X11: the list query returns its rows sorted as the label says:
    newest first for "Newest first", "createdAt" and no label, by
    descending rating for "Highest rated", by ascending and descending
    name for "Name A-Z" and "Name Z-A"; under any other label the rows
    that meet the filters come back in stored order. *)
Theorem X11_results_sorted
    {Row} (field : Column -> Row -> Value) (filters : option Filters)
    (table : list Row) :
  let get sortBy := storage_getEstablishments field filters sortBy table in
  let descending c := fun a b : Row => value_leb (field c b) (field c a) = true in
  let ascending c := fun a b : Row => value_leb (field c a) (field c b) = true in
  StronglySorted (descending col_createdAt) (get None) /\
  get (Some "Newest first") = get None /\
  get (Some "createdAt") = get None /\
  StronglySorted (descending col_rating) (get (Some "Highest rated")) /\
  StronglySorted (ascending col_name) (get (Some "Name A-Z")) /\
  StronglySorted (descending col_name) (get (Some "Name Z-A")) /\
  (forall label, ~ In label SORT_LABELS ->
     get (Some label) =
     List.filter (fun r => forallb (fun w => sql_holds field w r)
                             (storage_conditions filters)) table).
Proof.
  intros get descending ascending. unfold get.
  rewrite !storage_getEstablishments_select. unfold db_select.
  rewrite where_of_filter.
  split; [apply (sort_order_sorted field (desc col_createdAt))|].
  split; [done|]. split; [done|].
  split; [apply (sort_order_sorted field (desc col_rating))|].
  split; [apply (sort_order_sorted field (asc col_name))|].
  split; [apply (sort_order_sorted field (desc col_name))|].
  intros label Hlabel. rewrite storage_getEstablishments_select. unfold db_select.
  rewrite where_of_filter.
  assert (storage_order (default "createdAt" (Some label)) = None) as ->; [|done].
  simpl. unfold storage_order.
  unfold SORT_LABELS in Hlabel. simpl in Hlabel.
  destruct (String.eqb_spec label "Newest first") as [e|_]; [symmetry in e; tauto|].
  destruct (String.eqb_spec label "createdAt") as [e|_]; [symmetry in e; tauto|].
  destruct (String.eqb_spec label "Highest rated") as [e|_]; [symmetry in e; tauto|].
  destruct (String.eqb_spec label "Name A-Z") as [e|_]; [symmetry in e; tauto|].
  destruct (String.eqb_spec label "Name Z-A") as [e|_]; [symmetry in e; tauto|].
  done.
Qed.

(** A witness of X11: an unknown label on the sample establishments. *)
Lemma X11_results_sorted_witness :
  storage_getEstablishments establishment_field None (Some "Oldest first")
    [establishment_A; establishment_B] = [establishment_A; establishment_B].
Proof.
  pose proof (X11_results_sorted establishment_field None
                [establishment_A; establishment_B]) as (_ & _ & _ & _ & _ & _ & H).
  apply (H "Oldest first"). simpl. intros H'. by destruct_or!.
Defined.

(** ** The REST-backed adapter *)

Lemma js_get_delete_ne (o : JsObject) k k' :
  k <> k' -> js_get (delete k o) k' = js_get o k'.
Proof. intros. unfold js_get. by rewrite lookup_delete_ne. Qed.

(** A request is determined by what [update_request] says of it. *)
Lemma update_request_unique parseInt id (data : JsObject) req1 req2 :
  update_request parseInt id data req1 ->
  update_request parseInt id data req2 ->
  req1 = req2.
Proof.
  intros (Hm1 & Hu1 & Hq1 & b1 & Hb1 & Hi1 & Hc1 & Hus1 & Hd1 & Hv1 & Ho1)
         (Hm2 & Hu2 & Hq2 & b2 & Hb2 & Hi2 & Hc2 & Hus2 & Hd2 & Hv2 & Ho2).
  assert (b1 = b2) as Hb.
  { apply map_eq. intros k.
    destruct (decide (k = "id")) as [->|?]; [congruence|].
    destruct (decide (k = "createdAt")) as [->|?]; [congruence|].
    destruct (decide (k = "userId")) as [->|?]; [congruence|].
    destruct (decide (k = "description")) as [->|?]; [congruence|].
    destruct (decide (k = "coverImage")) as [->|?]; [congruence|].
    by rewrite Ho1, Ho2. }
  destruct req1, req2. simpl in *. congruence.
Qed.

(** X12: [updateEstablishment] sends one PATCH request to the URL of the
    establishment, and what it answers is what that request is answered
    (false when it fails).  The body of the request is the update with
    these changes and no other: the id and createdAt are left out, a
    truthy userId is sent as [parseInt] reads it, and an empty
    description or cover image is sent as null. *)
Theorem X12_update_request_sent
    (apiRequest : Request -> Promise ResponseBody) (parseInt : JsValue -> JsValue)
    (id : string) (data : JsObject) :
  exists req,
    update_request parseInt id data req /\
    (forall req', update_request parseInt id data req' -> req' = req) /\
    Adapters.updateEstablishment apiRequest parseInt id data =
    match apiRequest req with
    | resolved result => resolved (Adapters.success_of result)
    | rejected _ => resolved (js_bool false)
    end.
Proof.
  set (d1 := if truthy (js_get data "userId")
             then <["userId" := parseInt (js_get data "userId")]> data else data).
  set (d2 := delete "createdAt" (delete "id" d1)).
  set (d3 := match js_get d2 "description" with
             | js_string "" => <["description" := js_null]> d2
             | _ => d2
             end).
  set (d4 := match js_get d3 "coverImage" with
             | js_string "" => <["coverImage" := js_null]> d3
             | _ => d3
             end).
  set (req := mkRequest "PATCH" ("/api/establishments/" +:+ id) [] (Some d4)).
  assert (d1 !! "userId" =
            (if truthy (js_get data "userId")
             then Some (parseInt (js_get data "userId")) else data !! "userId") /\
          forall k, k <> "userId" -> d1 !! k = data !! k) as (H1u & H1).
  { unfold d1. destruct (truthy _).
    - split; [apply lookup_insert_eq|]. intros k Hk. by rewrite lookup_insert_ne.
    - by split. }
  assert (d2 !! "id" = None /\ d2 !! "createdAt" = None /\
          forall k, k <> "id" -> k <> "createdAt" -> d2 !! k = d1 !! k) as (H2i & H2c & H2).
  { unfold d2. split; [|split].
    - rewrite lookup_delete_ne by done. apply lookup_delete_eq.
    - apply lookup_delete_eq.
    - intros k ? ?. by rewrite !lookup_delete_ne. }
  assert (d3 !! "description" =
            match d2 !! "description" with
            | Some (js_string EmptyString) => Some js_null
            | other => other
            end /\
          forall k, k <> "description" -> d3 !! k = d2 !! k) as (H3d & H3).
  { unfold d3, js_get. destruct (d2 !! "description") as [[| | | |[|c s]| |]|] eqn:E;
      simpl; try (split; [by rewrite E|done]).
    split; [apply lookup_insert_eq|]. intros k ?. by rewrite lookup_insert_ne. }
  assert (d4 !! "coverImage" =
            match d3 !! "coverImage" with
            | Some (js_string EmptyString) => Some js_null
            | other => other
            end /\
          forall k, k <> "coverImage" -> d4 !! k = d3 !! k) as (H4c & H4).
  { unfold d4, js_get. destruct (d3 !! "coverImage") as [[| | | |[|c s]| |]|] eqn:E;
      simpl; try (split; [by rewrite E|done]).
    split; [apply lookup_insert_eq|]. intros k ?. by rewrite lookup_insert_ne. }
  assert (update_request parseInt id data req) as Hreq.
  { repeat split; try done.
    exists d4. split; [done|].
    split; [by rewrite H4, H3|]. split; [by rewrite H4, H3|].
    split; [by rewrite H4, H3, H2|].
    split; [by rewrite H4, H3d, H2, H1|].
    split; [by rewrite H4c, H3, H2, H1|].
    intros k ? ? ? ? ?. by rewrite H4, H3, H2, H1. }
  exists req. split; [exact Hreq|]. split.
  - intros req' Hreq'. by apply (update_request_unique parseInt id data).
  - unfold Adapters.updateEstablishment. fold d1 d2 d3 d4 req.
    by destruct (apiRequest req).
Qed.

(** ** Client and server together *)

Section ClientServer.
Variable fetch : Request -> Promise Response.
Variable stringify : ResponseBody -> string.
Variable stringify_issue : ZodIssue -> string.

Let apiRequest := QueryClient.apiRequest fetch stringify stringify_issue.

Lemma apiRequest_ok req res :
  fetch req = resolved res -> QueryClient.ok res = true ->
  apiRequest req = resolved (json res).
Proof.
  intros Hf Hok. unfold apiRequest, QueryClient.apiRequest,
    QueryClient.throwIfResNotOk. by rewrite Hf; simpl; rewrite Hok.
Qed.

Lemma apiRequest_error req code message :
  fetch req = resolved (mkResponse code (res_error message)) ->
  QueryClient.ok (mkResponse code (res_error message)) = false ->
  message <> "" ->
  apiRequest req = rejected message.
Proof.
  intros Hf Hok Hm. unfold apiRequest, QueryClient.apiRequest,
    QueryClient.throwIfResNotOk. rewrite Hf; simpl; rewrite Hok. simpl.
  by destruct (String.eqb_spec message "").
Qed.

Lemma query_param_get key v rest k :
  query_get (Adapters.query_param key v ++ rest) k =
  if String.eqb key k && truthy_string v then v else query_get rest k.
Proof.
  unfold Adapters.query_param. destruct v as [s|]; simpl.
  - destruct (String.eqb s ""); simpl.
    + by rewrite andb_false_r.
    + rewrite andb_true_r. by destruct (String.eqb key k).
  - by rewrite andb_false_r.
Qed.

Lemma storage_conditions_truthy filters :
  storage_conditions
    (Some (mkFilters
             (if truthy_string (filters ≫= category) then filters ≫= category else None)
             (if truthy_string (filters ≫= location) then filters ≫= location else None)
             (if truthy_string (filters ≫= rating) then filters ≫= rating else None))) =
  storage_conditions filters.
Proof.
  destruct filters as [[c l r]|]; [|reflexivity].
  unfold storage_conditions. simpl.
  f_equal; [|f_equal].
  - destruct c as [s|]; [|done]. simpl.
    destruct (String.eqb s "") eqn:E; simpl; by rewrite ?E.
  - destruct l as [s|]; [|done]. simpl.
    destruct (String.eqb s "") eqn:E; simpl; by rewrite ?E.
  - destruct r as [s|]; [|done]. simpl.
    destruct (String.eqb s "") eqn:E; simpl; by rewrite ?E.
Qed.

(** X13: when GET /api/establishments is served by the handler over a
    database, [fetchEstablishments] resolves with the conversion of what
    the query engine returns for the same filters over the stored
    establishments; an empty sort label is not sent and so sorts as the
    default does. *)
Theorem X13_fetchEstablishments_served
    (now : Z) (db : Database) (filters : option Filters) (sortBy : option string) :
  (forall query,
     fetch (mkRequest "GET" "/api/establishments" query None) =
     resolved (get_establishments_of_query query db).1) ->
  Adapters.fetchEstablishments apiRequest now filters sortBy =
  resolved
    (map (Adapters.toFirebaseEstablishment now)
       (storage_getEstablishments establishment_field filters
          (if truthy_string sortBy then sortBy else None) (establishments db))).
Proof.
  intros Hfetch. unfold Adapters.fetchEstablishments.
  rewrite (apiRequest_ok _ _ (Hfetch _)) by reflexivity.
  unfold get_establishments_of_query, Routes.get_establishments,
    DatabaseStorage.getEstablishments, store_bind, store_ret. simpl.
  rewrite <- (app_nil_r (Adapters.query_param "sortBy" sortBy)).
  rewrite !query_param_get. simpl.
  f_equal. f_equal.
  rewrite <- (storage_getEstablishments_conditions establishment_field _ _ _ _
                (storage_conditions_truthy filters)).
  reflexivity.
Qed.




(** X16: when GET /api/establishments/:id is served by the handler over
    a database, [fetchEstablishment] resolves with the conversion of the
    stored establishment, and with null when none is stored under the
    id, when the id is a number outside the column type and when it is
    not a number; it never rejects. *)
Theorem X16_fetchEstablishment_served
    (now : Z) (db : Database) (id : string) (parsed : option Z) :
  fetch (mkRequest "GET" ("/api/establishments/" +:+ id) [] None) =
    resolved (EstablishmentRoutes.get_establishment parsed db).1 ->
  Adapters.fetchEstablishment apiRequest now id =
  resolved
    (match parsed with
     | None => None
     | Some establishmentId =>
         if int32 establishmentId then
           Adapters.toFirebaseEstablishment now <$>
             (DatabaseStorage.getEstablishment establishmentId db).1
         else None
     end).
Proof.
  intros Hfetch. unfold Adapters.fetchEstablishment.
  destruct parsed as [establishmentId|].
  - rewrite get_establishment_eq in Hfetch.
    destruct (int32 establishmentId).
    + destruct ((DatabaseStorage.getEstablishment establishmentId db).1) as [e|].
      * by rewrite (apiRequest_ok _ _ Hfetch).
      * by rewrite (apiRequest_error _ _ _ Hfetch).
    + by rewrite (apiRequest_error _ _ _ Hfetch).
  - by rewrite (apiRequest_error _ _ _ Hfetch).
Qed.

(** X17: when the DELETE routes are served by the handlers over a
    database, [deleteEstablishment] and [deleteAttachment] resolve with
    true exactly when a record with the id, a number of the column type,
    was stored, and with false otherwise, including for an id that is
    not a number. *)
Theorem X17_delete_adapters_served
    (db : Database) (id : string) (parsed : option Z) :
  (fetch (mkRequest "DELETE" ("/api/establishments/" +:+ id) [] None) =
     resolved (Routes.delete_establishment parsed db).1 ->
   Adapters.deleteEstablishment apiRequest id =
   resolved
     (js_bool
        (match parsed with
         | None => false
         | Some z =>
             int32 z && existsb (fun e => est_id e =? z) (establishments db)
         end))) /\
  (fetch (mkRequest "DELETE" ("/api/attachments/" +:+ id) [] None) =
     resolved (Routes.delete_attachment parsed db).1 ->
   Adapters.deleteAttachment apiRequest id =
   resolved
     (js_bool
        (match parsed with
         | None => false
         | Some z =>
             int32 z && existsb (fun a => att_id a =? z) (attachments db)
         end))).
Proof.
  split; intros Hfetch.
  - unfold Adapters.deleteEstablishment.
    destruct parsed as [z|];
      [|simpl in Hfetch; by rewrite (apiRequest_error _ _ _ Hfetch)].
    rewrite delete_establishment_eq in Hfetch.
    destruct (int32 z); [|by rewrite (apiRequest_error _ _ _ Hfetch)].
    unfold DatabaseStorage.getEstablishment, DatabaseStorage.deleteEstablishment,
      DatabaseStorage.delete_attachments_where,
      DatabaseStorage.delete_establishments_where, store_bind, store_ret in Hfetch.
    simpl in Hfetch.
    destruct (existsb (fun e => est_id e =? z) (establishments db)) eqn:E.
    + assert (head (List.filter (fun e => est_id e =? z) (establishments db)) <> None)
        as Hhead by (rewrite head_filter_None; congruence).
      destruct (List.filter (fun e => est_id e =? z) (establishments db)) eqn:Ef;
        [done|]. simpl in Hfetch.
      by rewrite (apiRequest_ok _ _ Hfetch).
    + apply head_filter_None in E. rewrite E in Hfetch. simpl in Hfetch.
      by rewrite (apiRequest_error _ _ _ Hfetch).
  - unfold Adapters.deleteAttachment.
    destruct parsed as [z|];
      [|simpl in Hfetch; by rewrite (apiRequest_error _ _ _ Hfetch)].
    rewrite delete_attachment_eq in Hfetch.
    destruct (int32 z); [|by rewrite (apiRequest_error _ _ _ Hfetch)].
    simpl in Hfetch.
    destruct (existsb (fun a => att_id a =? z) (attachments db)) eqn:E.
    + assert (Nat.ltb 0 (length (List.filter (fun a => att_id a =? z) (attachments db)))
              = true) as Hlen.
      { apply length_filter_pos. apply existsb_exists in E. exact E. }
      rewrite Hlen in Hfetch. by rewrite (apiRequest_ok _ _ Hfetch).
    + rewrite existsb_false_In in E. rewrite (filter_nil_if _ _ E) in Hfetch.
      simpl in Hfetch. by rewrite (apiRequest_error _ _ _ Hfetch).
Qed.

End ClientServer.

(** A witness of X13: an empty category, a rating bucket and an empty
    sort label against the sample database. *)
Lemma X13_fetchEstablishments_served_witness :
  let fetch : Request -> Promise Response :=
    fun req => resolved (get_establishments_of_query (req_query req) sample_db).1 in
  let filters := Some (mkFilters (Some "") None (Some "4+ stars")) in
  Adapters.fetchEstablishments
    (QueryClient.apiRequest fetch (fun _ => "") (fun _ => "")) 0 filters (Some "") =
  resolved
    (map (Adapters.toFirebaseEstablishment 0)
       (storage_getEstablishments establishment_field filters None
          (establishments sample_db))).
Proof.
  intros fetch filters.
  apply (X13_fetchEstablishments_served fetch (fun _ => "") (fun _ => "") 0
           sample_db filters (Some "")).
  reflexivity.
Defined.



(** A witness of X16: establishment 2 of the sample database, whose
    createdAt arrives as text. *)
Lemma X16_fetchEstablishment_served_witness :
  let fetch : Request -> Promise Response :=
    fun req => resolved (EstablishmentRoutes.get_establishment (Some 2) sample_db).1 in
  Adapters.fetchEstablishment
    (QueryClient.apiRequest fetch (fun _ => "") (fun _ => "")) 0 "2" =
  resolved
    (Some (mkFirebaseEstablishment (js_string "2") (js_string "B")
             (js_string "Retail") (js_string "Uptown") js_undefined (js_string "3")
             js_undefined (js_string "1") (js_string "1970-01-01T00:00:00.200Z"))).
Proof.
  intros fetch.
  rewrite (X16_fetchEstablishment_served fetch (fun _ => "") (fun _ => "") 0
             sample_db "2" (Some 2)); [|reflexivity].
  vm_compute. reflexivity.
Defined.

(** A witness of X17: attachment 2 is in the sample database. *)
Lemma X17_delete_adapters_served_witness :
  let fetch : Request -> Promise Response :=
    fun req => resolved (Routes.delete_attachment (Some 2) sample_db).1 in
  Adapters.deleteAttachment
    (QueryClient.apiRequest fetch (fun _ => "") (fun _ => "")) "2" =
  resolved (js_bool true).
Proof.
  intros fetch.
  apply (X17_delete_adapters_served fetch (fun _ => "") (fun _ => "")
           sample_db "2" (Some 2)).
  reflexivity.
Defined.

(** ** File names and storage keys *)

Lemma split_nonempty sep s : split sep s <> [].
Proof.
  destruct s as [|c s]; simpl; [discriminate|].
  destruct (Ascii.eqb c sep); [discriminate|].
  destruct (split sep s); discriminate.
Qed.

Lemma split_app_sep sep a b :
  split sep (a ++ String sep b) = (split sep a ++ split sep b)%list.
Proof.
  induction a as [|c a IH]; simpl.
  - rewrite Ascii.eqb_refl. reflexivity.
  - rewrite IH. destruct (Ascii.eqb c sep); [reflexivity|].
    pose proof (split_nonempty sep a) as Hne.
    destruct (split sep a) as [|segment rest]; [congruence|]. reflexivity.
Qed.

Lemma split_no_sep sep s : has_char sep s = false -> split sep s = [s].
Proof.
  induction s as [|c s IH]; simpl; [reflexivity|].
  intros H. apply orb_false_iff in H as [Hc Hs].
  rewrite Hc, (IH Hs). reflexivity.
Qed.

Lemma has_char_app c a b : has_char c (a ++ b) = has_char c a || has_char c b.
Proof.
  induction a as [|c' a IH]; simpl; [reflexivity|].
  rewrite IH, orb_assoc. reflexivity.
Qed.

Lemma has_char_split c sep s :
  has_char c s = false ->
  forall segment, In segment (split sep s) -> has_char c segment = false.
Proof.
  induction s as [|c' s IH]; simpl.
  - intros _ segment [<-|[]]. reflexivity.
  - intros H. apply orb_false_iff in H as [Hc Hs].
    specialize (IH Hs).
    destruct (Ascii.eqb c' sep).
    + intros segment [<-|Hin]; [reflexivity|auto].
    + pose proof (split_nonempty sep s) as Hne.
      destruct (split sep s) as [|first rest]; [congruence|].
      intros segment [<-|Hin].
      * simpl. rewrite Hc. apply IH. left. reflexivity.
      * apply IH. right. exact Hin.
Qed.

Lemma pop_split_In sep s :
  exists ext, pop (split sep s) = Some ext /\ In ext (split sep s).
Proof.
  pose proof (split_nonempty sep s) as Hne.
  unfold pop.
  destruct (split sep s) as [|x l] using rev_ind; [congruence|].
  exists x. rewrite last_snoc. split; [reflexivity|].
  apply in_or_app. right. left. reflexivity.
Qed.

Lemma pop_split_ext sep base ext :
  has_char sep ext = false ->
  pop (split sep (base ++ String sep ext)) = Some ext.
Proof.
  intros H. rewrite split_app_sep, (split_no_sep _ _ H).
  unfold pop. apply last_snoc.
Qed.

Lemma slice_last_app {A} (l k : list A) : slice_last (length k) (l ++ k) = k.
Proof.
  unfold slice_last. rewrite length_app.
  replace (length l + length k - length k)%nat with (length l) by lia.
  apply drop_app_length.
Qed.

Lemma split_path sep pre a b c :
  has_char sep a = false -> has_char sep b = false -> has_char sep c = false ->
  slice_last 3 (split sep (pre ++ String sep (a ++ String sep (b ++ String sep c))))
  = [a; b; c].
Proof.
  intros Ha Hb Hc.
  rewrite split_app_sep, split_app_sep, split_app_sep.
  rewrite (split_no_sep _ _ Ha), (split_no_sep _ _ Hb), (split_no_sep _ _ Hc).
  apply (slice_last_app (split sep pre) [a; b; c]).
Qed.

(** X18.  The key that [deleteFile] removes is the key that [uploadFile]
    stored: when the path of the public URL ends in a slash followed by
    the stored key, and neither the establishment id nor the name of the
    uploaded file holds a slash, the last three segments of the path,
    joined again, are that key. *)
Theorem X18_deleteFile_recovers_key
    (prefix establishmentId stamp random name : string) :
  has_char "/" establishmentId = false ->
  has_char "/" stamp = false ->
  has_char "/" random = false ->
  has_char "/" name = false ->
  let key :=
    SupabaseStorage.uploadFile_filePath establishmentId
      (SupabaseStorage.uploadFile_fileName stamp random name) in
  SupabaseStorage.deleteFile_filePath (prefix ++ "/" ++ key) = key.
Proof.
  intros Hid Hstamp Hrandom Hname key.
  destruct (pop_split_In "." name) as (ext & Hpop & Hin).
  pose proof (has_char_split "/" "." name Hname ext Hin) as Hext.
  assert (Hfile : has_char "/"
            (SupabaseStorage.uploadFile_fileName stamp random name) = false).
  { unfold SupabaseStorage.uploadFile_fileName. rewrite Hpop.
    change (default "undefined" (Some ext)) with ext.
    rewrite !has_char_app, Hstamp, Hrandom, Hext. reflexivity. }
  unfold SupabaseStorage.deleteFile_filePath.
  subst key. unfold SupabaseStorage.uploadFile_filePath.
  set (fileName := SupabaseStorage.uploadFile_fileName stamp random name) in *.
  change (prefix ++ "/" ++ "establishments/" ++ establishmentId ++ "/" ++ fileName)%string
    with (prefix ++ String "/" ("establishments" ++
            String "/" (establishmentId ++ String "/" fileName)))%string.
  rewrite (split_path "/" prefix "establishments" establishmentId fileName);
    [|reflexivity|exact Hid|exact Hfile].
  reflexivity.
Qed.

Lemma X18_deleteFile_recovers_key_witness :
  SupabaseStorage.deleteFile_filePath
    "/storage/v1/object/public/attachments/establishments/e7/1700000000000_k3x9.gz"
  = "establishments/e7/1700000000000_k3x9.gz".
Proof.
  apply (X18_deleteFile_recovers_key "/storage/v1/object/public/attachments"
           "e7" "1700000000000" "k3x9" "report.tar.gz"); reflexivity.
Defined.

Lemma lower_ascii_idem c : lower_ascii (lower_ascii c) = lower_ascii c.
Proof. destruct c as [[] [] [] [] [] [] [] []]; reflexivity. Qed.

Lemma lower_ascii_dot c : Ascii.eqb (lower_ascii c) "." = Ascii.eqb c ".".
Proof. destruct c as [[] [] [] [] [] [] [] []]; reflexivity. Qed.

Lemma toLowerCase_idem s : toLowerCase (toLowerCase s) = toLowerCase s.
Proof.
  induction s as [|c s IH]; simpl; [reflexivity|].
  rewrite lower_ascii_idem, IH. reflexivity.
Qed.

Lemma has_dot_toLowerCase s : has_char "." (toLowerCase s) = has_char "." s.
Proof.
  induction s as [|c s IH]; simpl; [reflexivity|].
  rewrite lower_ascii_dot, IH. reflexivity.
Qed.

Lemma getFileType_pop name ext :
  pop (split "." name) = Some ext ->
  SupabaseStorage.getFileType name = SupabaseStorage.getFileType ext \/
  has_char "." ext = true.
Proof.
  intros Hpop. destruct (has_char "." ext) eqn:Hdot; [right; reflexivity|left].
  unfold SupabaseStorage.getFileType.
  rewrite Hpop, (split_no_sep _ _ Hdot). reflexivity.
Qed.

Lemma getFileType_ext base ext :
  has_char "." ext = false ->
  SupabaseStorage.getFileType (base ++ String "." ext)
  = SupabaseStorage.getFileType ext.
Proof.
  intros Hdot.
  destruct (getFileType_pop (base ++ String "." ext) ext) as [H|H].
  - apply pop_split_ext. exact Hdot.
  - exact H.
  - congruence.
Qed.

(** X19.  [getFileType] looks only at what follows the last dot of the
    name, and at that without regard to the case of ASCII letters; a
    name without a dot is taken for its own extension. *)
Theorem X19_getFileType_by_extension (base ext : string) :
  has_char "." ext = false ->
  SupabaseStorage.getFileType (base ++ "." ++ ext)
  = SupabaseStorage.getFileType ext /\
  SupabaseStorage.getFileType (toLowerCase ext)
  = SupabaseStorage.getFileType ext.
Proof.
  intros Hdot. split.
  - apply (getFileType_ext base ext Hdot).
  - unfold SupabaseStorage.getFileType.
    rewrite (split_no_sep "." ext Hdot).
    rewrite (split_no_sep "." (toLowerCase ext))
      by (rewrite has_dot_toLowerCase; exact Hdot).
    change (toLowerCase <$> pop [toLowerCase ext])
      with (Some (toLowerCase (toLowerCase ext))).
    rewrite toLowerCase_idem. reflexivity.
Qed.

Lemma X19_getFileType_by_extension_witness :
  SupabaseStorage.getFileType "Annual.Report.PDF" = "application/pdf".
Proof.
  destruct (X19_getFileType_by_extension "Annual.Report" "PDF" eq_refl)
    as [H1 H2].
  exact (eq_trans H1 (eq_trans (eq_sym H2) eq_refl)).
Defined.

Lemma substring_all s : substring 0 (String.length s) s = s.
Proof. induction s as [|c s IH]; simpl; [reflexivity|]. rewrite IH. reflexivity. Qed.

Lemma substring_0_0 s : substring 0 0 s = EmptyString.
Proof. destruct s; reflexivity. Qed.

Lemma substring_cut n s :
  (n <= String.length s)%nat ->
  s = (substring 0 n s ++ substring n (String.length s - n) s)%string.
Proof.
  revert s. induction n as [|n IH]; intros s Hn.
  - rewrite substring_0_0, Nat.sub_0_r, substring_all. reflexivity.
  - destruct s as [|c s]; simpl in Hn; [lia|].
    simpl.
    change (String c s
            = String c (substring 0 n s
                        ++ substring n (String.length s - n) s)%string).
    f_equal. apply IH. lia.
Qed.

Lemma endsWith_app s suffix :
  endsWith s suffix = true -> exists pre, s = (pre ++ suffix)%string.
Proof.
  unfold endsWith. intros H. apply andb_true_iff in H as [Hlen Heq].
  apply Nat.leb_le in Hlen. apply String.eqb_eq in Heq.
  exists (substring 0 (String.length s - String.length suffix) s).
  pose proof (substring_cut (String.length s - String.length suffix) s) as Hcut.
  replace (String.length s - (String.length s - String.length suffix))%nat
    with (String.length suffix) in Hcut by lia.
  rewrite Heq in Hcut. apply Hcut. lia.
Qed.

Lemma map_fixed {A} (f : A -> A) (l : list A) :
  (forall x, In x l -> f x = x) -> map f l = l.
Proof.
  induction l as [|x l IH]; simpl; intros H; [reflexivity|].
  rewrite (H x), IH by auto. reflexivity.
Qed.

Lemma startsWith_dot ext : startsWith (String "." ext) "." = true.
Proof.
  apply String.prefix_correct. simpl. rewrite substring_0_0. reflexivity.
Qed.

Lemma isValidType_extension (trim : string -> string) (accept : string)
    (file : File) :
  (forall type, In type (split "," accept) -> trim type = type) ->
  FileUpload.isValidType trim accept file = true ->
  exists type,
    In type (split "," accept) /\
    (startsWith type "." = true -> endsWith (file_name file) type = true).
Proof.
  intros Htrim Hvalid.
  unfold FileUpload.isValidType, FileUpload.acceptTypes in Hvalid.
  rewrite (map_fixed trim _ Htrim) in Hvalid.
  apply existsb_exists in Hvalid as (type & Hin & Htest).
  exists type. split; [exact Hin|].
  intros Hstarts. rewrite Hstarts in Htest. exact Htest.
Qed.

Lemma details_accept_types type :
  In type (split "," details_accept) ->
  exists ext,
    type = String "." ext /\ has_char "." ext = false /\
    SupabaseStorage.getFileType ext <> "application/octet-stream".
Proof.
  intros Hin.
  assert (Hl : split "," details_accept =
            [".pdf"; ".doc"; ".docx"; ".xls"; ".xlsx";
             ".png"; ".jpg"; ".jpeg"; ".gif"; ".zip"])
    by (vm_compute; reflexivity).
  rewrite Hl in Hin. clear Hl. simpl in Hin.
  repeat (destruct Hin as [<-|Hin];
          [eexists; split; [reflexivity|];
           split; [vm_compute; reflexivity|vm_compute; discriminate]|]).
  destruct Hin.
Qed.

(** X20.  With the [accept] list of the details page, a file that the
    picker lets through has a name whose extension [getFileType] knows:
    its type is never the fallback [application/octet-stream].  ([trim]
    leaves the entries of that list as they are, having no blanks.) *)
Theorem X20_accepted_file_has_known_type (trim : string -> string) (file : File) :
  (forall type, In type (split "," details_accept) -> trim type = type) ->
  FileUpload.isValidType trim details_accept file = true ->
  SupabaseStorage.getFileType (file_name file) <> "application/octet-stream".
Proof.
  intros Htrim Hvalid.
  destruct (isValidType_extension trim details_accept file Htrim Hvalid)
    as (type & Hin & Hends).
  destruct (details_accept_types type Hin) as (ext & -> & Hdot & Hknown).
  destruct (endsWith_app _ _ (Hends (startsWith_dot ext))) as (pre & Hname).
  rewrite Hname, (getFileType_ext pre ext Hdot). exact Hknown.
Qed.

Lemma X20_accepted_file_has_known_type_witness :
  SupabaseStorage.getFileType "Menu.pdf" <> "application/octet-stream".
Proof.
  apply (X20_accepted_file_has_known_type (fun s => s)
           (mkFile "Menu.pdf" "application/pdf" 1024)).
  - intros type _. reflexivity.
  - vm_compute. reflexivity.
Defined.

(** X21.  [processFiles] hands the parent a prefix of the files it is
    given, each within the size limit and of an accepted type; it stops
    at the first file that is too large or of a type not accepted, with
    the matching message, and leaves no error when every file passed. *)
Theorem X21_processFiles_prefix (trim : string -> string)
    (number_text : Q -> string) (accept : string) (maxFileSize : Z)
    (files : list File) :
  let result :=
    FileUpload.processFiles trim number_text accept maxFileSize files in
  exists rest,
    files = (result.1 ++ rest)%list /\
    Forall (fun file =>
              file_size file <= maxFileSize /\
              (accept = "" \/ accept = "*" \/
               FileUpload.isValidType trim accept file = true)) result.1 /\
    match rest with
    | [] => result.2 = None
    | file :: _ =>
        (maxFileSize < file_size file /\
         result.2 = Some ("File too large. Maximum size is "
                          ++ number_text (inject_Z maxFileSize / 1024 / 1024)%Q
                          ++ "MB.")) \/
        (file_size file <= maxFileSize /\
         accept <> "" /\ accept <> "*" /\
         FileUpload.isValidType trim accept file = false /\
         result.2 = Some ("Invalid file type. Accepted: " ++ accept))
    end.
Proof.
  unfold FileUpload.processFiles.
  induction files as [|file files IH]; simpl.
  - exists []. split; [reflexivity|]. split; [constructor|reflexivity].
  - destruct (Z.ltb_spec maxFileSize (file_size file)) as [Hbig|Hfit].
    { exists (file :: files). simpl. split; [reflexivity|].
      split; [constructor|]. left. split; [exact Hbig|reflexivity]. }
    destruct (String.eqb_spec accept "") as [Hempty|Hempty]; simpl.
    { destruct IH as (rest & Hfiles & Hall & Hrest).
      destruct (FileUpload.processFiles_loop trim number_text accept
                  maxFileSize files) as [selected error].
      simpl in *. exists rest. split; [congruence|].
      split; [|exact Hrest]. constructor; [|exact Hall]. tauto. }
    destruct (String.eqb_spec accept "*") as [Hstar|Hstar]; simpl.
    { destruct IH as (rest & Hfiles & Hall & Hrest).
      destruct (FileUpload.processFiles_loop trim number_text accept
                  maxFileSize files) as [selected error].
      simpl in *. exists rest. split; [congruence|].
      split; [|exact Hrest]. constructor; [|exact Hall]. tauto. }
    destruct (FileUpload.isValidType trim accept file) eqn:Hvalid; simpl.
    { destruct IH as (rest & Hfiles & Hall & Hrest).
      destruct (FileUpload.processFiles_loop trim number_text accept
                  maxFileSize files) as [selected error].
      simpl in *. exists rest. split; [congruence|].
      split; [|exact Hrest]. constructor; [|exact Hall]. tauto. }
    exists (file :: files). simpl. split; [reflexivity|].
    split; [constructor|]. right. repeat split; assumption.
Qed.

(** ** Single documents of the document store *)

Lemma js_get_with_id (data : JsObject) key k :
  js_get (data ∪ {["id" := key]}) k
  = match data !! k with
    | Some v => v
    | None => if String.eqb k "id" then key else js_undefined
    end.
Proof.
  unfold js_get. rewrite lookup_union.
  destruct (data !! k) as [v|] eqn:Hk; simpl.
  - destruct ((({["id" := key]} : JsObject) !! k)); reflexivity.
  - destruct (String.eqb_spec k "id") as [->|Hne].
    + rewrite lookup_singleton_eq. reflexivity.
    + rewrite lookup_singleton_ne by congruence. reflexivity.
Qed.

Lemma js_get_found (data : JsObject) key createdAt k :
  k <> "createdAt" -> k <> "id" ->
  js_get (<["createdAt" := createdAt]> (data ∪ {["id" := key]})) k
  = js_get data k.
Proof.
  intros Hc Hid. rewrite js_get_insert_ne by congruence.
  rewrite js_get_with_id. unfold js_get.
  destruct (data !! k); [reflexivity|].
  destruct (String.eqb_spec k "id"); [contradiction|reflexivity].
Qed.

(** X22.  [getEstablishmentById] and the conversion used for listings
    read a document alike, up to the defaults: they fail together (the
    former with the fallback message when the error has none); when they
    succeed they agree on the time of creation, name, category, location
    and owner; the listing is the found object with its empty
    description, rating and cover image replaced by the defaults; and
    the found object carries the document's own [id] field, if it has
    one, where the listing always carries the document key. *)
Theorem X22_getEstablishmentById_vs_listing (now : Z)
    (collection : list Document) (id : string) (doc : Document) :
  FirestoreDocuments.getDoc collection id = Some doc ->
  match Firestore.convertDocToEstablishment now doc,
        FirestoreDocuments.getEstablishmentById now collection id with
  | resolved listed, resolved (Some found) =>
      js_get found "createdAt" = fe_createdAt listed /\
      js_get found "name" = fe_name listed /\
      js_get found "category" = fe_category listed /\
      js_get found "location" = fe_location listed /\
      js_get found "userId" = fe_userId listed /\
      js_or (js_get found "description") (js_string "") = fe_description listed /\
      js_or (js_get found "rating") (js_string "5") = fe_rating listed /\
      js_or (js_get found "coverImage") (js_string "") = fe_coverImage listed /\
      js_get found "id" = match doc_data doc !! "id" with
                          | Some own => own
                          | None => fe_id listed
                          end
  | rejected message, rejected message' =>
      message' = Firestore.message_or message "Failed to get establishment"
  | _, _ => False
  end.
Proof.
  intros Hdoc.
  unfold FirestoreDocuments.getEstablishmentById, Firestore.convertDocToEstablishment.
  rewrite Hdoc.
  destruct (if truthy (js_get (doc_data doc) "createdAt")
            then Firestore.toDate (js_get (doc_data doc) "createdAt")
            else resolved (js_date now)) as [createdAt|message]; simpl.
  - rewrite js_get_insert.
    rewrite !js_get_found by discriminate.
    rewrite js_get_insert_ne by discriminate.
    rewrite js_get_with_id. simpl.
    repeat split; reflexivity.
  - reflexivity.
Qed.

Lemma X22_getEstablishmentById_vs_listing_witness :
  let doc := mkDocument "k1" (<["id" := js_string "own"]>
                              (<["name" := js_string "Cafe"]> ∅)) in
  exists listed found,
    Firestore.convertDocToEstablishment 5 doc = resolved listed /\
    FirestoreDocuments.getEstablishmentById 5 [doc] "k1" = resolved (Some found) /\
    fe_id listed = js_string "k1" /\
    js_get found "id" = js_string "own" /\
    fe_rating listed = js_string "5" /\
    js_get found "rating" = js_undefined.
Proof.
  intros doc.
  pose proof (X22_getEstablishmentById_vs_listing 5 [doc] "k1" doc eq_refl) as H.
  destruct (Firestore.convertDocToEstablishment 5 doc) as [listed|] eqn:Hl;
    [|discriminate Hl].
  destruct (FirestoreDocuments.getEstablishmentById 5 [doc] "k1")
    as [[found|]|] eqn:Hf; [|destruct H|destruct H].
  exists listed, found.
  injection Hl as <-. injection Hf as <-.
  repeat split; reflexivity.
Defined.

Lemma getDoc_added (collection : list Document) key data :
  (forall d, In d collection -> doc_id d <> key) ->
  FirestoreDocuments.getDoc (collection ++ [mkDocument key data]) key
  = Some (mkDocument key data).
Proof.
  intros Hfresh. unfold FirestoreDocuments.getDoc.
  apply head_filter_snoc_fresh.
  - apply existsb_false_In. intros d Hd.
    apply String.eqb_neq. apply Hfresh. exact Hd.
  - apply String.eqb_refl.
Qed.

Lemma getDoc_other (collection : list Document) key data id :
  id <> key ->
  FirestoreDocuments.getDoc (collection ++ [mkDocument key data]) id
  = FirestoreDocuments.getDoc collection id.
Proof.
  intros Hne. unfold FirestoreDocuments.getDoc.
  rewrite List.filter_app. simpl.
  destruct (String.eqb_spec key id) as [Heq|_]; [congruence|].
  rewrite app_nil_r. reflexivity.
Qed.

(** X23.  A document added by [addEstablishment] is read back by
    [getEstablishmentById] under the returned key as the very object
    that [addEstablishment] returned, save that the time of creation is
    the server's and not the client's; reading any other key gives what
    it gave before.  ([addDoc] is taken to store the data under a key
    no document had.) *)
Theorem X23_added_establishment_is_found
    (addDoc : JsObject -> list Document -> Promise (string * list Document))
    (now server_now later : Z) (data : JsObject)
    (collection : list Document) (key : string) :
  (forall d, In d collection -> doc_id d <> key) ->
  addDoc (<["createdAt" := js_timestamp server_now]> data) collection
  = resolved
      (key,
       (collection
        ++ [mkDocument key (<["createdAt" := js_timestamp server_now]> data)])%list) ->
  exists added collection',
    FirestoreDocuments.addEstablishment addDoc now server_now data collection
    = resolved (added, collection') /\
    js_get added "createdAt" = js_date now /\
    FirestoreDocuments.getEstablishmentById later collection' key
    = resolved (Some (<["createdAt" := js_date server_now]> added)) /\
    forall id, id <> key ->
      FirestoreDocuments.getEstablishmentById later collection' id
      = FirestoreDocuments.getEstablishmentById later collection id.
Proof.
  intros Hfresh Hadd.
  unfold FirestoreDocuments.addEstablishment. rewrite Hadd. simpl.
  eexists _, _. split; [reflexivity|].
  split; [apply js_get_insert|].
  split.
  - unfold FirestoreDocuments.getEstablishmentById.
    rewrite (getDoc_added _ _ _ Hfresh). simpl.
    rewrite js_get_insert. simpl.
    rewrite <- insert_union_l, !insert_insert_eq. reflexivity.
  - intros id Hne. unfold FirestoreDocuments.getEstablishmentById.
    rewrite (getDoc_other _ _ _ _ Hne). reflexivity.
Qed.

Lemma X23_added_establishment_is_found_witness :
  let data : JsObject := <["name" := js_string "Cafe"]> ∅ in
  let addDoc (d : JsObject) (c : list Document) :=
    resolved ("k9", (c ++ [mkDocument "k9" d])%list) in
  exists added collection',
    FirestoreDocuments.addEstablishment addDoc 10 12 data [] 
    = resolved (added, collection') /\
    FirestoreDocuments.getEstablishmentById 20 collection' "k9"
    = resolved (Some (<["createdAt" := js_date 12]> added)).
Proof.
  intros data addDoc.
  destruct (X23_added_establishment_is_found addDoc 10 12 20 data [] "k9")
    as (added & collection' & Hadd & _ & Hget & _).
  - intros d [].
  - reflexivity.
  - exists added, collection'. split; assumption.
Defined.
